(** * Snapcore Charge Analytics: CSV processor, efficiency calculator, router

    A shallow embedding of [services/csv_processor.py],
    [services/efficiency_calculator.py] and
    [app/routers/charging_analysis.py].

    Modelling conventions.
    - A Python [str] is a [string] of 8-bit characters; [lower], [\d], [\s]
      and [\b] are the ASCII ones.
    - A Python or NumPy [float] is a [pyfloat]: an exact rational kept in
      lowest terms, plus the three IEEE specials [inf], [-inf] and [nan].
      Rounding, overflow and the sign of zero are outside the model.
    - Exceptions are values of [exn]; code that can raise returns an
      [outcome].
    - A [DataFrame] is a list of column labels with a list of rows, a row
      being a finite map from column label to cell; labels are distinct.
    - A [Timestamp] counts nanoseconds, as pandas does; a [datetime.time]
      counts microseconds.
    - A path is read as [pathlib.Path] reads a POSIX path: empty and [.]
      components and trailing slashes go, [str(Path(s))] is the text that
      is left.
    - What pandas does behind [read_csv] and behind the parsing of a date
      text is left open: the functions that need them take them as
      arguments ([read_csv], [path_exists], [parse_datetime]).  The reader
      of dates is given the whole column with the text to read, since
      [pd.to_datetime] picks the format of a column from its first texts.
      Runs of the model use [iso_dates], a reader of ISO 8601 dates.
    - The router's [validate_csv_file] is left open too; it may return or
      raise an [HTTPException] of any status. *)

From Stdlib Require Import ZArith QArith Qreduction Qround Qabs Lia Lqa.
From Stdlib Require Import Ascii String List DecimalString.
From stdpp Require Import base option list gmap strings.

Local Open Scope string_scope.
Local Open Scope list_scope.
Local Open Scope Z_scope.

(** ** Exceptions *)

Inductive exn : Type :=
| ValueError (msg : string)
| TypeError (msg : string)
| KeyError (msg : string)
| AttributeError (msg : string)
| FileNotFoundError (msg : string)
| OSError (msg : string)
| ZeroDivisionError (msg : string)
| FrozenInstanceError (msg : string).

(** [str(e)]: the text an f-string prints for the exception. *)
Definition exn_str (e : exn) : string :=
  match e with
  | ValueError m | TypeError m | KeyError m | AttributeError m
  | FileNotFoundError m | OSError m | ZeroDivisionError m
  | FrozenInstanceError m => m
  end.

Inductive outcome (A : Type) : Type :=
| Ok (a : A)
| Raise (e : exn).
Arguments Ok {A} a.
Arguments Raise {A} e.

#[global] Instance outcome_ret : MRet outcome := fun A a => Ok a.
#[global] Instance outcome_bind : MBind outcome := fun A B k m =>
  match m with
  | Ok a => k a
  | Raise e => Raise e
  end.

#[global] Instance outcome_fmap : FMap outcome := fun A B f m =>
  match m with
  | Ok a => Ok (f a)
  | Raise e => Raise e
  end.

(** [try: body / except Exception as e: handler e]. *)
Definition try_except {A} (body : outcome A) (handler : exn -> outcome A) : outcome A :=
  match body with
  | Ok a => Ok a
  | Raise e => handler e
  end.

Definition raises {A} (m : outcome A) : Prop := exists e, m = Raise e.

(** ** Characters and strings *)

Definition chars (s : string) : list ascii := list_ascii_of_string s.
Definition text (l : list ascii) : string := string_of_list_ascii l.

Definition is_digit (c : ascii) : bool :=
  let n := nat_of_ascii c in (48 <=? n)%nat && (n <=? 57)%nat.

Definition is_upper (c : ascii) : bool :=
  let n := nat_of_ascii c in (65 <=? n)%nat && (n <=? 90)%nat.

Definition is_alpha (c : ascii) : bool :=
  let n := nat_of_ascii c in
  ((65 <=? n)%nat && (n <=? 90)%nat) || ((97 <=? n)%nat && (n <=? 122)%nat).

(** [\w]. *)
Definition is_word (c : ascii) : bool :=
  is_alpha c || is_digit c || Ascii.eqb c "_"%char.

(** [\s]: space, tab, newline, vertical tab, form feed, carriage return. *)
Definition is_space (c : ascii) : bool :=
  let n := nat_of_ascii c in (n =? 32)%nat || ((9 <=? n)%nat && (n <=? 13)%nat).

Definition lower_char (c : ascii) : ascii :=
  if is_upper c then ascii_of_nat (nat_of_ascii c + 32) else c.

(** [s.lower()] *)
Definition lower (s : string) : string := text (map lower_char (chars s)).

Fixpoint starts_with (p s : list ascii) : bool :=
  match p, s with
  | [], _ => true
  | a :: p', b :: s' => Ascii.eqb a b && starts_with p' s'
  | _ :: _, [] => false
  end.

Fixpoint contains_list (p s : list ascii) : bool :=
  starts_with p s ||
  match s with
  | [] => false
  | _ :: s' => contains_list p s'
  end.

(** [k in s] on strings. *)
Definition str_contains (k s : string) : bool := contains_list (chars k) (chars s).

(** [s.strip()] *)
Fixpoint lstrip (l : list ascii) : list ascii :=
  match l with
  | c :: l' => if is_space c then lstrip l' else l
  | [] => []
  end.
Definition strip (s : string) : string :=
  text (rev (lstrip (rev (lstrip (chars s))))).

(** [re.sub(r"[^...]", "", s)]: keep the characters of the class. *)
Definition keep_chars (keep : ascii -> bool) (s : string) : string :=
  text (List.filter keep (chars s)).

(** [s.replace(a, b)] for a one-character [a]. *)
Definition replace_char (a : ascii) (b : list ascii) (s : string) : string :=
  text (flat_map (fun c => if Ascii.eqb c a then b else [c]) (chars s)).

Definition has_char (a : ascii) (s : string) : bool :=
  existsb (Ascii.eqb a) (chars s).

(** ** Floats *)

Inductive pyfloat : Type :=
| Fin (q : Q)
| PInf
| NInf
| NaN.

Definition fin (q : Q) : pyfloat := Fin (Qred q).
Definition fzero : pyfloat := Fin 0.
Definition of_Z (z : Z) : pyfloat := Fin (inject_Z z).
(** A decimal literal [m] times ten to the [-d]: [dec 123456 2] is 1234.56. *)
Definition dec (m : Z) (d : positive) : pyfloat := fin (m # (10 ^ d)).

Definition Qlt_bool (a b : Q) : bool := negb (Qle_bool b a).
Definition Qsgn (a : Q) : Z := Z.sgn (Qnum a).

Definition is_nan (x : pyfloat) : bool :=
  match x with NaN => true | _ => false end.

(** [x <= y], [x < y], [x == y]: false as soon as one side is [nan]. *)
Definition fle (x y : pyfloat) : bool :=
  match x, y with
  | NaN, _ | _, NaN => false
  | NInf, _ | _, PInf => true
  | Fin a, Fin b => Qle_bool a b
  | _, _ => false
  end.
Definition flt (x y : pyfloat) : bool :=
  match x, y with
  | NaN, _ | _, NaN => false
  | PInf, _ | _, NInf => false
  | Fin a, Fin b => Qlt_bool a b
  | _, _ => true
  end.
Definition fge (x y : pyfloat) : bool := fle y x.
Definition fgt (x y : pyfloat) : bool := flt y x.
Definition feq (x y : pyfloat) : bool :=
  match x, y with
  | Fin a, Fin b => Qeq_bool a b
  | PInf, PInf | NInf, NInf => true
  | _, _ => false
  end.

Definition fneg (x : pyfloat) : pyfloat :=
  match x with
  | Fin a => fin (- a)
  | PInf => NInf
  | NInf => PInf
  | NaN => NaN
  end.

Definition fadd (x y : pyfloat) : pyfloat :=
  match x, y with
  | NaN, _ | _, NaN => NaN
  | PInf, NInf | NInf, PInf => NaN
  | PInf, _ | _, PInf => PInf
  | NInf, _ | _, NInf => NInf
  | Fin a, Fin b => fin (a + b)
  end.
Definition fsub (x y : pyfloat) : pyfloat := fadd x (fneg y).

Definition inf_of_sign (s : Z) : pyfloat :=
  match s with
  | Z0 => NaN
  | Zpos _ => PInf
  | Zneg _ => NInf
  end.
Definition fsgn (x : pyfloat) : Z :=
  match x with
  | Fin a => Qsgn a
  | PInf => 1
  | NInf => -1
  | NaN => 0
  end.

Definition fmul (x y : pyfloat) : pyfloat :=
  match x, y with
  | NaN, _ | _, NaN => NaN
  | Fin a, Fin b => fin (a * b)
  | _, _ => inf_of_sign (fsgn x * fsgn y)
  end.

(** NumPy's [x / y]: a division by zero gives an infinity or [nan]. *)
Definition fdiv (x y : pyfloat) : pyfloat :=
  match x, y with
  | NaN, _ | _, NaN => NaN
  | Fin a, Fin b => if Qeq_bool b 0 then inf_of_sign (Qsgn a) else fin (a / b)
  | Fin _, _ => fzero
  | _, Fin b => inf_of_sign (fsgn x * (if Qeq_bool b 0 then 1 else Qsgn b))
  | _, _ => NaN
  end.

(** Python's [x / y] on floats: a zero divisor raises. *)
Definition truediv (x y : pyfloat) : outcome pyfloat :=
  if feq y fzero then Raise (ZeroDivisionError "float division by zero")
  else Ok (fdiv x y).

(** Python's [max(a, b)] and [min(a, b)]: the first argument unless the
    second is strictly beyond it. *)
Definition fmax (x y : pyfloat) : pyfloat := if fgt y x then y else x.
Definition fmin (x y : pyfloat) : pyfloat := if flt y x then y else x.

(** [Series.clip(lo, hi)] on one value: a missing value stays missing. *)
Definition clip (lo hi : pyfloat) (x : pyfloat) : pyfloat :=
  if is_nan x then NaN
  else if flt x lo then lo else if fgt x hi then hi else x.

(** [Series.sum()]: missing values are skipped. *)
Definition fsum (l : list pyfloat) : pyfloat :=
  fold_left fadd (List.filter (fun x => negb (is_nan x)) l) fzero.

(** [Series.mean()]: missing values are skipped; [nan] when none is left. *)
Definition fmean (l : list pyfloat) : pyfloat :=
  let l' := List.filter (fun x => negb (is_nan x)) l in
  match l' with
  | [] => NaN
  | _ => fdiv (fold_left fadd l' fzero) (of_Z (Z.of_nat (length l')))
  end.

(** ** Text and numbers *)

Definition digit_val (c : ascii) : Z := Z.of_nat (nat_of_ascii c) - 48.

Fixpoint take_digits (l : list ascii) (acc : Z) (n : nat) : Z * nat * list ascii :=
  match l with
  | c :: l' =>
      if is_digit c then take_digits l' (10 * acc + digit_val c) (S n) else (acc, n, l)
  | [] => (acc, n, [])
  end.

Definition take_sign (l : list ascii) : Z * list ascii :=
  match l with
  | "-"%char :: l' => (-1, l')
  | "+"%char :: l' => (1, l')
  | _ => (1, l)
  end.

Definition is_e (c : ascii) : bool := Ascii.eqb c "e"%char || Ascii.eqb c "E"%char.

(** A decimal literal: sign, digits with an optional point, optional exponent. *)
Definition parse_decimal (l : list ascii) : option pyfloat :=
  let '(sg, l1) := take_sign l in
  let '(ip, ni, l2) := take_digits l1 0 0 in
  let '(fp, nf, l3) :=
    match l2 with
    | "."%char :: l' => take_digits l' 0 0
    | _ => (0, 0%nat, l2)
    end in
  if (ni + nf =? 0)%nat then None
  else
    let mant := (inject_Z (sg * (ip * 10 ^ Z.of_nat nf + fp)) / inject_Z (10 ^ Z.of_nat nf))%Q in
    match l3 with
    | [] => Some (fin mant)
    | c :: l4 =>
        if is_e c then
          let '(es, l5) := take_sign l4 in
          let '(ev, ne, l6) := take_digits l5 0 0 in
          match ne, l6 with
          | S _, [] => Some (fin (mant * Qpower (10 # 1) (es * ev))%Q)
          | _, _ => None
          end
        else None
    end.

Definition parse_special (l : list ascii) : option pyfloat :=
  let '(sg, l1) := take_sign l in
  let w := text (map lower_char l1) in
  if String.eqb w "inf" || String.eqb w "infinity"
  then Some (if sg =? 1 then PInf else NInf)
  else if String.eqb w "nan" then Some NaN else None.

(** [pd.to_numeric(s, errors="coerce")] on one text value. *)
Definition to_numeric (s : string) : pyfloat :=
  let l := chars (strip s) in
  match parse_decimal l with
  | Some x => x
  | None => default NaN (parse_special l)
  end.

(** [float(s)]: raises where [to_numeric] coerces. *)
Definition py_float (s : string) : outcome pyfloat :=
  let l := chars (strip s) in
  match parse_decimal l with
  | Some x => Ok x
  | None =>
      match parse_special l with
      | Some x => Ok x
      | None => Raise (ValueError ("could not convert string to float: " +:+ s))
      end
  end.

(** Printing. *)
Definition Z_digits (z : Z) : list ascii :=
  chars (DecimalString.NilZero.string_of_uint (N.to_uint (Z.to_N z))).

Definition round_half_even (x : Q) : Z :=
  let f := Qfloor x in
  let r := (x - inject_Z f)%Q in
  if Qlt_bool r (1 # 2) then f
  else if Qlt_bool (1 # 2) r then f + 1
  else if Z.even f then f else f + 1.

(** [floor(log10 a)] for [a > 0]. *)
Definition decimal_exponent (a : Q) : Z :=
  let k := Z.of_nat (length (Z_digits (Qnum a))) - Z.of_nat (length (Z_digits (Zpos (Qden a)))) in
  if Qle_bool (Qpower (10 # 1) k) a then k else k - 1.

Fixpoint strip_zeros (fuel : nat) (m : Z) : Z :=
  match fuel with
  | O => m
  | S f => if (m mod 10 =? 0) && negb (m =? 0) then strip_zeros f (m / 10) else m
  end.

(** The significant digits (at most 17, no trailing zero) and the decimal
    exponent of a positive rational. *)
Definition sig_digits (a : Q) : list ascii * Z :=
  let e := decimal_exponent a in
  let m := round_half_even (a * Qpower (10 # 1) (16 - e))%Q in
  let '(m, e) := if 10 ^ 17 <=? m then (m / 10, e + 1) else (m, e) in
  (Z_digits (strip_zeros 17 m), e).

Definition zeros (n : nat) : list ascii := repeat "0"%char n.

Definition pad2 (l : list ascii) : list ascii :=
  match l with
  | [c] => ["0"%char; c]
  | _ => l
  end.

(** [repr(x)] of a float, which is also [str(x)] and what [astype(str)]
    writes: plain notation for decimal exponents from -4 to 15, scientific
    otherwise.  Python prints the shortest digits that read back as the same
    double; here the exact value is cut at 17 significant digits, which is
    the same text for a decimal of up to 15 digits. *)
Definition float_repr (x : pyfloat) : string :=
  match x with
  | NaN => "nan"
  | PInf => "inf"
  | NInf => "-inf"
  | Fin q =>
      if Qeq_bool q 0 then "0.0"
      else
        let sgn := if Qlt_bool q 0 then ["-"%char] else [] in
        let '(ds, e) := sig_digits (Qabs q) in
        let k := length ds in
        text (sgn ++
          if (-4 <=? e) && (e <? 16) then
            if 0 <=? e then
              let n := Z.to_nat (e + 1) in
              let ip := firstn n ds ++ zeros (n - k) in
              let fp := skipn n ds in
              ip ++ "."%char :: (match fp with [] => ["0"%char] | _ => fp end)
            else
              "0"%char :: "."%char :: zeros (Z.to_nat (- e - 1)) ++ ds
          else
            firstn 1 ds ++
            (match skipn 1 ds with [] => [] | fp => "."%char :: fp end) ++
            "e"%char :: (if 0 <=? e then "+"%char else "-"%char) :: pad2 (Z_digits (Z.abs e)))
  end.

(** ** Timestamps *)

(** A pandas [Timestamp]: nanoseconds since the epoch and, for a
    timezone-aware one, the UTC offset in minutes.  A naive timestamp counts
    its wall-clock time; an aware one counts the UTC instant. *)
Record Timestamp : Type := mkTimestamp {
  ts_value : Z;
  ts_tz : option Z
}.

(** Nanoseconds in a second. *)
Definition NANOS : Z := 1000000000.

#[global] Instance Timestamp_eq_dec : EqDecision Timestamp.
Proof. solve_decision. Defined.

Definition days_from_civil (y m d : Z) : Z :=
  let y := if m <=? 2 then y - 1 else y in
  let era := y / 400 in
  let yoe := y - era * 400 in
  let doy := (153 * (if 2 <? m then m - 3 else m + 9) + 2) / 5 + d - 1 in
  let doe := yoe * 365 + yoe / 4 - yoe / 100 + doy in
  era * 146097 + doe - 719468.

Definition civil_from_days (z : Z) : Z * Z * Z :=
  let z := z + 719468 in
  let era := z / 146097 in
  let doe := z - era * 146097 in
  let yoe := (doe - doe / 1460 + doe / 36524 - doe / 146096) / 365 in
  let doy := doe - (365 * yoe + yoe / 4 - yoe / 100) in
  let mp := (5 * doy + 2) / 153 in
  let d := doy - (153 * mp + 2) / 5 + 1 in
  let m := if mp <? 10 then mp + 3 else mp - 9 in
  ((if m <=? 2 then yoe + era * 400 + 1 else yoe + era * 400), m, d).

(** The whole seconds shown on the clock of [t], local time for an aware
    one, and the nanoseconds past them. *)
Definition wall (t : Timestamp) : Z :=
  ts_value t / NANOS + 60 * default 0 (ts_tz t).
Definition ts_fraction (t : Timestamp) : Z := ts_value t mod NANOS.

Definition ts_date (t : Timestamp) : Z * Z * Z := civil_from_days (wall t / 86400).
(** [.dt.hour] *)
Definition ts_hour (t : Timestamp) : Z := (wall t mod 86400) / 3600.
(** [.dt.dayofweek]: Monday is 0; the epoch was a Thursday. *)
Definition ts_dayofweek (t : Timestamp) : Z := (wall t / 86400 + 3) mod 7.
(** The calendar month as a count of months, the label of its ["MS"] bucket. *)
Definition ts_month_index (t : Timestamp) : Z :=
  let '(y, m, _) := ts_date t in 12 * y + (m - 1).

(** [tz_convert(None)] after [utc=True]: the UTC instant, made naive.  A naive
    timestamp is read as UTC. *)
Definition to_utc_naive (t : Timestamp) : Timestamp :=
  mkTimestamp (ts_value t) None.

Definition is_naive (t : Timestamp) : bool :=
  match ts_tz t with None => true | Some _ => false end.

(** Text of a timestamp. *)
Definition pad_left (n : nat) (l : list ascii) : list ascii :=
  zeros (n - length l) ++ l.

(** The fraction of a second as [isoformat] writes it: nothing when it is
    zero, six digits for whole microseconds, nine digits otherwise. *)
Definition fraction_digits (ns : Z) : list ascii :=
  if ns =? 0 then []
  else if ns mod 1000 =? 0 then "."%char :: pad_left 6 (Z_digits (ns / 1000))
  else "."%char :: pad_left 9 (Z_digits ns).

Definition isoformat_sep (sep : ascii) (t : Timestamp) : string :=
  let '(y, m, d) := ts_date t in
  let s := wall t mod 86400 in
  let two z := pad_left 2 (Z_digits z) in
  text (pad_left 4 (Z_digits y) ++ "-"%char :: two m ++ "-"%char :: two d ++
        sep :: two (s / 3600) ++ ":"%char :: two (s mod 3600 / 60) ++ ":"%char :: two (s mod 60) ++
        fraction_digits (ts_fraction t) ++
        match ts_tz t with
        | None => []
        | Some o =>
            (if o <? 0 then "-"%char else "+"%char) ::
            two (Z.abs o / 60) ++ ":"%char :: two (Z.abs o mod 60)
        end).

(** [Timestamp.isoformat()] *)
Definition isoformat (t : Timestamp) : string := isoformat_sep "T"%char t.

(** An ISO 8601 reader: [YYYY-MM-DD], optionally followed by [T] or a space
    and [HH:MM] or [HH:MM:SS] or [HH:MM:SS.f] with one to nine digits [f],
    optionally followed by [Z] or [+HH:MM] or [-HH:MM].  It stands for the
    date parser of pandas on a column of texts written in one such form. *)
Definition take_n_digits (n : nat) (l : list ascii) : option (Z * list ascii) :=
  let d := firstn n l in
  if (length d =? n)%nat && forallb is_digit d
  then Some (fold_left (fun a c => 10 * a + digit_val c) d 0, skipn n l)
  else None.

Definition expect (c : ascii) (l : list ascii) : option (list ascii) :=
  match l with
  | c' :: l' => if Ascii.eqb c c' then Some l' else None
  | [] => None
  end.

Definition days_in_month (y m : Z) : Z :=
  days_from_civil (if m =? 12 then y + 1 else y) (if m =? 12 then 1 else m + 1) 1
  - days_from_civil y m 1.

Definition parse_offset (l : list ascii) : option (option Z) :=
  match l with
  | [] => Some None
  | ["Z"%char] => Some (Some 0)
  | c :: l' =>
      if Ascii.eqb c "+"%char || Ascii.eqb c "-"%char then
        '(h, l1) ← take_n_digits 2 l';
        l2 ← expect ":"%char l1;
        '(m, l3) ← take_n_digits 2 l2;
        match l3 with
        | [] => if (h <? 24) && (m <? 60)
                then Some (Some ((if Ascii.eqb c "-"%char then -1 else 1) * (60 * h + m)))
                else None
        | _ => None
        end
      else None
  end.

(** [.f]: one to nine digits, as nanoseconds. *)
Definition parse_fraction (l : list ascii) : Z * list ascii :=
  match l with
  | "."%char :: l' =>
      match take_digits (firstn 9 l') 0 0 with
      | (v, S n, _) => (v * 10 ^ Z.of_nat (9 - S n), skipn (S n) l')
      | _ => (0, l)
      end
  | _ => (0, l)
  end.

(** The nanoseconds after midnight of a clock text. *)
Definition parse_clock (l : list ascii) : option (Z * list ascii) :=
  '(h, l1) ← take_n_digits 2 l;
  l2 ← expect ":"%char l1;
  '(m, l3) ← take_n_digits 2 l2;
  let '(s, f, l4) :=
    match expect ":"%char l3 ≫= take_n_digits 2 with
    | Some (s, l4) => let '(f, l5) := parse_fraction l4 in (s, f, l5)
    | None => (0, 0, l3)
    end in
  if (h <? 24) && (m <? 60) && (s <? 60)
  then Some ((3600 * h + 60 * m + s) * NANOS + f, l4) else None.

Definition iso_datetime (s : string) : option Timestamp :=
  '(y, l1) ← take_n_digits 4 (chars (strip s));
  l2 ← expect "-"%char l1;
  '(m, l3) ← take_n_digits 2 l2;
  l4 ← expect "-"%char l3;
  '(d, l5) ← take_n_digits 2 l4;
  if (1 <=? m) && (m <=? 12) && (1 <=? d) && (d <=? days_in_month y m) then
    '(nanos, l6) ←
      match l5 with
      | [] => Some (0, [])
      | c :: l' =>
          if Ascii.eqb c "T"%char || Ascii.eqb c " "%char then parse_clock l' else None
      end;
    tz ← parse_offset l6;
    let w := 86400 * days_from_civil y m d * NANOS + nanos in
    Some (mkTimestamp (w - 60 * default 0 tz * NANOS) tz)
  else None.

(** ** Regular expressions

    The fragment of [re] the two modules use. *)

Inductive regex : Type :=
| Lit (s : string)
| Cls (p : ascii -> bool)
| StarCls (p : ascii -> bool)
| Opt (c : ascii)
| WordB
| Seq (r1 r2 : regex)
| Alt (r1 r2 : regex).

Definition at_boundary (prev : option ascii) (s : list ascii) : bool :=
  xorb (from_option is_word false prev) (from_option is_word false (head s)).

Fixpoint star_match (p : ascii -> bool) (prev : option ascii) (s : list ascii)
    (k : option ascii -> list ascii -> bool) : bool :=
  match s with
  | c :: s' => if p c then star_match p (Some c) s' k || k prev s else k prev s
  | [] => k prev s
  end.

(** [rmatch r prev s k]: [r] matches a prefix of [s] (the character before
    [s] being [prev]) and [k] accepts what follows. *)
Fixpoint rmatch (r : regex) (prev : option ascii) (s : list ascii)
    (k : option ascii -> list ascii -> bool) : bool :=
  match r with
  | Lit l =>
      let p := chars l in
      starts_with p s && k (from_option Some prev (last p)) (skipn (length p) s)
  | Cls p =>
      match s with
      | c :: s' => p c && k (Some c) s'
      | [] => false
      end
  | StarCls p => star_match p prev s k
  | Opt c =>
      match s with
      | c' :: s' => (Ascii.eqb c c' && k (Some c') s') || k prev s
      | [] => k prev s
      end
  | WordB => at_boundary prev s && k prev s
  | Seq r1 r2 => rmatch r1 prev s (fun prev' s' => rmatch r2 prev' s' k)
  | Alt r1 r2 => rmatch r1 prev s k || rmatch r2 prev s k
  end.

Fixpoint search_from (r : regex) (prev : option ascii) (s : list ascii) : bool :=
  rmatch r prev s (fun _ _ => true) ||
  match s with
  | c :: s' => search_from r (Some c) s'
  | [] => false
  end.

(** [re.search(r, s)] as a truth value. *)
Definition re_search (r : regex) (s : string) : bool := search_from r None (chars s).
(** [re.search(r, s, re.IGNORECASE)] for a lower-case pattern [r]. *)
Definition re_search_i (r : regex) (s : string) : bool := re_search r (lower s).

Definition spaces : regex := StarCls is_space.
Fixpoint alts (rs : list regex) : regex :=
  match rs with
  | [] => Lit ""
  | [r] => r
  | r :: rs' => Alt r (alts rs')
  end.
Fixpoint seqs (rs : list regex) : regex :=
  match rs with
  | [] => Lit ""
  | [r] => r
  | r :: rs' => Seq r (seqs rs')
  end.
(** [\b(...)\b] *)
Definition whole (r : regex) : regex := seqs [WordB; r; WordB].

(** ** Cells and tables *)

Inductive cell : Type :=
| CStr (s : string)       (* a [str] *)
| CNum (x : pyfloat)      (* a float; [nan] is the missing number *)
| CTime (t : Timestamp)   (* a [Timestamp] *)
| CNaT                    (* the missing timestamp *)
| CClock (micros : Z)     (* a [datetime.time], as microseconds after midnight *)
| CNone                   (* [None] *)
| CNA.                    (* [pd.NA] *)

#[global] Instance Q_eq_dec : EqDecision Q.
Proof. solve_decision. Defined.
#[global] Instance pyfloat_eq_dec : EqDecision pyfloat.
Proof. solve_decision. Defined.
#[global] Instance cell_eq_dec : EqDecision cell.
Proof. solve_decision. Defined.

(** [pd.isna(x)] and [Series.notna()] *)
Definition isna (c : cell) : bool :=
  match c with
  | CNum NaN | CNaT | CNone | CNA => true
  | _ => false
  end.
Definition notna (c : cell) : bool := negb (isna c).

Definition clock_str (micros : Z) : string :=
  let two z := pad_left 2 (Z_digits z) in
  let secs := micros / 1000000 in
  let frac := micros mod 1000000 in
  text (two (secs / 3600) ++ ":"%char :: two (secs mod 3600 / 60) ++ ":"%char :: two (secs mod 60) ++
        (if frac =? 0 then [] else "."%char :: pad_left 6 (Z_digits frac))).

(** [str(x)], what [astype(str)] writes in each cell. *)
Definition astype_str (c : cell) : string :=
  match c with
  | CStr s => s
  | CNum x => float_repr x
  | CTime t => isoformat_sep " "%char t
  | CNaT => "NaT"
  | CClock s => clock_str s
  | CNone => "None"
  | CNA => "<NA>"
  end.

(** The float a numeric column holds in a cell; anything else is missing. *)
Definition cell_float (c : cell) : pyfloat :=
  match c with
  | CNum x => x
  | _ => NaN
  end.

(** The timestamp a date column holds in a cell. *)
Definition cell_time (c : cell) : option Timestamp :=
  match c with
  | CTime t => Some t
  | _ => None
  end.

Abbreviation Row := (gmap string cell).

Record DataFrame : Type := mkDataFrame {
  columns : list string;
  rows : list Row
}.

(** [row[c]] inside a table that has column [c]. *)
Definition at_col (c : string) (r : Row) : cell := default (CNum NaN) (r !! c).

(** [c in df] and [c in df.columns] *)
Definition has_col (c : string) (d : DataFrame) : bool := bool_decide (c ∈ columns d).

(** [len(df)] *)
Definition df_len (d : DataFrame) : nat := length (rows d).

(** [df.empty]: no row or no column. *)
Definition df_empty (d : DataFrame) : bool :=
  match rows d, columns d with
  | [], _ | _, [] => true
  | _, _ => false
  end.

(** [df[c]] as the list of its cells. *)
Definition column (c : string) (d : DataFrame) : list cell := map (at_col c) (rows d).

(** [df[c] = f(df[c])], elementwise. *)
Definition map_col (c : string) (f : cell -> cell) (d : DataFrame) : DataFrame :=
  mkDataFrame (columns d) (map (fun r => <[c := f (at_col c r)]> r) (rows d)).

(** [df[c] = g(row)]: a new column goes last. *)
Definition set_col (c : string) (g : Row -> cell) (d : DataFrame) : DataFrame :=
  mkDataFrame (if has_col c d then columns d else columns d ++ [c])
              (map (fun r => <[c := g r]> r) (rows d)).

(** [df[mask]] *)
Definition filter_rows (p : Row -> bool) (d : DataFrame) : DataFrame :=
  mkDataFrame (columns d) (List.filter p (rows d)).

(** [df.rename(columns=mapping)] *)
Definition rename_label (mapping : list (string * string)) (c : string) : string :=
  default c (snd <$> find (fun kv => String.eqb (fst kv) c) mapping).

Definition rename (mapping : list (string * string)) (d : DataFrame) : DataFrame :=
  mkDataFrame (map (rename_label mapping) (columns d))
              (map (fun r => list_to_map (map (fun kv => (rename_label mapping (fst kv), snd kv))
                                              (map_to_list r)))
                   (rows d)).

(** [df[c] = f(df[c])] for an [f] that sees the whole column. *)
Definition map_series (c : string) (f : list cell -> cell -> cell) (d : DataFrame) : DataFrame :=
  map_col c (f (column c d)) d.

(** The date parser behind [pd.to_datetime(series, errors="coerce")]: what a
    text of [series] is read as, [None] being the [NaT] of a text that cannot
    be read.  pandas infers the format from the series, so the reading of a
    text depends on the column it stands in. *)
Definition date_parser : Type := list cell -> string -> option Timestamp.

(** The parser of a column whose texts are written in one ISO 8601 form. *)
Definition iso_dates : date_parser := fun _ s => iso_datetime s.

(** * CSV processor *)

(** ** Public types *)

Inductive DataQuality : Type := EXCELLENT | GOOD | FAIR | POOR.

#[global] Instance DataQuality_eq_dec : EqDecision DataQuality.
Proof. solve_decision. Defined.

(** A metadata value: [Union[str, int, float, List[str]]], or [None]. *)
Inductive meta : Type :=
| MStr (s : string)
| MInt (n : Z)
| MFloat (x : pyfloat)
| MList (l : list string)
| MNone.

Record ProcessingResult : Type := mkProcessingResult {
  success : bool;
  data : option DataFrame;
  quality : DataQuality;
  issues : list string;
  metadata : list (string * meta)
}.

(** What [process_csv] may be handed. *)
Inductive source : Type :=
| SPath (p : string)       (* [str] or [Path] *)
| SBytes (b : string)      (* [io.BytesIO] *)
| SText (s : string)       (* [io.StringIO] *)
| SOther.                  (* anything else *)

(** What [pd.read_csv(..., sep=None, engine="python")] is given to read. *)
Inductive csv_input : Type :=
| GzipPath (p : string)
| GzipBytes (b : string)
| Utf8Bytes (b : string)
| PlainText (s : string).

Module TeslaCSVProcessor.

Definition COLUMN_MAPPINGS : list (string * list (string * string)) :=
  [ ("tesla_mobile",
     [ ("Date", "session_date"); ("Location", "location_name");
       ("Charger Type", "charger_type"); ("Energy Added (kWh)", "energy_added_kwh");
       ("Charging Time", "charging_duration"); ("Cost", "total_cost");
       ("Starting SOC", "start_soc_percent"); ("Ending SOC", "end_soc_percent") ]);
    ("tesla_web",
     [ ("Date", "session_date"); ("Time", "session_time");
       ("Location Name", "location_name"); ("Address", "location_address");
       ("Charger Type", "charger_type"); ("Connector Type", "connector_type");
       ("Energy Delivered (kWh)", "energy_added_kwh");
       ("Charging Time (HH:MM)", "charging_duration"); ("Charge Cost", "total_cost");
       ("Vehicle", "vehicle_name") ]);
    ("teslafi",
     [ ("Date", "session_date"); ("Start Time", "start_time"); ("End Time", "end_time");
       ("Location", "location_name"); ("Charger", "charger_type");
       ("kWh", "energy_added_kwh"); ("Cost", "total_cost");
       ("Start %", "start_soc_percent"); ("End %", "end_soc_percent");
       ("Max Power", "max_power_kw"); ("Avg Power", "avg_power_kw") ]) ].

Definition REQUIRED_COLUMNS : list string :=
  ["session_date"; "energy_added_kwh"; "total_cost"].

Definition OPTIONAL_COLUMNS : list string :=
  [ "start_soc_percent"; "end_soc_percent"; "charging_duration"; "location_name";
    "charger_type"; "max_power_kw"; "avg_power_kw"; "session_time"; "start_time";
    "end_time"; "location_address"; "connector_type"; "vehicle_name";
    "charging_duration_minutes" ].

(** ** Detection *)

Definition subset_of (ks cols : list string) : bool :=
  forallb (fun k => bool_decide (k ∈ cols)) ks.

Definition energy_like (c : string) : bool :=
  existsb (fun k => str_contains k (lower c)) ["kwh"; "energy"; "delivered"; "added"].
Definition cost_like (c : string) : bool :=
  existsb (fun k => str_contains k (lower c)) ["cost"; "price"; "fee"; "charge"].

Definition _detect_format (d : DataFrame) : outcome string :=
  let cols := columns d in
  if subset_of ["Energy Added (kWh)"; "Starting SOC"] cols then Ok "tesla_mobile"
  else if subset_of ["Energy Delivered (kWh)"; "Charge Cost"] cols then Ok "tesla_web"
  else if subset_of ["kWh"; "Start %"; "End %"] cols then Ok "teslafi"
  else
    let energy := existsb energy_like cols in
    let cost := existsb cost_like cols in
    if energy && cost then Ok "generic"
    else Raise (ValueError "Unrecognized CSV format; headers do not match expected patterns").

(** ** Normalization *)

Definition mapped (mapping : list (string * string)) (c : string) : bool :=
  existsb (fun kv => String.eqb (fst kv) c) mapping.

(** The inner [first_match] of [_fuzzy_map]: patterns in order, and for each
    pattern the columns in order. *)
Definition first_match (cols : list string) (mapping : list (string * string))
    (patterns : list regex) : option string :=
  head (flat_map (fun pat =>
          List.filter (fun c => re_search_i pat c && negb (mapped mapping c)) cols) patterns).

(** [c = first_match(patterns)] then [if c: mapping[c] = target]; the empty
    label is falsy. *)
Definition claim_column (cols : list string) (patterns : list regex) (target : string)
    (mapping : list (string * string)) : list (string * string) :=
  match first_match cols mapping patterns with
  | Some c => if String.eqb c "" then mapping else mapping ++ [(c, target)]
  | None => mapping
  end.

Definition _fuzzy_map (d : DataFrame) : DataFrame :=
  let cols := columns d in
  let mapping := [] in
  let mapping := claim_column cols
    [Lit "kwh"; Lit "energy"; Lit "delivered"; Lit "added"] "energy_added_kwh" mapping in
  let mapping := claim_column cols
    [Lit "cost"; Lit "price"; Lit "fee"; seqs [Lit "charge"; spaces; Lit "cost"]]
    "total_cost" mapping in
  let mapping := claim_column cols
    [whole (Lit "date"); seqs [Lit "session"; spaces; Lit "date"]; whole (Lit "time")]
    "session_date" mapping in
  let mapping := claim_column cols
    [Alt (seqs [Lit "start"; spaces; Lit "%"]) (seqs [Lit "starting"; spaces; Lit "soc"])]
    "start_soc_percent" mapping in
  let mapping := claim_column cols
    [Alt (seqs [Lit "end"; spaces; Lit "%"]) (seqs [Lit "ending"; spaces; Lit "soc"])]
    "end_soc_percent" mapping in
  let mapping := claim_column cols
    [Alt (Lit "duration") (seqs [Lit "charging"; spaces; Lit "time"])]
    "charging_duration" mapping in
  let mapping := claim_column cols
    [Alt (seqs [Lit "location"; spaces; Lit "name"]) (Lit "location")]
    "location_name" mapping in
  rename mapping d.

Definition _normalize_columns (d : DataFrame) (fmt : string) : DataFrame :=
  match snd <$> find (fun kv => String.eqb (fst kv) fmt) COLUMN_MAPPINGS with
  | Some mapping => rename mapping d
  | None => _fuzzy_map d
  end.

(** ** Validation *)

(** [repr] of a list of labels, as an f-string prints it. *)
Definition list_repr (l : list string) : string :=
  "[" +:+ String.concat ", " (map (fun c => "'" +:+ c +:+ "'") l) +:+ "]".

Definition _validate_structure (d : DataFrame) : bool * list string :=
  let missing := List.filter (fun c => negb (has_col c d)) REQUIRED_COLUMNS in
  match missing with
  | _ :: _ => (false, ["Missing required columns: " +:+ list_repr missing])
  | [] =>
      if (df_len d =? 0)%nat then (false, ["No data rows found"])
      else (true, [])
  end.

(** ** Scalar parsers *)

Definition number_char (c : ascii) : bool :=
  is_digit c || Ascii.eqb c "."%char || Ascii.eqb c "-"%char || is_e c || Ascii.eqb c ","%char.
Definition currency_char (c : ascii) : bool :=
  is_digit c || Ascii.eqb c ","%char || Ascii.eqb c "."%char || Ascii.eqb c "-"%char.

(** [_to_number] on the text of one cell. *)
Definition to_number_str (s0 : string) : pyfloat :=
  (* Remove thousands separators and non-numeric tails/heads *)
  let s := keep_chars number_char s0 in
  (* Heuristic: if a value has both comma and dot => commas are thousands *)
  let has_both := has_char ","%char s && has_char "."%char s in
  let s := if negb has_both then s else replace_char ","%char [] s in
  (* Otherwise treat comma as decimal separator *)
  let s := if has_both then s else replace_char ","%char ["."%char] s in
  to_numeric s.

Definition _to_number (c : cell) : cell := CNum (to_number_str (astype_str c)).

Definition _to_currency (c : cell) : cell :=
  let s := astype_str c in
  (* Remove currency symbols and spaces *)
  let s := keep_chars currency_char s in
  _to_number (CStr s).

Definition _to_percent (c : cell) : pyfloat :=
  let s := keep_chars (fun a => negb (Ascii.eqb a "%"%char || is_space a)) (astype_str c) in
  let vals := to_numeric s in
  (* If obviously 0-1 scale, scale up *)
  let needs_scale := negb (is_nan vals) && fle vals (of_Z 1) in
  if negb needs_scale then vals else fmul vals (of_Z 100).

(** [int(s)], [None] standing for the [ValueError]. *)
Definition py_int (s : string) : option Z :=
  let '(sg, l) := take_sign (chars (strip s)) in
  match take_digits l 0 0 with
  | (v, S _, []) => Some (sg * v)
  | _ => None
  end.

Fixpoint split_at (sep : ascii) (l : list ascii) : list ascii * option (list ascii) :=
  match l with
  | [] => ([], None)
  | c :: l' =>
      if Ascii.eqb c sep then ([], Some l')
      else let '(a, b) := split_at sep l' in (c :: a, b)
  end.

Fixpoint take_while (p : ascii -> bool) (l : list ascii) : list ascii :=
  match l with
  | c :: l' => if p c then c :: take_while p l' else []
  | [] => []
  end.

(** [\d+(?:\.\d+)?] at the head of [s]: the number and what follows it. *)
Definition take_number (s : list ascii) : option (list ascii * list ascii) :=
  match take_while is_digit s with
  | [] => None
  | ip =>
      let rest := skipn (length ip) s in
      match rest with
      | "."%char :: r' =>
          match take_while is_digit r' with
          | [] => Some (ip, rest)
          | fp => Some (ip ++ "."%char :: fp, skipn (length fp) r')
          end
      | _ => Some (ip, rest)
      end
  end.

(** [re.search(r"(\d+(?:\.\d+)?)" + r, s)] and its [group(1)]. *)
Fixpoint search_number (r : regex) (s : list ascii) : option (list ascii) :=
  let here :=
    match take_number s with
    | Some (num, rest) => if rmatch r (last num) rest (fun _ _ => true) then Some num else None
    | None => None
    end in
  match here, s with
  | Some num, _ => Some num
  | None, _ :: s' => search_number r s'
  | None, [] => None
  end.

(** The [float] of a matched [\d+(?:\.\d+)?]. *)
Definition number_value (num : list ascii) : pyfloat := to_numeric (text num).

(** The inner [parse_one] of [_duration_to_minutes]. *)
Definition parse_one (x : cell) : cell :=
  if isna x then CNone
  else
    let s := lower (strip (astype_str x)) in
    (* HH:MM or H:MM *)
    let colon :=
      match split_at ":"%char (chars s) with
      | (h, Some rest) =>
          let m := fst (split_at ":"%char rest) in
          match py_int (text h), List.filter is_digit m with
          | Some hv, [] => Some (of_Z (hv * 60 + 0))
          | Some hv, ds => Some (of_Z (hv * 60 + fst (fst (take_digits ds 0 0))))
          | None, _ => None
          end
      | (_, None) => None
      end in
    match colon with
    | Some v => CNum v
    | None =>
        (* e.g. 1h 30m, 2h, 90m, 90 min, 1.5h *)
        match search_number (seqs [spaces; Lit "h"]) (chars s) with
        | Some h =>
            let hours := number_value h in
            let minutes :=
              match search_number (seqs [spaces; Lit "m"]) (chars s) with
              | Some mm => number_value mm
              | None => fzero
              end in
            CNum (fadd (fmul hours (of_Z 60)) minutes)
        | None =>
            match search_number (seqs [spaces; Lit "m"; alts [Lit "in"; Lit ""]; WordB]) (chars s) with
            | Some mm => CNum (number_value mm)
            | None =>
                (* numeric value => assume minutes *)
                match py_float s with
                | Ok v => CNum v
                | Raise _ => CNone
                end
            end
        end
    end.

Definition _duration_to_minutes (c : cell) : cell := parse_one c.

(** ** Cleaning *)

Section Pipeline.

Variable parse_datetime : date_parser.

(** [pd.to_datetime(series, errors="coerce", utc=False)] on one cell of
    [series]: a number counts nanoseconds since the epoch. *)
Definition to_datetime (series : list cell) (c : cell) : cell :=
  match c with
  | CStr s => from_option CTime CNaT (parse_datetime series s)
  | CTime t => CTime t
  | CNum (Fin q) => CTime (mkTimestamp (Qfloor q) None)
  | _ => CNaT
  end.

(** [pd.to_datetime(series, errors="coerce").dt.time] *)
Definition to_clock (series : list cell) (c : cell) : cell :=
  match to_datetime series c with
  | CTime t => CClock ((wall t mod 86400) * 1000000 + ts_fraction t / 1000)
  | _ => CNaT
  end.

Definition if_col (c : string) (f : DataFrame -> DataFrame) (d : DataFrame) : DataFrame :=
  if has_col c d then f d else d.

Definition tidy_location (c : cell) : cell :=
  let s := strip (astype_str c) in
  if String.eqb s "" || String.eqb s "nan" || String.eqb s "NaN" then CNA else CStr s.

(** What [drop_duplicates] compares in a cell: numbers by value, timestamps
    by instant, missing values all alike. *)
Definition dup_key (c : cell) : cell :=
  match c with
  | CNum (Fin q) => CNum (Fin (Qred q))
  | CTime t => CTime (mkTimestamp (ts_value t) (if is_naive t then None else Some 0))
  | CNaT | CNone | CNA | CNum NaN => CNaT
  | _ => c
  end.

Definition row_key (subset : list string) (r : Row) : list cell :=
  map (fun c => dup_key (at_col c r)) subset.

(** [keep="first"]: a row stays unless an earlier one had its key. *)
Fixpoint keep_first (subset : list string) (seen : list (list cell)) (l : list Row) : list Row :=
  match l with
  | [] => []
  | r :: l' =>
      if bool_decide (row_key subset r ∈ seen) then keep_first subset seen l'
      else r :: keep_first subset (row_key subset r :: seen) l'
  end.

Definition drop_duplicates (subset : list string) (d : DataFrame) : DataFrame :=
  mkDataFrame (columns d) (keep_first subset [] (rows d)).

Definition _clean_data (d : DataFrame) : DataFrame :=
  (* Dates *)
  let d := if_col "session_date" (map_series "session_date" to_datetime) d in
  let d := fold_left (fun d tcol => if_col tcol (map_series tcol to_clock) d)
                     ["session_time"; "start_time"; "end_time"] d in
  (* Numerics: energy + cost + power *)
  let d := if_col "energy_added_kwh" (fun d =>
             filter_rows (fun r => fgt (cell_float (at_col "energy_added_kwh" r)) fzero)
                         (map_col "energy_added_kwh" _to_number d)) d in
  let d := if_col "total_cost" (fun d =>
             filter_rows (fun r => fge (cell_float (at_col "total_cost" r)) fzero)
                         (map_col "total_cost" _to_currency d)) d in
  let d := fold_left (fun d pcol => if_col pcol (map_col pcol _to_number) d)
                     ["max_power_kw"; "avg_power_kw"] d in
  (* SOC *)
  let d := fold_left (fun d soc =>
             if_col soc (map_col soc (fun c => CNum (clip fzero (of_Z 100) (_to_percent c)))) d)
                     ["start_soc_percent"; "end_soc_percent"] d in
  (* Duration -> minutes *)
  let d := if_col "charging_duration"
             (set_col "charging_duration_minutes"
                (fun r => _duration_to_minutes (at_col "charging_duration" r))) d in
  (* Location tidy *)
  let d := if_col "location_name" (map_col "location_name" tidy_location) d in
  (* De-dup (same date+energy+cost) *)
  let subset := List.filter (fun c => has_col c d)
                            ["session_date"; "energy_added_kwh"; "total_cost"] in
  if (length subset =? 3)%nat then drop_duplicates subset d else d.

(** ** Quality *)

(** [df[c].notna().mean()] *)
Definition notna_fraction (c : string) (d : DataFrame) : pyfloat :=
  fmean (map (fun x => if notna x then of_Z 1 else fzero) (column c d)).

Definition completeness (d : DataFrame) (cols : list string) : pyfloat :=
  let present := List.filter (fun c => has_col c d) cols in
  match present with
  | [] => fzero
  | _ => fmean (map (fun c => notna_fraction c d) present)
  end.

Definition _assess_data_quality (d : DataFrame) : DataQuality :=
  if df_empty d then POOR
  else
    let req := completeness d REQUIRED_COLUMNS in
    let opt := completeness d OPTIONAL_COLUMNS in
    let overall := fadd (fmul (dec 7 1) req) (fmul (dec 3 1) opt) in
    if fge overall (dec 95 2) then EXCELLENT
    else if fge overall (dec 85 2) then GOOD
    else if fge overall (dec 70 2) then FAIR
    else POOR.

(** ** Misc *)

(** The least or greatest timestamp of a column, missing ones skipped. *)
Definition extreme_time (which : string) (l : list cell) : option Timestamp :=
  let pick (a b : Timestamp) :=
    if String.eqb which "min"
    then (if ts_value b <? ts_value a then b else a)
    else (if ts_value a <? ts_value b then b else a) in
  match omap cell_time l with
  | [] => None
  | t :: ts => Some (fold_left pick ts t)
  end.

(** [_safe_iso(df.get(c), which)] for a column that holds timestamps.  For
    a timezone-aware column the dtype test raises and the handler answers
    [None]. *)
Definition _safe_iso (c : string) (d : DataFrame) (which : string) : meta :=
  if negb (has_col c d) || (df_len d =? 0)%nat then MNone
  else
    match extreme_time which (column c d) with
    | None => MNone
    | Some t => if is_naive t then MStr (isoformat t) else MNone
    end.

Definition _fail (issues : list string) (meta : list (string * meta)) : ProcessingResult :=
  mkProcessingResult false None POOR issues meta.

(** ** IO helpers *)

Variable path_exists : string -> bool.
Variable read_csv : csv_input -> outcome DataFrame.

(** [s.split(sep)] on the characters of [s]. *)
Fixpoint split_chars (sep : ascii) (l : list ascii) : list (list ascii) :=
  match l with
  | [] => [[]]
  | c :: l' =>
      if Ascii.eqb c sep then [] :: split_chars sep l'
      else match split_chars sep l' with
           | h :: t => (c :: h) :: t
           | [] => [[c]]
           end
  end.

(** [Path(p)] on POSIX: the components between slashes, the empty ones and
    the [.] ones dropped; the root is [/], or [//] for exactly two leading
    slashes. *)
Definition path_component (c : list ascii) : bool :=
  negb (bool_decide (c = []) || bool_decide (c = ["."%char])).
Definition path_parts (p : string) : list (list ascii) :=
  List.filter path_component (split_chars "/"%char (chars p)).
Definition path_root (p : string) : list ascii :=
  match chars p with
  | "/"%char :: "/"%char :: "/"%char :: _ => ["/"%char]
  | "/"%char :: "/"%char :: _ => ["/"%char; "/"%char]
  | "/"%char :: _ => ["/"%char]
  | _ => []
  end.

Fixpoint join_chars (sep : ascii) (parts : list (list ascii)) : list ascii :=
  match parts with
  | [] => []
  | [c] => c
  | c :: cs => c ++ sep :: join_chars sep cs
  end.

(** [str(Path(p))] *)
Definition path_str (p : string) : string :=
  match path_root p, path_parts p with
  | [], [] => "."
  | root, parts => text (root ++ join_chars "/"%char parts)
  end.

(** [Path(p).name]: the last component, empty when there is none. *)
Definition path_name (p : string) : list ascii := List.last (path_parts p) [].

(** [Path(p).suffix]: from the last dot of the name, unless the name starts
    or ends with it. *)
Definition path_suffix (p : string) : string :=
  let name := path_name p in
  let ext := rev (take_while (fun c => negb (Ascii.eqb c "."%char)) (rev name)) in
  if (length ext =? 0)%nat || (length name <=? length ext + 1)%nat then ""
  else text ("."%char :: ext).

Definition _read_csv_safely (src : source) : outcome DataFrame :=
  match src with
  | SPath source =>
      let p := path_str source in
      if negb (path_exists p) then Raise (FileNotFoundError ("No such file: " +:+ p))
      else if String.eqb (path_suffix source) ".gz" then read_csv (GzipPath p)
      else
        (* [pd.read_csv(p, ..., errors="ignore")]: [read_csv] takes no [errors]. *)
        Raise (TypeError "read_csv() got an unexpected keyword argument 'errors'")
  | SBytes b =>
      match read_csv (GzipBytes b) with
      | Raise (OSError _) => read_csv (Utf8Bytes b)
      | r => r
      end
  | SText s => read_csv (PlainText s)
  | SOther => Raise (TypeError "Unsupported source type")
  end.

(** ** Public API *)

Definition structure_meta (fmt : string) (df_raw : DataFrame) : list (string * meta) :=
  [("format", MStr fmt); ("original_columns", MList (columns df_raw))].

(** The body of the [try] block of [process_csv]. *)
Definition process_csv_body (src : source) : outcome ProcessingResult :=
  df_raw ← _read_csv_safely src;
  if df_empty df_raw then Ok (_fail ["File contains no rows"] [("rows_processed", MInt 0)])
  else
    fmt ← _detect_format df_raw;
    let df := _normalize_columns df_raw fmt in
    (* Early structure report (useful if we bail out) *)
    let '(ok, issues) := _validate_structure df in
    if negb ok then
      Ok (_fail issues (structure_meta fmt df_raw ++ [("rows_processed", MInt 0)]))
    else
      let df := _clean_data df in
      let quality := _assess_data_quality df in
      let metadata :=
        structure_meta fmt df_raw ++
        [ ("original_rows", MInt (Z.of_nat (df_len df_raw)));
          ("processed_rows", MInt (Z.of_nat (df_len df)));
          ("columns_available", MList (columns df));
          ("date_range_start", _safe_iso "session_date" df "min");
          ("date_range_end", _safe_iso "session_date" df "max");
          ("total_energy_kwh",
           MFloat (if has_col "energy_added_kwh" df && negb (df_len df =? 0)%nat
                   then fsum (map cell_float (column "energy_added_kwh" df)) else fzero));
          ("total_cost",
           MFloat (if has_col "total_cost" df && negb (df_len df =? 0)%nat
                   then fsum (map cell_float (column "total_cost" df)) else fzero)) ] in
      Ok (mkProcessingResult true (Some df) quality issues metadata).

Definition process_csv (src : source) : outcome ProcessingResult :=
  try_except (process_csv_body src)
    (fun e => Ok (mkProcessingResult false None POOR
                    ["Processing error: " +:+ exn_str e]
                    [("error", MStr (exn_str e))])).

End Pipeline.

End TeslaCSVProcessor.

(** * Efficiency calculator *)

(** ** Models *)

Inductive ChargerType : Type := HOME_AC | PUBLIC_AC | DC_FAST | SUPERCHARGER | UNKNOWN.

(** [ChargerType.value] *)
Definition ChargerType_value (t : ChargerType) : string :=
  match t with
  | HOME_AC => "home_ac"
  | PUBLIC_AC => "public_ac"
  | DC_FAST => "dc_fast"
  | SUPERCHARGER => "supercharger"
  | UNKNOWN => "unknown"
  end.

Record EfficiencyMetric : Type := mkEfficiencyMetric {
  kwh_per_dollar : pyfloat;
  cost_per_kwh : pyfloat;
  charging_speed_kw : option pyfloat;
  efficiency_rating : string
}.

Record ChargingPattern : Type := mkChargingPattern {
  avg_session_energy : pyfloat;
  preferred_charger_types : list string;
  peak_usage_hours : list Z;
  weekend_vs_weekday_ratio : pyfloat;
  avg_soc_start : option pyfloat;
  avg_soc_end : option pyfloat
}.

Record EfficiencyAnalysis : Type := mkEfficiencyAnalysis {
  overall_efficiency : EfficiencyMetric;
  by_charger_type : list (string * EfficiencyMetric);
  by_location : list (string * EfficiencyMetric);
  temporal_trends : list (string * pyfloat);
  charging_patterns : ChargingPattern;
  recommendations : list string;
  cost_savings_potential : pyfloat
}.

(** [EfficiencyAnalysis] is declared [@dataclass(frozen=True)]: assigning to
    a field of an instance raises. *)
Definition EfficiencyAnalysis_frozen : bool := true.

Definition frozen_setattr (field : string) (updated : EfficiencyAnalysis)
  : outcome EfficiencyAnalysis :=
  if EfficiencyAnalysis_frozen
  then Raise (FrozenInstanceError ("cannot assign to field '" +:+ field +:+ "'"))
  else Ok updated.

(** [analysis.recommendations = v] *)
Definition set_recommendations (a : EfficiencyAnalysis) (v : list string)
  : outcome EfficiencyAnalysis :=
  frozen_setattr "recommendations"
    (mkEfficiencyAnalysis (overall_efficiency a) (by_charger_type a) (by_location a)
       (temporal_trends a) (charging_patterns a) v (cost_savings_potential a)).

(** [analysis.cost_savings_potential = v] *)
Definition set_cost_savings_potential (a : EfficiencyAnalysis) (v : pyfloat)
  : outcome EfficiencyAnalysis :=
  frozen_setattr "cost_savings_potential"
    (mkEfficiencyAnalysis (overall_efficiency a) (by_charger_type a) (by_location a)
       (temporal_trends a) (charging_patterns a) (recommendations a) v).

(** A [dict] in insertion order: [d[k] = v] replaces in place or goes last. *)
Fixpoint dict_set {V} (k : string) (v : V) (d : list (string * V)) : list (string * V) :=
  match d with
  | [] => [(k, v)]
  | (k', v') :: d' => if String.eqb k' k then (k, v) :: d' else (k', v') :: dict_set k v d'
  end.

(** Truth value of an optional float: [None], zero are false; [nan] is true. *)
Definition truthy (x : option pyfloat) : bool :=
  match x with
  | None => false
  | Some v => negb (feq v fzero)
  end.

(** Format specs [:.nf]. *)
Definition format_fixed (n : nat) (x : pyfloat) : string :=
  match x with
  | NaN => "nan"
  | PInf => "inf"
  | NInf => "-inf"
  | Fin q =>
      let r := round_half_even (Qabs q * inject_Z (10 ^ Z.of_nat n)) in
      text ((if Qlt_bool q 0 then ["-"%char] else []) ++
            Z_digits (r / 10 ^ Z.of_nat n) ++
            match n with
            | O => []
            | _ => "."%char :: pad_left n (Z_digits (r mod 10 ^ Z.of_nat n))
            end)
  end.

Module ChargingEfficiencyCalculator.

(* Typical charging power ratings used for inference *)
Definition CHARGER_POWER_ESTIMATES : list (ChargerType * pyfloat) :=
  [ (HOME_AC, dec 72 1); (PUBLIC_AC, of_Z 11); (DC_FAST, of_Z 100);
    (SUPERCHARGER, of_Z 150); (UNKNOWN, of_Z 25) ].

(* Efficiency rating thresholds (cost per kWh in USD) *)
Definition EFFICIENCY_THRESHOLDS : list (string * pyfloat) :=
  [ ("excellent", dec 12 2); ("good", dec 20 2); ("fair", dec 35 2); ("poor", PInf) ].

(** ** Helpers *)

(** [pd.to_numeric(x, errors="coerce")] on one cell. *)
Definition cell_to_numeric (c : cell) : pyfloat :=
  match c with
  | CStr s => to_numeric s
  | CNum x => x
  | _ => NaN
  end.

Definition _safe_mean (l : list cell) : option pyfloat :=
  let s := map cell_to_numeric l in
  if existsb (fun x => negb (is_nan x)) s then Some (fmean s) else None.

Definition _rate_efficiency (cost_per_kwh : pyfloat) : string :=
  default "poor" (fst <$> find (fun lt => fle cost_per_kwh (snd lt)) EFFICIENCY_THRESHOLDS).

(** ** Classification *)

(** [str(charger_info or "")]; the truth value of [pd.NA] raises. *)
Definition info_text (charger_info : cell) : outcome string :=
  match charger_info with
  | CNA => Raise (TypeError "boolean value of NA is ambiguous")
  | CNone => Ok ""
  | CNum x => Ok (if feq x fzero then "" else float_repr x)
  | c => Ok (astype_str c)
  end.

Definition categorize_charger_type (charger_info : cell) (energy_kwh : pyfloat)
    (duration_minutes : option pyfloat) : outcome ChargerType :=
  txt ← info_text charger_info;
  let text := lower txt in
  (* Text patterns first (most reliable). *)
  if re_search (whole (alts [Lit "supercharger"; seqs [Lit "tesla"; spaces; Lit "sc"];
                             seqs [Lit "v"; Cls is_digit]])) text
  then Ok SUPERCHARGER
  else if re_search (whole (alts [Lit "dc"; Lit "fast"; Lit "rapid"; Lit "ccs";
                                  seqs [Lit "chad"; Opt "e"; Lit "mo"]])) text
  then Ok DC_FAST
  else if re_search (whole (alts [Lit "home"; Lit "residential"; Lit "garage"])) text
  then Ok HOME_AC
  else if re_search (whole (alts [Lit "public"; seqs [Lit "level"; spaces; Lit "2"];
                                  Lit "l2"; Lit "ac"])) text
  then Ok PUBLIC_AC
  else
    (* Fall back to inferred power from delivered energy and time. *)
    match duration_minutes with
    | Some dm =>
        if truthy duration_minutes && fgt dm fzero && fgt energy_kwh fzero then
          power_kw ← truediv (fmul energy_kwh (of_Z 60)) dm;
          if fgt power_kw (of_Z 120) then Ok SUPERCHARGER
          else if fgt power_kw (of_Z 80) then Ok DC_FAST
          else if fgt power_kw (of_Z 15) then Ok PUBLIC_AC
          else Ok HOME_AC
        else Ok UNKNOWN
    | None => Ok UNKNOWN
    end.

(** ** Metrics *)

Definition calculate_efficiency_metrics (energy_kwh cost : pyfloat)
    (duration_minutes : option pyfloat) : outcome EfficiencyMetric :=
  if fle energy_kwh fzero || flt cost fzero
  then Raise (ValueError "energy_kwh must be > 0 and cost must be ≥ 0")
  else
    (* Avoid divide-by-zero / inf *)
    cost_per_kwh ← (if fgt energy_kwh fzero then truediv cost energy_kwh else Ok PInf);
    kwh_per_dollar ← (if fgt cost fzero then truediv energy_kwh cost else Ok fzero);
    speed_kw ←
      match duration_minutes with
      | Some dm =>
          if truthy duration_minutes && fgt dm fzero
          then Some <$> truediv (fmul energy_kwh (of_Z 60)) dm
          else Ok None
      | None => Ok None
      end;
    Ok (mkEfficiencyMetric kwh_per_dollar cost_per_kwh speed_kw (_rate_efficiency cost_per_kwh)).

(** ** Analyses *)

(** [df[c]] raises [KeyError] for a label the table lacks. *)
Definition need_col (c : string) (d : DataFrame) : outcome unit :=
  if has_col c d then Ok () else Raise (KeyError ("'" +:+ c +:+ "'")).

Fixpoint insert_sorted {A} (le : A -> A -> bool) (x : A) (l : list A) : list A :=
  match l with
  | [] => [x]
  | y :: l' => if le y x then y :: insert_sorted le x l' else x :: l
  end.

(** A stable sort: equal elements keep their order. *)
Definition sort_by {A} (le : A -> A -> bool) (l : list A) : list A :=
  fold_left (fun acc x => insert_sorted le x acc) l [].

(** The distinct values of a list, each at its first appearance. *)
Fixpoint first_seen {A} `{EqDecision A} (seen : list A) (l : list A) : list A :=
  match l with
  | [] => []
  | x :: l' =>
      if bool_decide (x ∈ seen) then first_seen seen l' else x :: first_seen (x :: seen) l'
  end.

(** [Series.value_counts()]: the distinct values with their counts, most
    frequent first, ties in order of first appearance. *)
Definition value_counts {A} `{EqDecision A} (l : list A) : list (A * nat) :=
  sort_by (fun a b => (snd b <=? snd a)%nat)
          (map (fun v => (v, length (List.filter (fun x => bool_decide (x = v)) l)))
               (first_seen [] l)).

(** The keys of a [groupby]: distinct and sorted. *)
Definition group_keys (keys : list string) : list string :=
  sort_by String.leb (remove_dups keys).

Section Analyses.

Variable parse_datetime : date_parser.

(** [pd.to_datetime(series, errors="coerce", utc=True)] then
    [tz_convert(None)], on one cell of [series]. *)
Definition _to_datetime (series : list cell) (c : cell) : cell :=
  match TeslaCSVProcessor.to_datetime parse_datetime series c with
  | CTime t => CTime (to_utc_naive t)
  | _ => CNaT
  end.

Definition numeric_column (c : string) (d : DataFrame) : list pyfloat :=
  map cell_to_numeric (column c d).

Definition analyze_charging_patterns (d : DataFrame) : outcome ChargingPattern :=
  _ ← need_col "energy_added_kwh" d;
  let avg_energy := fmean (numeric_column "energy_added_kwh" d) in
  let preferred :=
    if has_col "charger_type_category" d then
      match value_counts (omap (fun c => if notna c then Some (astype_str c) else None)
                               (column "charger_type_category" d)) with
      | [] => ["unknown"]
      | counts => map fst (firstn 3 counts)
      end
    else ["unknown"] in
  let '(peak_hours, weekend_ratio) :=
    if has_col "session_date" d then
      let series := column "session_date" d in
      let dts := omap (fun c => cell_time (_to_datetime series c)) series in
      let hours := map ts_hour dts in
      let peak_hours := map fst (firstn 3 (sort_by (fun a b => (snd b <=? snd a)%nat)
                                                   (value_counts hours))) in
      (* weekend vs weekday *)
      let wkd := length (List.filter (fun t => 5 <=? ts_dayofweek t) dts) in
      let wkdy := (df_len d - wkd)%nat in
      (peak_hours,
       if (0 <? wkdy)%nat then fdiv (of_Z (Z.of_nat wkd)) (of_Z (Z.of_nat wkdy)) else of_Z 1)
    else ([], of_Z 1) in
  let avg_soc_start :=
    if has_col "start_soc_percent" d then _safe_mean (column "start_soc_percent" d) else None in
  let avg_soc_end :=
    if has_col "end_soc_percent" d then _safe_mean (column "end_soc_percent" d) else None in
  Ok (mkChargingPattern (if is_nan avg_energy then fzero else avg_energy)
        preferred peak_hours weekend_ratio avg_soc_start avg_soc_end).

(** One bucket of [resample("MS")]: the means of the three columns over the
    rows of calendar month [m]. *)
Definition month_means (dated : list (Z * Row)) (m : Z) : pyfloat * pyfloat * pyfloat :=
  let rs := map snd (List.filter (fun p => fst p =? m) dated) in
  let mean c := fmean (map (fun r => cell_float (at_col c r)) rs) in
  (mean "total_cost", mean "energy_added_kwh", mean "cost_per_kwh").

(** [.dropna(how="all")] *)
Definition all_missing (b : pyfloat * pyfloat * pyfloat) : bool :=
  let '(c, e, k) := b in is_nan c && is_nan e && is_nan k.

(** The inner [slope] of [analyze_temporal_trends]. *)
Definition slope (s : list pyfloat) : pyfloat :=
  let s := List.filter (fun x => negb (is_nan x)) s in
  if (length s <? 2)%nat then fzero
  else fdiv (fsub (List.last s NaN) (hd NaN s))
            (of_Z (Z.max 1 (Z.of_nat (length s) - 1))).

(** [sort_values("session_date")]: missing dates go last. *)
Definition date_le (a b : Row) : bool :=
  match at_col "session_date" a, at_col "session_date" b with
  | CTime s, CTime t => ts_value s <=? ts_value t
  | CTime _, _ => true
  | _, CTime _ => false
  | _, _ => true
  end.

(** A column of dtype float, which [mean] can aggregate. *)
Definition is_numeric_col (c : string) (d : DataFrame) : bool :=
  forallb (fun x => match x with CNum _ => true | _ => false end) (column c d).

(** The monthly table: [set_index("session_date").resample("MS").agg(...)]
    and [.dropna(how="all")].  Its rows are the calendar months from the
    first to the last dated row; rows without a date fall in no month. *)
Definition monthly_table (d : DataFrame) : list (pyfloat * pyfloat * pyfloat) :=
  let tmp := map_series "session_date" _to_datetime d in
  let tmp := mkDataFrame (columns tmp) (sort_by date_le (rows tmp)) in
  (* cost_per_kwh if not present *)
  let tmp :=
    if negb (has_col "cost_per_kwh" tmp) then
      set_col "cost_per_kwh"
        (fun r => CNum (fdiv (cell_to_numeric (at_col "total_cost" r))
                             (cell_to_numeric (at_col "energy_added_kwh" r)))) tmp
    else tmp in
  let dated := omap (fun r => match at_col "session_date" r with
                              | CTime t => Some (ts_month_index t, r)
                              | _ => None
                              end) (rows tmp) in
  match map fst dated with
  | [] => []
  | m0 :: ms =>
      let lo := fold_left Z.min ms m0 in
      let hi := fold_left Z.max ms m0 in
      List.filter (fun b => negb (all_missing b))
                  (map (month_means dated) (seqZ lo (hi - lo + 1)))
  end.

Definition trend_columns_ok (d : DataFrame) : outcome unit :=
  _ ← need_col "total_cost" d;
  _ ← need_col "energy_added_kwh" d;
  if is_numeric_col "total_cost" d && is_numeric_col "energy_added_kwh" d
     && (negb (has_col "cost_per_kwh" d) || is_numeric_col "cost_per_kwh" d)
  then Ok ()
  else Raise (TypeError "agg function failed [how->mean,dtype->object]").

(** A date the calculator can read. *)
Definition is_dated (series : list cell) (c : cell) : bool :=
  match _to_datetime series c with
  | CTime _ => true
  | _ => false
  end.

Definition analyze_temporal_trends (d : DataFrame) : outcome (list (string * pyfloat)) :=
  if negb (has_col "session_date" d) || (df_len d <? 6)%nat then Ok []
  else
    (* cost_per_kwh if not present *)
    _ ← (if has_col "cost_per_kwh" d then Ok ()
         else _ ← need_col "total_cost" d; need_col "energy_added_kwh" d);
    (* [resample("MS")] takes the edges of its bins from the first and the
       last date: with no date at all these are [NaT]. *)
    if negb (existsb (is_dated (column "session_date" d)) (column "session_date" d))
    then Raise (AttributeError "'NaTType' object has no attribute 'normalize'")
    else
    _ ← trend_columns_ok d;
    let monthly := monthly_table d in
    if (3 <=? length monthly)%nat then
      (* simple slope approximations across the observed window *)
      Ok [ ("monthly_cost_trend", slope (map (fun b => fst (fst b)) monthly));
           ("monthly_efficiency_trend", slope (map snd monthly));
           ("monthly_energy_trend", slope (map (fun b => snd (fst b)) monthly)) ]
    else Ok [].

(** ** Recommendations and savings *)

(** [min(xs, key=f)] and [max(xs, key=f)]: the first of the least, the first
    of the greatest. *)
Definition min_by {A} (f : A -> pyfloat) (x : A) (xs : list A) : A :=
  fold_left (fun best y => if flt (f y) (f best) then y else best) xs x.
Definition max_by {A} (f : A -> pyfloat) (x : A) (xs : list A) : A :=
  fold_left (fun best y => if fgt (f y) (f best) then y else best) xs x.

(** [==] on floats as a tuple compares its items: numerically, an item
    being equal to itself. *)
Definition item_eq (x y : pyfloat) : bool := feq x y || (is_nan x && is_nan y).

(** [v == best] on metrics. *)
Definition metric_eq (a b : EfficiencyMetric) : bool :=
  item_eq (kwh_per_dollar a) (kwh_per_dollar b) &&
  item_eq (cost_per_kwh a) (cost_per_kwh b) &&
  match charging_speed_kw a, charging_speed_kw b with
  | Some x, Some y => item_eq x y
  | None, None => true
  | _, _ => false
  end &&
  String.eqb (efficiency_rating a) (efficiency_rating b).

(** [next(k for k, v in d.items() if v == m)] for an [m] taken from [d]. *)
Definition label_of (d : list (string * EfficiencyMetric)) (m : EfficiencyMetric) : string :=
  default "" (fst <$> find (fun kv => metric_eq (snd kv) m) d).

Definition high_cost_note (a : EfficiencyAnalysis) : string :=
  "Average cost per kWh ($" +:+ format_fixed 3 (cost_per_kwh (overall_efficiency a)) +:+
  ") is high. " +:+ "Prefer home/off-peak charging or cheaper public stations.".

Definition price_gap_note (best_label : string) (best : EfficiencyMetric)
    (worst_label : string) (worst : EfficiencyMetric) : string :=
  "Large price gap across types: " +:+ best_label +:+ " ($" +:+
  format_fixed 3 (cost_per_kwh best) +:+ "/kWh) " +:+
  "vs " +:+ worst_label +:+ " ($" +:+ format_fixed 3 (cost_per_kwh worst) +:+
  "/kWh). Prefer " +:+ best_label +:+ ".".

Definition locations_note (best_locations : list (string * EfficiencyMetric)) : string :=
  "Most cost-effective locations: " +:+
  String.concat ", " (map (fun lm => fst lm +:+ " ($" +:+
                             format_fixed 3 (cost_per_kwh (snd lm)) +:+ "/kWh)") best_locations).

Definition low_start_note (x : pyfloat) : string :=
  "Charges often start at low SOC (~" +:+ format_fixed 0 x +:+ "%). " +:+
  "Starting earlier (≥20%) is gentler on the battery.".

Definition high_end_note (x : pyfloat) : string :=
  "Charges frequently end at high SOC (~" +:+ format_fixed 0 x +:+ "%). " +:+
  "Limit daily targets to 80–90% to reduce degradation.".

Definition peak_note : string :=
  "Charging often occurs during peak hours (5–8 PM). Shift to off-peak (11 PM–6 AM) to save.".

Definition small_session_note (x : pyfloat) : string :=
  "Average session size is small (~" +:+ format_fixed 1 x +:+ " kWh). " +:+
  "Consolidating sessions can reduce idle/overhead costs.".

(** The charger-type step of [_recommendations]. *)
Definition price_gap_recs (by_type : list (string * EfficiencyMetric)) : list string :=
  match map snd by_type with
  | [] => []
  | m :: ms =>
      let best := min_by cost_per_kwh m ms in
      let worst := max_by cost_per_kwh m ms in
      let delta := fsub (cost_per_kwh worst) (cost_per_kwh best) in
      if fgt delta (dec 10 2) (* ≥ 10¢/kWh difference *)
      then [price_gap_note (label_of by_type best) best (label_of by_type worst) worst]
      else []
  end.

Definition _recommendations (a : EfficiencyAnalysis) (d : DataFrame) : list string :=
  let recs := [] in
  (* Cost efficiency baseline *)
  let recs := recs ++
    (if fgt (cost_per_kwh (overall_efficiency a)) (dec 25 2) then [high_cost_note a] else []) in
  (* Charger type mix *)
  let recs := recs ++ price_gap_recs (by_charger_type a) in
  (* Locations *)
  let recs := recs ++
    (if (2 <? length (by_location a))%nat then
       match firstn 2 (sort_by (fun x y => negb (flt (cost_per_kwh (snd y)) (cost_per_kwh (snd x))))
                               (by_location a)) with
       | [] => []
       | best_locations => [locations_note best_locations]
       end
     else []) in
  (* SOC habits *)
  let cp := charging_patterns a in
  let recs := recs ++
    match avg_soc_start cp with
    | Some x => if flt x (of_Z 20) then [low_start_note x] else []
    | None => []
    end in
  let recs := recs ++
    match avg_soc_end cp with
    | Some x => if fgt x (of_Z 90) then [high_end_note x] else []
    | None => []
    end in
  (* Peak times *)
  let recs := recs ++
    (if existsb (fun h => bool_decide (h ∈ [17; 18; 19; 20])) (peak_usage_hours cp)
     then [peak_note] else []) in
  (* Session sizing *)
  let recs := recs ++
    (if truthy (Some (avg_session_energy cp)) && flt (avg_session_energy cp) (of_Z 10)
     then [small_session_note (avg_session_energy cp)] else []) in
  recs.

(** Conservative annual savings estimate by shifting mix to the cheapest option. *)
Definition _annual_savings_potential (a : EfficiencyAnalysis) (total_energy_kwh : pyfloat)
  : pyfloat :=
  match map (fun kv => cost_per_kwh (snd kv)) (by_charger_type a) with
  | [] => fzero
  | c :: cs =>
      if fle total_energy_kwh fzero then fzero
      else
        let current := cost_per_kwh (overall_efficiency a) in
        let best := min_by id c cs in
        let savings_per_kwh := fmax fzero (fsub current best) in
        (* Assume dataset ~90 days; only 60% realistically optimizable. *)
        let estimated_annual_kwh := fmul total_energy_kwh (fdiv (of_Z 365) (of_Z 90)) in
        fmul (fmul savings_per_kwh estimated_annual_kwh) (dec 6 1)
  end.

(** ** Orchestration *)

(** [float(x)] on a cell. *)
Definition cell_py_float (c : cell) : outcome pyfloat :=
  match c with
  | CNum x => Ok x
  | CStr s => py_float s
  | _ => Raise (TypeError "float() argument must be a string or a real number")
  end.

(** [float(df[c].mean()) if c in df.columns else None] *)
Definition mean_duration (has : bool) (rs : list Row) : option pyfloat :=
  if has then Some (fmean (map (fun r => cell_float (at_col "charging_duration_minutes" r)) rs))
  else None.

Definition sum_col (c : string) (rs : list Row) : pyfloat :=
  fsum (map (fun r => cell_float (at_col c r)) rs).

(** The normalized and filtered working copy of [analyze_efficiency]. *)
Definition working_copy (d : DataFrame) : outcome DataFrame :=
  (* Normalize types *)
  _ ← need_col "energy_added_kwh" d;
  let work := map_col "energy_added_kwh" (fun c => CNum (cell_to_numeric c)) d in
  _ ← need_col "total_cost" work;
  let work := map_col "total_cost" (fun c => CNum (cell_to_numeric c)) work in
  let work := if has_col "session_date" work
              then map_series "session_date" _to_datetime work else work in
  (* Drop unusable rows *)
  Ok (filter_rows (fun r => fgt (cell_float (at_col "energy_added_kwh" r)) fzero &&
                            fge (cell_float (at_col "total_cost" r)) fzero) work).

(** The category of one row, the body of the [lambda] given to [apply]. *)
Definition row_category (has_duration : bool) (r : Row) : outcome cell :=
  energy ← cell_py_float (at_col "energy_added_kwh" r);
  duration ← (if has_duration && notna (at_col "charging_duration_minutes" r)
              then Some <$> cell_py_float (at_col "charging_duration_minutes" r)
              else Ok None);
  ct ← categorize_charger_type (at_col "charger_type" r) energy duration;
  Ok (CStr (ChargerType_value ct)).

Fixpoint mapM {A B} (f : A -> outcome B) (l : list A) : outcome (list B) :=
  match l with
  | [] => Ok []
  | x :: l' => y ← f x; ys ← mapM f l'; Ok (y :: ys)
  end.

Definition with_categories (work : DataFrame) : outcome DataFrame :=
  if has_col "charger_type" work then
    cats ← mapM (row_category (has_col "charging_duration_minutes" work)) (rows work);
    Ok (mkDataFrame (if has_col "charger_type_category" work then columns work
                     else columns work ++ ["charger_type_category"])
          (zip_with (fun r c => <["charger_type_category" := c]> r) (rows work) cats))
  else Ok work.

(** The groups of [groupby(c)]: keys sorted, missing keys dropped. *)
Definition groups (c : string) (rs : list Row) : list (string * list Row) :=
  let key r := if notna (at_col c r) then Some (astype_str (at_col c r)) else None in
  map (fun k => (k, List.filter (fun r => bool_decide (key r = Some k)) rs))
      (group_keys (omap key rs)).

Definition by_type_metrics (work : DataFrame) : outcome (list (string * EfficiencyMetric)) :=
  if has_col "charger_type_category" work then
    foldl (fun acc g =>
             by_type ← acc;
             let energy := sum_col "energy_added_kwh" (snd g) in
             let cost := sum_col "total_cost" (snd g) in
             let duration := mean_duration (has_col "charging_duration_minutes" work) (snd g) in
             if fgt energy fzero then
               m ← calculate_efficiency_metrics energy cost duration;
               Ok (dict_set (fst g) m by_type)
             else Ok by_type)
          (Ok []) (groups "charger_type_category" (rows work))
  else Ok [].

(** By location (only locations with at least 5% of total energy).  Without a
    duration column the aggregate holds the group sizes under that name. *)
Definition by_location_metrics (work : DataFrame) (total_energy : pyfloat)
  : outcome (list (string * EfficiencyMetric)) :=
  if has_col "location_name" work then
    let threshold := fmul (dec 5 2) total_energy in
    foldl (fun acc g =>
             by_loc ← acc;
             let loc := strip (fst g) in
             let energy := sum_col "energy_added_kwh" (snd g) in
             if negb (String.eqb loc "") && fge energy threshold then
               let duration := mean_duration (has_col "charging_duration_minutes" work) (snd g) in
               m ← calculate_efficiency_metrics energy (sum_col "total_cost" (snd g)) duration;
               Ok (dict_set loc m by_loc)
             else Ok by_loc)
          (Ok []) (groups "location_name" (rows work))
  else Ok [].

(** The first pass of [analyze_efficiency]: every field but the two that
    are "filled next". *)
Definition build_analysis (d : DataFrame) : outcome (EfficiencyAnalysis * DataFrame * pyfloat) :=
  if df_empty d then Raise (ValueError "No data available for analysis")
  else
    work ← working_copy d;
    if df_empty work then Raise (ValueError "All rows were invalid after basic normalization.")
    else
      (* Cost per kWh per session *)
      let work := set_col "cost_per_kwh"
                    (fun r => CNum (fdiv (cell_float (at_col "total_cost" r))
                                         (cell_float (at_col "energy_added_kwh" r)))) work in
      (* Charger categorization *)
      work ← with_categories work;
      (* Overall efficiency *)
      let total_energy := sum_col "energy_added_kwh" (rows work) in
      let total_cost := sum_col "total_cost" (rows work) in
      let avg_duration := mean_duration (has_col "charging_duration_minutes" work) (rows work) in
      overall ← calculate_efficiency_metrics total_energy total_cost avg_duration;
      by_type ← by_type_metrics work;
      by_loc ← by_location_metrics work total_energy;
      patterns ← analyze_charging_patterns work;
      trends ← analyze_temporal_trends work;
      Ok (mkEfficiencyAnalysis overall by_type by_loc trends patterns [] fzero,
          work, total_energy).

Definition analyze_efficiency (d : DataFrame) : outcome EfficiencyAnalysis :=
  '(analysis, work, total_energy) ← build_analysis d;
  analysis ← set_recommendations analysis (_recommendations analysis work);
  analysis ← set_cost_savings_potential analysis
               (_annual_savings_potential analysis total_energy);
  Ok analysis.

End Analyses.

End ChargingEfficiencyCalculator.

(** * Router *)

(** [app/routers/charging_analysis.py].  The collaborators the repository
    does not hold are arguments: [validate_csv_file], the field names of
    [ChargingSessionCreate], the name the temporary file gets, the clock,
    and the report that [generate_efficiency_report] makes of an analysis. *)

Module ChargingAnalysisRouter.
Import TeslaCSVProcessor ChargingEfficiencyCalculator.

(* --- Constants --- *)
Definition MAX_UPLOAD_BYTES : Z := 10 * 1024 * 1024.

(* ----------- Schemas ----------- *)

Record AnalysisRequest : Type := mkAnalysisRequest {
  include_recommendations : bool;
  rate_structure : option string;
  location_filter : option (list string);
  date_range_start : option Timestamp;
  date_range_end : option Timestamp
}.

(** The [detail] of an [HTTPException]: a text or one of the two dicts. *)
Inductive detail : Type :=
| DText (s : string)
| DProcessing (message : string) (issues : list string) (metadata : list (string * meta))
| DQuality (message quality : string) (issues suggestions : list string).

(** How an endpoint ends: with its response or with an [HTTPException]. *)
Inductive response (A : Type) : Type :=
| Respond (a : A)
| HTTPException (status_code : Z) (d : detail).
Arguments Respond {A} a.
Arguments HTTPException {A} status_code d.

(** Inside the [try] of an endpoint: a value, an [HTTPException] under way,
    or another exception under way. *)
Inductive flow (A : Type) : Type :=
| Value (a : A)
| Abort (status_code : Z) (d : detail)
| Error (e : exn).
Arguments Value {A} a.
Arguments Abort {A} status_code d.
Arguments Error {A} e.

#[global] Instance flow_ret : MRet flow := fun A a => Value a.
#[global] Instance flow_bind : MBind flow := fun A B k m =>
  match m with
  | Value a => k a
  | Abort s d => Abort s d
  | Error e => Error e
  end.

(** A call that can raise, inside the [try]. *)
Definition call {A} (m : outcome A) : flow A :=
  match m with
  | Ok a => Value a
  | Raise e => Error e
  end.

(** [except HTTPException: raise] and
    [except Exception as exc: raise HTTPException(500, f"{prefix}{exc}")]. *)
Definition endpoint {A} (prefix : string) (body : flow A) : response A :=
  match body with
  | Value a => Respond a
  | Abort s d => HTTPException s d
  | Error exc => HTTPException 500 (DText (prefix +:+ exn_str exc))
  end.

(** [s.endswith(p)] *)
Definition ends_with (p s : string) : bool :=
  starts_with (rev (chars p)) (rev (chars s)).

(** [DataQuality.value] *)
Definition DataQuality_value (q : DataQuality) : string :=
  match q with
  | EXCELLENT => "excellent"
  | GOOD => "good"
  | FAIR => "fair"
  | POOR => "poor"
  end.

(** [metadata.get(k)] *)
Definition metadata_get (k : string) (md : list (string * meta)) : option meta :=
  snd <$> find (fun kv => String.eqb (fst kv) k) md.

(** An [UploadFile]: its name and what [await file.read()] gives. *)
Record UploadFile : Type := mkUploadFile {
  filename : option string;
  read : outcome string
}.

(** What [validate_csv_file] answers, as the endpoint reads it: the truth
    value of [valid] (false when absent) and the texts of [errors] (none when
    absent). *)
Record Validation : Type := mkValidation {
  valid : bool;
  errors : list string
}.

Record Processing : Type := mkProcessing {
  format_detected : option meta;
  original_rows : option meta;
  processed_rows : option meta;
  data_quality : string;
  processing_issues : list string
}.

Record UploadMetadata : Type := mkUploadMetadata {
  analysis_date : string;
  date_range : option meta * option meta;
  total_energy_kwh : option meta;
  total_cost : option meta;
  columns_analyzed : meta
}.

Record UploadResponse (Report : Type) : Type := mkUploadResponse {
  upload_status : string;
  upload_processing : Processing;
  upload_analysis : Report;
  upload_metadata : UploadMetadata
}.
Arguments mkUploadResponse {Report} _ _ _ _.

Record AnalysisResult (Report : Type) : Type := mkAnalysisResult {
  result_success : bool;
  result_data : Report;
  sessions_analyzed : Z;
  result_analysis_date : string;
  filters_applied : bool * bool
}.
Arguments mkAnalysisResult {Report} _ _ _ _ _.

Definition given {A} (o : option A) : bool :=
  match o with Some _ => true | None => false end.

(** [dts >= b] and [dts <= b] on one date: false where the date is missing.
    The bound is [pd.to_datetime(b, utc=True).tz_convert(None)]. *)
Definition on_or_after (b : Timestamp) (c : cell) : bool :=
  match c with
  | CTime t => ts_value (to_utc_naive b) <=? ts_value t
  | _ => false
  end.
Definition on_or_before (b : Timestamp) (c : cell) : bool :=
  match c with
  | CTime t => ts_value t <=? ts_value (to_utc_naive b)
  | _ => false
  end.

(** [Series.isin(values)] on one cell, for a list of texts. *)
Definition isin (c : cell) (values : list string) : bool :=
  match c with
  | CStr s => bool_decide (s ∈ values)
  | _ => false
  end.

Section Endpoints.

Variable parse_datetime : date_parser.
Variable path_exists : string -> bool.
Variable read_csv : csv_input -> outcome DataFrame.

(** [tempfile.NamedTemporaryFile(delete=False, suffix=".csv")] and the write:
    the name of the file without its suffix, or the exception. *)
Variable temp_stem : outcome string.
(** [validate_csv_file] of [utils.data_validator]: its answer, or what it
    raises, an [HTTPException] included. *)
Variable validate_csv_file : string -> flow Validation.
(** [datetime.now().isoformat()] *)
Variable now : string.
Variable Report : Type.
Variable generate_efficiency_report : EfficiencyAnalysis -> Report.
(** The field names of [ChargingSessionCreate], the keys of [s.dict()]. *)
Variable session_fields : list string.

(* ----------- Helpers ----------- *)

(** Apply date-range and location filters (non-mutating). *)
Definition _apply_filters (df : DataFrame) (req : AnalysisRequest) : DataFrame :=
  let out := df in
  (* date range (UTC-safe, no mutation of original dtype) *)
  let out :=
    if has_col "session_date" out && (given (date_range_start req) || given (date_range_end req))
    then
      let series := column "session_date" out in
      let dts (r : Row) := _to_datetime parse_datetime series (at_col "session_date" r) in
      let out :=
        match date_range_start req with
        | Some b => filter_rows (fun r => on_or_after b (dts r)) out
        | None => out
        end in
      match date_range_end req with
      | Some b => filter_rows (fun r => on_or_before b (dts r)) out
      | None => out
      end
    else out in
  (* location filter *)
  match location_filter req with
  | Some (v :: vs) =>
      if has_col "location_name" out
      then filter_rows (fun r => isin (at_col "location_name" r) (v :: vs)) out
      else out
  | _ => out
  end.

(* ----------- Endpoints ----------- *)

(** The [try] block of [upload_charging_data]. *)
Definition upload_body (analysis_request : AnalysisRequest) : flow (UploadResponse Report) :=
  (* save to a temp file for downstream processors *)
  stem ← call temp_stem;
  let temp_path := stem +:+ ".csv" in
  (* validate CSV structure (fast checks) *)
  validation_result ← validate_csv_file temp_path;
  if negb (valid validation_result) then
    let errors := match errors validation_result with
                  | [] => ["Unknown validation error"]
                  | es => es
                  end in
    Abort 400 (DText ("Invalid CSV: " +:+ String.concat "; " errors))
  else
    (* parse + normalize *)
    processing_result ← call (process_csv parse_datetime path_exists read_csv (SPath temp_path));
    match (if success processing_result then data processing_result else None) with
    | None =>
        Abort 422 (DProcessing "Failed to process CSV data"
                     (issues processing_result) (metadata processing_result))
    | Some df =>
        if bool_decide (quality processing_result = POOR) then
          Abort 422 (DQuality "Data quality too poor for reliable analysis"
                       (DataQuality_value (quality processing_result))
                       (issues processing_result)
                       [ "Ensure CSV contains complete session rows";
                         "Verify date, energy, and cost columns are present";
                         "Check for consistent formatting (decimal separator, currency, etc.)" ])
        else
          (* apply optional filters *)
          let df := _apply_filters df analysis_request in
          if df_empty df then Abort 422 (DText "No data after applying filters")
          else
            (* compute analysis *)
            analysis ← call (analyze_efficiency parse_datetime df);
            let report := generate_efficiency_report analysis in
            let md := metadata processing_result in
            (* response payload *)
            Value (mkUploadResponse "success"
                     (mkProcessing (metadata_get "format" md) (metadata_get "original_rows" md)
                        (metadata_get "processed_rows" md)
                        (DataQuality_value (quality processing_result))
                        (issues processing_result))
                     report
                     (mkUploadMetadata now
                        (metadata_get "date_range_start" md, metadata_get "date_range_end" md)
                        (metadata_get "total_energy_kwh" md) (metadata_get "total_cost" md)
                        (default (MList []) (metadata_get "columns_available" md))))
    end.

Definition upload_charging_data (file : UploadFile) (analysis_request : AnalysisRequest)
  : response (UploadResponse Report) :=
  (* basic filename guard *)
  if negb (ends_with ".csv" (lower (default "" (filename file))))
  then HTTPException 400 (DText "File must be CSV")
  else
    (* read once into memory so we can size-check and then write to disk *)
    match read file with
    | Raise exc => HTTPException 400 (DText ("Cannot read upload: " +:+ exn_str exc))
    | Ok content =>
        if (String.length content =? 0)%nat
        then HTTPException 400 (DText "Uploaded file is empty")
        else if MAX_UPLOAD_BYTES <? Z.of_nat (String.length content)
        then HTTPException 400
               (DText ("File too large (>" +:+
                       text (Z_digits (MAX_UPLOAD_BYTES / (1024 * 1024))) +:+ " MB limit)"))
        else endpoint "Internal error: " (upload_body analysis_request)
    end.

(** The renaming of [analyze_charging_sessions] to the normalized names. *)
Definition SESSION_COLUMNS : list (string * string) :=
  [ ("date", "session_date");
    ("energy_kwh", "energy_added_kwh");
    ("cost", "total_cost");
    ("location", "location_name");
    ("duration_minutes", "charging_duration_minutes");
    ("start_soc", "start_soc_percent");
    ("end_soc", "end_soc_percent") ].

(** The table of the sessions, renamed and filtered. *)
Definition sessions_frame (sessions : list Row) (analysis_request : AnalysisRequest)
  : DataFrame :=
  let df := mkDataFrame session_fields sessions in
  (* rename to normalized column names expected by the calculator *)
  let df := rename SESSION_COLUMNS df in
  _apply_filters df analysis_request.

(** Analyze efficiency from structured session objects (no CSV); a session
    is given as its [dict()]. *)
Definition analyze_charging_sessions (sessions : list Row) (analysis_request : AnalysisRequest)
  : response (AnalysisResult Report) :=
  match sessions with
  | [] => HTTPException 400 (DText "No charging sessions provided")
  | _ =>
      endpoint "Analysis failed: "
        (let df := sessions_frame sessions analysis_request in
         if df_empty df then Abort 422 (DText "No sessions after applying filters")
         else
           analysis ← call (analyze_efficiency parse_datetime df);
           let report := generate_efficiency_report analysis in
           Value (mkAnalysisResult true report (Z.of_nat (df_len df)) now
                    (given (date_range_start analysis_request)
                     || given (date_range_end analysis_request),
                     match location_filter analysis_request with
                     | Some (_ :: _) => true
                     | _ => false
                     end)))
  end.

End Endpoints.

End ChargingAnalysisRouter.

(** * Properties *)

(** ** Floats *)

Lemma Qlt_bool_iff (a b : Q) : Qlt_bool a b = true <-> (a < b)%Q.
Proof.
  unfold Qlt_bool. rewrite negb_true_iff, <- not_true_iff_false, Qle_bool_iff.
  split; [apply Qnot_le_lt | apply Qlt_not_le].
Qed.

Lemma fgt_zero_nonzero (y : pyfloat) : fgt y fzero = true -> feq y fzero = false.
Proof.
  destruct y as [q| | |]; simpl; try done.
  intros H%Qlt_bool_iff. apply not_true_iff_false.
  intros E%Qeq_bool_iff. rewrite E in H. by apply Qlt_irrefl in H.
Qed.

Lemma fgt_zero_not_fle (y : pyfloat) : fgt y fzero = true -> fle y fzero = false.
Proof.
  destruct y as [q| | |]; simpl; try done.
  unfold Qlt_bool. by intros ->%negb_true_iff.
Qed.

Lemma fge_zero_not_flt (y : pyfloat) : fge y fzero = true -> flt y fzero = false.
Proof.
  destruct y as [q| | |]; simpl; try done.
  unfold Qlt_bool. by intros ->.
Qed.

Lemma truediv_nonzero (x y : pyfloat) : feq y fzero = false -> truediv x y = Ok (fdiv x y).
Proof. unfold truediv. by intros ->. Qed.

Lemma fle_PInf (x : pyfloat) : is_nan x = false -> fle x PInf = true.
Proof. by destruct x. Qed.

(** ** Efficiency metrics *)

Module MetricFacts.
Import ChargingEfficiencyCalculator.

(** [label] is the first label of the threshold table whose bound [x] does
    not exceed. *)
Definition first_label (x : pyfloat) (label : string) : Prop :=
  exists (i : nat) (bound : pyfloat),
    EFFICIENCY_THRESHOLDS !! i = Some (label, bound) /\ fle x bound = true /\
    forall (j : nat) l b, (j < i)%nat -> EFFICIENCY_THRESHOLDS !! j = Some (l, b) -> fle x b = false.

Lemma rate_efficiency_first_label (x : pyfloat) :
  is_nan x = false -> first_label x (_rate_efficiency x).
Proof.
  intros Hx. unfold _rate_efficiency, first_label, EFFICIENCY_THRESHOLDS. simpl.
  destruct (fle x (dec 12 2)) eqn:H1; simpl.
  { exists 0%nat, (dec 12 2). repeat split; try done. intros; lia. }
  destruct (fle x (dec 20 2)) eqn:H2; simpl.
  { exists 1%nat, (dec 20 2). repeat split; try done.
    intros [|j] l b Hj; simpl; [congruence | lia]. }
  destruct (fle x (dec 35 2)) eqn:H3; simpl.
  { exists 2%nat, (dec 35 2). repeat split; try done.
    intros [|[|j]] l b Hj; simpl; [congruence | congruence | lia]. }
  rewrite (fle_PInf x Hx). simpl.
  exists 3%nat, PInf. repeat split; try done; [by apply fle_PInf|].
  intros [|[|[|j]]] l b Hj; simpl; [congruence | congruence | congruence | lia].
Qed.

(** The speed the metric reports for an optional duration. *)
Definition speed_of (energy : pyfloat) (duration : option pyfloat) : option pyfloat :=
  match duration with
  | Some d => if fgt d fzero then Some (fdiv (fmul energy (of_Z 60)) d) else None
  | None => None
  end.

Lemma speed_step (energy : pyfloat) (duration : option pyfloat) :
  match duration with
  | Some dm =>
      if truthy duration && fgt dm fzero
      then Some <$> truediv (fmul energy (of_Z 60)) dm
      else Ok None
  | None => Ok None
  end = Ok (speed_of energy duration).
Proof.
  destruct duration as [d|]; [|done].
  unfold speed_of, truthy. destruct (fgt d fzero) eqn:Hd.
  - rewrite (fgt_zero_nonzero d Hd), (truediv_nonzero _ d (fgt_zero_nonzero d Hd)).
    reflexivity.
  - by rewrite andb_false_r.
Qed.

Lemma metrics_guard_true (energy cost : pyfloat) (duration : option pyfloat) :
  fle energy fzero || flt cost fzero = true ->
  calculate_efficiency_metrics energy cost duration
  = Raise (ValueError "energy_kwh must be > 0 and cost must be ≥ 0").
Proof. unfold calculate_efficiency_metrics. by intros ->. Qed.

Lemma metrics_guard_false (energy cost : pyfloat) (duration : option pyfloat) :
  fle energy fzero || flt cost fzero = false ->
  calculate_efficiency_metrics energy cost duration
  = Ok (let cpk := if fgt energy fzero then fdiv cost energy else PInf in
        mkEfficiencyMetric (if fgt cost fzero then fdiv energy cost else fzero) cpk
          (speed_of energy duration) (_rate_efficiency cpk)).
Proof.
  unfold calculate_efficiency_metrics. intros ->.
  rewrite speed_step.
  destruct (fgt energy fzero) eqn:He, (fgt cost fzero) eqn:Hc; simpl;
    rewrite ?(truediv_nonzero _ _ (fgt_zero_nonzero _ He)),
            ?(truediv_nonzero _ _ (fgt_zero_nonzero _ Hc)); done.
Qed.

(** The rating of a cost per kWh, by the threshold table as the spec gives
    it: excellent up to 0.12, good up to 0.20, fair up to 0.35, poor
    beyond. *)
Definition rating_of (x : pyfloat) : string :=
  if fle x (dec 12 2) then "excellent"
  else if fle x (dec 20 2) then "good"
  else if fle x (dec 35 2) then "fair"
  else "poor".

Lemma rate_efficiency_rating_of (x : pyfloat) : _rate_efficiency x = rating_of x.
Proof.
  unfold _rate_efficiency, rating_of, EFFICIENCY_THRESHOLDS. cbn [find snd fst].
  destruct (fle x (dec 12 2)); [done|]. destruct (fle x (dec 20 2)); [done|].
  destruct (fle x (dec 35 2)); [done|]. by destruct (fle x PInf).
Qed.

(** Past the guard an energy is above 0 unless it is [nan]. *)
Lemma past_guard_energy (energy : pyfloat) :
  fle energy fzero = false -> fgt energy fzero = negb (is_nan energy).
Proof.
  destruct energy as [q| | |]; try done. cbn [fle fgt flt fzero is_nan negb].
  unfold Qlt_bool. by intros ->.
Qed.

(** C6, as the code has it.  [calculate_efficiency_metrics] raises exactly
    when [energy_kwh <= 0] or [cost < 0], so for an energy of 0 whatever the
    cost and for a cost of -1.  Otherwise it returns a metric whose
    [cost_per_kwh] is [cost / energy] for an energy that is a number and
    [inf] for an energy that is [nan]; whose [kwh_per_dollar] is
    [energy / cost] for a positive cost and exactly 0, so neither infinite
    nor [nan], for a cost of 0 (and for a cost that is [nan]); whose speed
    is [energy * 60 / duration] for a positive duration and absent
    otherwise; and whose rating is excellent up to 0.12, good up to 0.20,
    fair up to 0.35 and poor beyond, the first label of the threshold table
    whose bound the cost per kWh does not exceed. *)
Theorem calculate_efficiency_metrics_spec (energy cost : pyfloat) (duration : option pyfloat) :
  (raises (calculate_efficiency_metrics energy cost duration)
   <-> fle energy fzero = true \/ flt cost fzero = true) /\
  raises (calculate_efficiency_metrics fzero cost duration) /\
  raises (calculate_efficiency_metrics energy (of_Z (-1)) duration) /\
  (fle energy fzero = false -> flt cost fzero = false ->
   exists m, calculate_efficiency_metrics energy cost duration = Ok m /\
     (is_nan energy = false -> cost_per_kwh m = fdiv cost energy) /\
     (is_nan energy = true -> cost_per_kwh m = PInf) /\
     (fgt cost fzero = true -> kwh_per_dollar m = fdiv energy cost) /\
     (feq cost fzero = true \/ is_nan cost = true -> kwh_per_dollar m = fzero) /\
     charging_speed_kw m = speed_of energy duration /\
     efficiency_rating m = rating_of (cost_per_kwh m) /\
     (is_nan (cost_per_kwh m) = false -> first_label (cost_per_kwh m) (efficiency_rating m))).
Proof.
  split; [|split; [|split]].
  - destruct (fle energy fzero || flt cost fzero) eqn:G.
    + rewrite (metrics_guard_true _ _ _ G). apply orb_true_iff in G.
      split; [done | by eexists].
    + rewrite (metrics_guard_false _ _ _ G). apply orb_false_iff in G as [G1 G2].
      split; [by intros [e ?] | intros [?|?]; congruence].
  - rewrite metrics_guard_true; [by eexists | done].
  - rewrite metrics_guard_true; [by eexists | by rewrite orb_true_r].
  - intros He Hc.
    rewrite metrics_guard_false by (by rewrite He, Hc).
    rewrite (past_guard_energy _ He). eexists; split; [done|].
    cbn [kwh_per_dollar cost_per_kwh charging_speed_kw efficiency_rating].
    repeat split.
    + by intros ->.
    + by intros ->.
    + by intros ->.
    + intros Hz. destruct (fgt cost fzero) eqn:Hp; [|done].
      destruct Hz as [Hz|Hz]; [by rewrite (fgt_zero_nonzero _ Hp) in Hz | by destruct cost].
    + apply rate_efficiency_rating_of.
    + apply rate_efficiency_first_label.
Qed.

(** The metric of an energy that is [nan]: the guard lets it through, the
    cost per kWh is [inf] and not [cost / energy], and [kwh_per_dollar] is
    [nan]. *)
Example nan_energy_run :
  calculate_efficiency_metrics NaN (of_Z 1) None
  = Ok (mkEfficiencyMetric NaN PInf None "poor") /\
  fdiv (of_Z 1) NaN = NaN.
Proof. split; vm_compute; reflexivity. Qed.

(** C6, as stated, fails: what is returned when nothing is raised need not
    have [cost_per_kwh = cost / energy]. *)
Lemma metrics_of_nan_energy :
  ~ (forall energy cost duration,
       fle energy fzero = false -> flt cost fzero = false ->
       exists m, calculate_efficiency_metrics energy cost duration = Ok m /\
                 cost_per_kwh m = fdiv cost energy).
Proof.
  intros H. destruct (H NaN (of_Z 1) None eq_refl eq_refl) as (m & Hm & Hc).
  vm_compute in Hm. injection Hm as <-. vm_compute in Hc. discriminate Hc.
Qed.

(** A run of the metric calculator: 30 kWh for 3.60 dollars in 45 minutes. *)
Example calculate_efficiency_metrics_run :
  calculate_efficiency_metrics (of_Z 30) (dec 360 2) (Some (of_Z 45))
  = Ok (mkEfficiencyMetric (fin (25 # 3)) (dec 12 2) (Some (of_Z 40)) "excellent") /\
  calculate_efficiency_metrics (of_Z 30) fzero None
  = Ok (mkEfficiencyMetric fzero fzero None "excellent").
Proof. split; vm_compute; reflexivity. Qed.

End MetricFacts.

(** ** CSV processor: parsers, detection and the outer boundary *)

Module ProcessorFacts.
Import TeslaCSVProcessor.

Definition UNRECOGNIZED : exn :=
  ValueError "Unrecognized CSV format; headers do not match expected patterns".

(** The result the handler of [process_csv] builds from an exception. *)
Definition failure_of (e : exn) : ProcessingResult :=
  mkProcessingResult false None POOR
    ["Processing error: " +:+ exn_str e] [("error", MStr (exn_str e))].

(** One of the three known header sets is present. *)
Definition known_format (cols : list string) : bool :=
  subset_of ["Energy Added (kWh)"; "Starting SOC"] cols
  || subset_of ["Energy Delivered (kWh)"; "Charge Cost"] cols
  || subset_of ["kWh"; "Start %"; "End %"] cols.

(** C2, as the code has it.  The number parser maps ["1,234.56"] to 1234.56
    and ["12,5"] to 12.5; a value with both a comma and a dot loses its
    commas, any other value has its commas turned into dots; and so
    ["1.234,56"] becomes ["1.23456"], the number 1.23456. *)
Theorem to_number_separators :
  _to_number (CStr "1,234.56") = CNum (dec 123456 2) /\
  _to_number (CStr "12,5") = CNum (dec 125 1) /\
  _to_number (CStr "1.234,56") = CNum (dec 123456 5) /\
  forall s : string,
    let kept := keep_chars number_char s in
    to_number_str s =
      if has_char ","%char kept && has_char "."%char kept
      then to_numeric (replace_char ","%char [] kept)
      else to_numeric (replace_char ","%char ["."%char] kept).
Proof.
  split; [vm_compute; reflexivity|].
  split; [vm_compute; reflexivity|].
  split; [vm_compute; reflexivity|].
  intros s kept. unfold to_number_str. fold kept.
  by destruct (has_char ","%char kept && has_char "."%char kept).
Qed.

(** C2, as stated, fails: ["1.234,56"] is not read as 1234.56. *)
Lemma to_number_continental_not_thousands :
  ~ (_to_number (CStr "1,234.56") = CNum (dec 123456 2) /\
     _to_number (CStr "12,5") = CNum (dec 125 1) /\
     _to_number (CStr "1.234,56") = CNum (dec 123456 2)).
Proof. intros (_ & _ & H). vm_compute in H. discriminate H. Qed.

(** C9, as the code has it.  The rules are tried in order and the first
    match wins: both mobile headers give the mobile format whatever else is
    there; the headers [kWh] and [Cost] alone give the generic format; and a
    header set that matches none of the three known formats and has no
    energy-like or no cost-like column raises the unrecognized-format error,
    which [process_csv] turns into a failed result without a table. *)
Theorem detect_format_rules (d : DataFrame) :
  (subset_of ["Energy Added (kWh)"; "Starting SOC"] (columns d) = true ->
   _detect_format d = Ok "tesla_mobile") /\
  (forall rs, _detect_format (mkDataFrame ["kWh"; "Cost"] rs) = Ok "generic" /\
              _detect_format (mkDataFrame ["Cost"; "kWh"] rs) = Ok "generic") /\
  (known_format (columns d) = false ->
   existsb energy_like (columns d) = false \/ existsb cost_like (columns d) = false ->
   _detect_format d = Raise UNRECOGNIZED) /\
  (forall parse_datetime path_exists read_csv src,
     _read_csv_safely path_exists read_csv src = Ok d -> df_empty d = false ->
     known_format (columns d) = false ->
     existsb energy_like (columns d) = false \/ existsb cost_like (columns d) = false ->
     process_csv parse_datetime path_exists read_csv src = Ok (failure_of UNRECOGNIZED)).
Proof.
  assert (Hraise : known_format (columns d) = false ->
    existsb energy_like (columns d) = false \/ existsb cost_like (columns d) = false ->
    _detect_format d = Raise UNRECOGNIZED).
  { unfold known_format, _detect_format.
    intros [[-> ->]%orb_false_iff ->]%orb_false_iff [-> | ->]; [done|].
    by rewrite andb_false_r. }
  split; [|split; [|split]]; [| | done |].
  - unfold _detect_format. by intros ->.
  - intros rs. split; vm_compute; reflexivity.
  - intros parse_datetime path_exists read_csv src Hread Hne Hk Hlike.
    unfold process_csv, process_csv_body. rewrite Hread. cbn [mbind outcome_bind].
    rewrite Hne, (Hraise Hk Hlike). reflexivity.
Qed.

(** C9, as stated, fails: the third-party header set has no cost-like
    column and is still classified. *)
Lemma detect_format_classifies_without_cost :
  ~ (forall d : DataFrame,
       existsb energy_like (columns d) = false \/ existsb cost_like (columns d) = false ->
       raises (_detect_format d)).
Proof.
  intros H. destruct (H (mkDataFrame ["kWh"; "Start %"; "End %"] [])) as [e He].
  - right. vm_compute. reflexivity.
  - vm_compute in He. discriminate He.
Qed.

Example detect_format_runs :
  _detect_format (mkDataFrame ["Energy Added (kWh)"; "Starting SOC"; "Cost"] []) = Ok "tesla_mobile" /\
  _detect_format (mkDataFrame ["Date"; "Energy Delivered (kWh)"; "Charge Cost";
                               "Energy Added (kWh)"; "Starting SOC"] []) = Ok "tesla_mobile" /\
  _detect_format (mkDataFrame ["kWh"; "Start %"; "End %"] []) = Ok "teslafi" /\
  _detect_format (mkDataFrame ["Date"; "Amount"] []) = Raise UNRECOGNIZED /\
  _detect_format (mkDataFrame ["Date"; "kWh"] []) = Raise UNRECOGNIZED.
Proof. vm_compute. repeat split; reflexivity. Qed.

(** C3.  [process_csv] returns a [ProcessingResult] for every source and
    never raises: an exception raised anywhere inside is turned into a
    result with [success = False] whose issue carries the exception text. *)
Theorem process_csv_never_raises
    (parse_datetime : date_parser) (path_exists : string -> bool)
    (read_csv : csv_input -> outcome DataFrame) (src : source) :
  exists r : ProcessingResult,
    process_csv parse_datetime path_exists read_csv src = Ok r /\
    forall e : exn,
      process_csv_body parse_datetime path_exists read_csv src = Raise e ->
      r = failure_of e /\ success r = false /\
      issues r = ["Processing error: " +:+ exn_str e].
Proof.
  unfold process_csv.
  destruct (process_csv_body parse_datetime path_exists read_csv src) as [r|e0] eqn:Hb.
  - exists r. split; [done | intros e [=]].
  - exists (failure_of e0). split; [done | by intros e [= <-]].
Qed.

(** C10.  Every result of [process_csv] with [success = False] has no data
    and quality [poor], and every result with [success = True] carries a
    table; so a quality other than [poor] tells that a table is there. *)
Theorem process_csv_result_shape
    (parse_datetime : date_parser) (path_exists : string -> bool)
    (read_csv : csv_input -> outcome DataFrame) (src : source) :
  exists r : ProcessingResult,
    process_csv parse_datetime path_exists read_csv src = Ok r /\
    (success r = false -> data r = None /\ quality r = POOR) /\
    (success r = true -> exists df, data r = Some df) /\
    (quality r <> POOR -> exists df, data r = Some df).
Proof.
  unfold process_csv, process_csv_body.
  destruct (_read_csv_safely path_exists read_csv src) as [df_raw|e]; cbn [mbind outcome_bind try_except];
    [|by eexists].
  destruct (df_empty df_raw); [by eexists|].
  destruct (_detect_format df_raw) as [fmt|e]; cbn [mbind outcome_bind try_except];
    [|by eexists].
  destruct (_validate_structure (_normalize_columns df_raw fmt)) as [[] iss];
    cbn [negb try_except]; eexists; (split; [reflexivity|]);
    cbn [success data quality _fail]; repeat split; (try done); eauto.
Qed.

(** A successful result can still be of poor quality: one valid session
    whose date cannot be read, and no optional column. *)
Definition undated_upload : DataFrame :=
  mkDataFrame ["Date"; "kWh"; "Cost"]
    [list_to_map [("Date", CStr "sometime"); ("kWh", CNum (of_Z 10)); ("Cost", CNum (of_Z 2))]].

Example process_csv_poor_with_table :
  let r := process_csv iso_dates (fun _ => true) (fun _ => Ok undated_upload) (SText "upload") in
  (success <$> r) = Ok true /\ (quality <$> r) = Ok POOR /\
  ((fun x => df_len <$> data x) <$> r) = Ok (Some 1%nat).
Proof. vm_compute. repeat split; reflexivity. Qed.

End ProcessorFacts.

(** ** Tables *)

Lemma at_col_insert (c : string) (x : cell) (r : Row) : at_col c (<[c := x]> r) = x.
Proof. unfold at_col. by rewrite lookup_insert_eq. Qed.

Lemma at_col_insert_ne (c c' : string) (x : cell) (r : Row) :
  c <> c' -> at_col c (<[c' := x]> r) = at_col c r.
Proof. intros H. unfold at_col. by rewrite lookup_insert_ne. Qed.

Lemma column_map_col (c : string) (f : cell -> cell) (d : DataFrame) :
  column c (map_col c f d) = map f (column c d).
Proof.
  unfold column, map_col; cbn [rows]. rewrite !map_map.
  apply map_ext. intros r. apply at_col_insert.
Qed.

Lemma column_map_col_ne (c c' : string) (f : cell -> cell) (d : DataFrame) :
  c <> c' -> column c (map_col c' f d) = column c d.
Proof.
  intros H. unfold column, map_col; cbn [rows]. rewrite map_map.
  apply map_ext. intros r. by apply at_col_insert_ne.
Qed.

Lemma column_set_col_ne (c c' : string) (g : Row -> cell) (d : DataFrame) :
  c <> c' -> column c (set_col c' g d) = column c d.
Proof.
  intros H. unfold column, set_col; cbn [rows]. rewrite map_map.
  apply map_ext. intros r. by apply at_col_insert_ne.
Qed.

Lemma has_col_map_col (c c' : string) (f : cell -> cell) (d : DataFrame) :
  has_col c (map_col c' f d) = has_col c d.
Proof. done. Qed.

Lemma has_col_filter_rows (c : string) (p : Row -> bool) (d : DataFrame) :
  has_col c (filter_rows p d) = has_col c d.
Proof. done. Qed.

Lemma has_col_set_col_ne (c c' : string) (g : Row -> cell) (d : DataFrame) :
  c <> c' -> has_col c (set_col c' g d) = has_col c d.
Proof.
  intros H. unfold has_col at 1, set_col; cbn [columns].
  destruct (has_col c' d); [done|].
  apply bool_decide_ext. rewrite elem_of_app, list_elem_of_singleton.
  split; [intros [?|?]; [done | congruence] | by left].
Qed.

Lemma Forall_column_filter_rows (c : string) (P : cell -> Prop) (p : Row -> bool) (d : DataFrame) :
  Forall P (column c d) -> Forall P (column c (filter_rows p d)).
Proof.
  unfold column, filter_rows; cbn [rows]. rewrite !Forall_fmap, !Forall_forall.
  intros H r [Hr _]%list_elem_of_In%filter_In. apply H. by apply list_elem_of_In.
Qed.

Lemma Forall_filter_rows (p : Row -> bool) (d : DataFrame) :
  Forall (fun r => p r = true) (rows (filter_rows p d)).
Proof.
  cbn [filter_rows rows]. apply Forall_forall.
  by intros r [_ Hr]%list_elem_of_In%filter_In.
Qed.

Lemma filter_all (A : Type) (p : A -> bool) (l : list A) :
  Forall (fun x => p x = true) l -> List.filter p l = l.
Proof. induction 1 as [|x l Hx _ IH]; simpl; [done|]. by rewrite Hx, IH. Qed.

(** ** Deduplication *)

Module DedupFacts.
Import TeslaCSVProcessor.

Section KeepFirst.
Variable subset : list string.
Abbreviation key := (row_key subset).

Lemma keep_first_Forall (P : Row -> Prop) (seen : list (list cell)) (l : list Row) :
  Forall P l -> Forall P (keep_first subset seen l).
Proof.
  intros H. revert seen. induction H as [|r l Hr _ IH]; intros seen; simpl; [done|].
  case_bool_decide; [apply IH | constructor; [done | apply IH]].
Qed.

Lemma keep_first_fresh (seen : list (list cell)) (l : list Row) (k : list cell) :
  k ∈ map key (keep_first subset seen l) -> k ∉ seen.
Proof.
  revert seen. induction l as [|r l IH]; intros seen; simpl; [by intros ?%elem_of_nil|].
  case_bool_decide as Hs; [apply IH|].
  simpl. intros [-> | Hk]%elem_of_cons; [done|].
  apply IH in Hk. intros Hin. apply Hk. by right.
Qed.

Lemma keep_first_NoDup (seen : list (list cell)) (l : list Row) :
  NoDup (map key (keep_first subset seen l)).
Proof.
  revert seen. induction l as [|r l IH]; intros seen; simpl; [constructor|].
  case_bool_decide as Hs; [apply IH|].
  simpl. constructor; [|apply IH].
  intros Hk%keep_first_fresh. apply Hk. by left.
Qed.

Lemma keep_first_sublist (seen : list (list cell)) (l : list Row) :
  sublist (keep_first subset seen l) l.
Proof.
  revert seen. induction l as [|x l IH]; intros seen; simpl; [constructor|].
  case_bool_decide; [apply sublist_cons | apply sublist_skip]; apply IH.
Qed.

Lemma keep_first_keys (seen : list (list cell)) (l : list Row) (r : Row) :
  r ∈ l ->
  key r ∈ seen \/ exists r', r' ∈ keep_first subset seen l /\ key r' = key r.
Proof.
  revert seen. induction l as [|x l IH]; intros seen Hr; [by apply elem_of_nil in Hr|].
  simpl. apply elem_of_cons in Hr as [->|Hr].
  - case_bool_decide; [by left|]. right. exists x. split; [left|done].
  - case_bool_decide; [by apply IH|].
    destruct (IH (key x :: seen) Hr) as [Hin|(r' & ? & ?)].
    + apply elem_of_cons in Hin as [Heq|?]; [|by left].
      right. exists x. split; [left | done].
    + right. exists r'. split; [by right|done].
Qed.

Lemma keep_first_id (seen : list (list cell)) (l : list Row) :
  NoDup (map key l) -> (forall r, r ∈ l -> key r ∉ seen) -> keep_first subset seen l = l.
Proof.
  revert seen. induction l as [|r l IH]; intros seen Hnd Hseen; simpl; [done|].
  apply NoDup_cons in Hnd as [Hr Hnd].
  rewrite bool_decide_eq_false_2 by (apply Hseen; by left).
  f_equal. apply IH; [done|].
  intros r' Hr' [Heq | Hin]%elem_of_cons.
  - apply Hr. rewrite <- Heq. apply list_elem_of_fmap. by exists r'.
  - revert Hin. apply Hseen. by right.
Qed.

End KeepFirst.

Lemma column_drop_duplicates (c : string) (P : cell -> Prop) (subset : list string) (d : DataFrame) :
  Forall P (column c d) -> Forall P (column c (drop_duplicates subset d)).
Proof.
  unfold column, drop_duplicates; cbn [rows]. rewrite !Forall_fmap.
  apply keep_first_Forall.
Qed.

End DedupFacts.

(** ** Cleaning *)

Module CleaningFacts.
Import TeslaCSVProcessor DedupFacts.

(** A step of the cleaner keeps column [c]: what held of every cell of the
    column still holds, and the column is there exactly when it was. *)
Definition keeps (c : string) (F : DataFrame -> DataFrame) : Prop :=
  (forall (P : cell -> Prop) d, Forall P (column c d) -> Forall P (column c (F d))) /\
  (forall d, has_col c (F d) = has_col c d).

Lemma keeps_comp (c : string) (F G : DataFrame -> DataFrame) :
  keeps c F -> keeps c G -> keeps c (fun d => G (F d)).
Proof.
  intros [HF1 HF2] [HG1 HG2]. split.
  - intros P d H. by apply HG1, HF1.
  - intros d. by rewrite HG2, HF2.
Qed.

Lemma keeps_if_col (c c' : string) (F : DataFrame -> DataFrame) :
  keeps c F -> keeps c (if_col c' F).
Proof.
  intros [HF1 HF2]. unfold if_col.
  split; intros; destruct (has_col c' _); auto.
Qed.

Lemma keeps_map_col (c c' : string) (f : cell -> cell) : c <> c' -> keeps c (map_col c' f).
Proof.
  intros H. split; [|done]. intros P d. by rewrite column_map_col_ne.
Qed.

Lemma keeps_map_series (c c' : string) (f : list cell -> cell -> cell) :
  c <> c' -> keeps c (map_series c' f).
Proof.
  intros H. split; [|done]. intros P d. unfold map_series. by rewrite column_map_col_ne.
Qed.

Lemma keeps_set_col (c c' : string) (g : Row -> cell) : c <> c' -> keeps c (set_col c' g).
Proof.
  intros H. split.
  - intros P d. by rewrite column_set_col_ne.
  - intros d. by apply has_col_set_col_ne.
Qed.

Lemma keeps_filter_rows (c : string) (p : Row -> bool) : keeps c (filter_rows p).
Proof. split; [intros P d; apply Forall_column_filter_rows | done]. Qed.

Lemma keeps_drop_duplicates (c : string) (subset : list string) :
  keeps c (drop_duplicates subset).
Proof. split; [intros P d; apply column_drop_duplicates | done]. Qed.

Section Stages.
Variable parse_datetime : date_parser.

(** The steps of [_clean_data], in order. *)
Definition date_stage : DataFrame -> DataFrame :=
  if_col "session_date" (map_series "session_date" (to_datetime parse_datetime)).
Definition time_stage (d : DataFrame) : DataFrame :=
  fold_left (fun d tcol => if_col tcol (map_series tcol (to_clock parse_datetime)) d)
            ["session_time"; "start_time"; "end_time"] d.
Definition energy_stage : DataFrame -> DataFrame :=
  if_col "energy_added_kwh" (fun d =>
    filter_rows (fun r => fgt (cell_float (at_col "energy_added_kwh" r)) fzero)
                (map_col "energy_added_kwh" _to_number d)).
Definition cost_stage : DataFrame -> DataFrame :=
  if_col "total_cost" (fun d =>
    filter_rows (fun r => fge (cell_float (at_col "total_cost" r)) fzero)
                (map_col "total_cost" _to_currency d)).
Definition power_stage (d : DataFrame) : DataFrame :=
  fold_left (fun d pcol => if_col pcol (map_col pcol _to_number) d)
            ["max_power_kw"; "avg_power_kw"] d.
Definition soc_step (soc : string) : DataFrame -> DataFrame :=
  if_col soc (map_col soc (fun c => CNum (clip fzero (of_Z 100) (_to_percent c)))).
Definition soc_stage (d : DataFrame) : DataFrame :=
  soc_step "end_soc_percent" (soc_step "start_soc_percent" d).
Definition duration_stage : DataFrame -> DataFrame :=
  if_col "charging_duration"
    (set_col "charging_duration_minutes"
       (fun r => _duration_to_minutes (at_col "charging_duration" r))).
Definition location_stage : DataFrame -> DataFrame :=
  if_col "location_name" (map_col "location_name" tidy_location).
Definition KEY : list string := ["session_date"; "energy_added_kwh"; "total_cost"].
Ltac key_in := unfold KEY; repeat constructor.

Definition dedup_stage (d : DataFrame) : DataFrame :=
  let subset := List.filter (fun c => has_col c d) KEY in
  if (length subset =? 3)%nat then drop_duplicates subset d else d.

(** What follows the two filters and precedes the deduplication. *)
Definition tail_stage (d : DataFrame) : DataFrame :=
  location_stage (duration_stage (soc_stage (power_stage d))).

Lemma clean_data_stages (d : DataFrame) :
  _clean_data parse_datetime d
  = dedup_stage (tail_stage (cost_stage (energy_stage (time_stage (date_stage d))))).
Proof.
  unfold _clean_data, dedup_stage, tail_stage, location_stage, duration_stage, soc_stage,
    soc_step, power_stage, cost_stage, energy_stage, time_stage, date_stage.
  cbn [fold_left]. reflexivity.
Qed.

(** Column labels the steps other than the named one leave alone. *)
Lemma keeps_date_stage c : c <> "session_date" -> keeps c date_stage.
Proof. intros H. unfold date_stage. apply keeps_if_col. by apply keeps_map_series. Qed.

Lemma keeps_time_stage c :
  c <> "session_time" -> c <> "start_time" -> c <> "end_time" -> keeps c time_stage.
Proof.
  intros H1 H2 H3. unfold time_stage. cbn [fold_left].
  apply (keeps_comp c (fun d => if_col "start_time" _ (if_col "session_time" _ d))
                      (if_col "end_time" _)).
  - apply (keeps_comp c (if_col "session_time" _) (if_col "start_time" _));
      apply keeps_if_col; by apply keeps_map_series.
  - apply keeps_if_col; by apply keeps_map_series.
Qed.

Lemma keeps_filter_map c c' (p : Row -> bool) (f : cell -> cell) :
  c <> c' -> keeps c (if_col c' (fun d => filter_rows p (map_col c' f d))).
Proof.
  intros H. apply keeps_if_col.
  apply (keeps_comp c (map_col c' f) (filter_rows p));
    [by apply keeps_map_col | apply keeps_filter_rows].
Qed.

Lemma keeps_energy_stage c : c <> "energy_added_kwh" -> keeps c energy_stage.
Proof. apply keeps_filter_map. Qed.

Lemma keeps_cost_stage c : c <> "total_cost" -> keeps c cost_stage.
Proof. apply keeps_filter_map. Qed.

Lemma keeps_power_stage c : c <> "max_power_kw" -> c <> "avg_power_kw" -> keeps c power_stage.
Proof.
  intros H1 H2. unfold power_stage. cbn [fold_left].
  apply (keeps_comp c (if_col "max_power_kw" _) (if_col "avg_power_kw" _));
    apply keeps_if_col; by apply keeps_map_col.
Qed.

Lemma keeps_soc_step c soc : c <> soc -> keeps c (soc_step soc).
Proof. intros H. apply keeps_if_col. by apply keeps_map_col. Qed.

Lemma keeps_duration_stage c : c <> "charging_duration_minutes" -> keeps c duration_stage.
Proof. intros H. apply keeps_if_col. by apply keeps_set_col. Qed.

Lemma keeps_location_stage c : c <> "location_name" -> keeps c location_stage.
Proof. intros H. apply keeps_if_col. by apply keeps_map_col. Qed.

Lemma keeps_dedup_stage c : keeps c dedup_stage.
Proof.
  unfold dedup_stage. split; intros; cbv zeta; case_match; try done.
  by apply column_drop_duplicates.
Qed.

Lemma keeps_tail_stage c :
  c ∈ KEY -> keeps c tail_stage.
Proof.
  intros Hc. unfold tail_stage.
  assert (c <> "max_power_kw" /\ c <> "avg_power_kw" /\ c <> "start_soc_percent" /\
          c <> "end_soc_percent" /\ c <> "charging_duration_minutes" /\ c <> "location_name")
    as (?&?&?&?&?&?).
  { unfold KEY in Hc. rewrite !elem_of_cons, elem_of_nil in Hc.
    destruct Hc as [->|[->|[->|[]]]]; repeat split; discriminate. }
  apply (keeps_comp c (fun d => duration_stage (soc_stage (power_stage d))) location_stage);
    [|by apply keeps_location_stage].
  apply (keeps_comp c (fun d => soc_stage (power_stage d)) duration_stage);
    [|by apply keeps_duration_stage].
  apply (keeps_comp c power_stage soc_stage); [by apply keeps_power_stage|].
  apply (keeps_comp c (soc_step "start_soc_percent") (soc_step "end_soc_percent"));
    by apply keeps_soc_step.
Qed.

(** What the cleaner establishes of a cell. *)
Definition positive_cell (x : cell) : Prop := exists v, x = CNum v /\ fgt v fzero = true.
Definition nonneg_cell (x : cell) : Prop := exists v, x = CNum v /\ fge v fzero = true.
Definition soc_cell (x : cell) : Prop :=
  exists v, x = CNum v /\
    (is_nan v = true \/ (fle fzero v = true /\ fle v (of_Z 100) = true)).
Definition time_cell (x : cell) : Prop := x = CNaT \/ exists t, x = CTime t.

Lemma columns_before_tail (d : DataFrame) :
  columns (cost_stage (energy_stage (time_stage (date_stage d)))) = columns d.
Proof.
  unfold cost_stage, energy_stage, time_stage, date_stage. cbn [fold_left].
  unfold if_col. repeat (destruct (has_col _ _); cbn [columns map_col filter_rows]); reflexivity.
Qed.

Lemma has_col_before_tail (c : string) (d : DataFrame) :
  has_col c (cost_stage (energy_stage (time_stage (date_stage d)))) = has_col c d.
Proof. unfold has_col. by rewrite columns_before_tail. Qed.

Lemma has_col_before_dedup (c : string) (d : DataFrame) :
  c ∈ KEY ->
  has_col c (tail_stage (cost_stage (energy_stage (time_stage (date_stage d))))) = has_col c d.
Proof.
  intros Hc. destruct (keeps_tail_stage c Hc) as [_ H]. by rewrite H, has_col_before_tail.
Qed.

Lemma filter_map_column (c : string) (p : Row -> bool) (f : cell -> cell) (P : cell -> Prop)
    (d : DataFrame) :
  (forall r, p (<[c := f (at_col c r)]> r) = true -> P (f (at_col c r))) ->
  Forall P (column c (filter_rows p (map_col c f d))).
Proof.
  intros H. unfold column, filter_rows, map_col; cbn [rows].
  rewrite Forall_fmap. apply Forall_forall.
  intros r' [[r [<- _]]%in_map_iff Hp]%list_elem_of_In%filter_In.
  simpl. rewrite at_col_insert. by apply H.
Qed.

Lemma energy_stage_positive (d : DataFrame) :
  has_col "energy_added_kwh" d = true ->
  Forall positive_cell (column "energy_added_kwh" (energy_stage d)).
Proof.
  intros H. unfold energy_stage, if_col. rewrite H.
  apply filter_map_column. intros r. cbv beta. rewrite at_col_insert.
  unfold _to_number. cbn [cell_float].
  intros Hp. eexists. split; [reflexivity | exact Hp].
Qed.

Lemma cost_stage_nonneg (d : DataFrame) :
  has_col "total_cost" d = true ->
  Forall nonneg_cell (column "total_cost" (cost_stage d)).
Proof.
  intros H. unfold cost_stage, if_col. rewrite H.
  apply filter_map_column. intros r. cbv beta. rewrite at_col_insert.
  unfold _to_currency, _to_number. cbn [cell_float].
  intros Hp. eexists. split; [reflexivity | exact Hp].
Qed.

Lemma flt_false_fle (x y : pyfloat) :
  is_nan x = false -> is_nan y = false -> flt x y = false -> fle y x = true.
Proof.
  destruct x as [a| | |], y as [b| | |]; simpl; try done.
  unfold Qlt_bool. by intros _ _ ?%negb_false_iff.
Qed.

Lemma clip_range (x : pyfloat) :
  is_nan (clip fzero (of_Z 100) x) = true \/
  (fle fzero (clip fzero (of_Z 100) x) = true /\ fle (clip fzero (of_Z 100) x) (of_Z 100) = true).
Proof.
  unfold clip. destruct (is_nan x) eqn:Hn; [by left | right].
  destruct (flt x fzero) eqn:H0; [done|].
  unfold fgt. destruct (flt (of_Z 100) x) eqn:H1; [done|].
  split; by apply flt_false_fle.
Qed.

Lemma soc_step_range (soc : string) (d : DataFrame) :
  has_col soc d = true -> Forall soc_cell (column soc (soc_step soc d)).
Proof.
  intros H. unfold soc_step, if_col. rewrite H, column_map_col.
  apply Forall_fmap, Forall_true. intros x. eexists. split; [done | apply clip_range].
Qed.

Lemma date_stage_times (d : DataFrame) :
  has_col "session_date" d = true ->
  Forall time_cell (column "session_date" (date_stage d)).
Proof.
  intros H. unfold date_stage, if_col, map_series. rewrite H, column_map_col.
  apply Forall_fmap, Forall_true. intros x. unfold time_cell.
  destruct x as [s|[]|t| | | |]; simpl; eauto.
  destruct (parse_datetime _ s); simpl; eauto.
Qed.

Lemma dedup_stage_NoDup (d : DataFrame) :
  Forall (fun c => has_col c d = true) KEY ->
  NoDup (map (row_key KEY) (rows (dedup_stage d))).
Proof.
  unfold KEY. rewrite !Forall_cons. intros (H1 & H2 & H3 & _).
  unfold dedup_stage, KEY. cbn [List.filter]. rewrite H1, H2, H3.
  cbn [length Nat.eqb drop_duplicates rows]. apply keep_first_NoDup.
Qed.

Lemma clean_energy_positive (d : DataFrame) :
  has_col "energy_added_kwh" d = true ->
  Forall positive_cell (column "energy_added_kwh" (_clean_data parse_datetime d)).
Proof.
  intros H. rewrite clean_data_stages.
  apply keeps_dedup_stage, keeps_tail_stage; [key_in|].
  apply keeps_cost_stage; [discriminate|].
  apply energy_stage_positive.
  destruct (keeps_time_stage "energy_added_kwh") as [_ ->]; try discriminate.
  by destruct (keeps_date_stage "energy_added_kwh") as [_ ->].
Qed.

Lemma clean_cost_nonneg (d : DataFrame) :
  has_col "total_cost" d = true ->
  Forall nonneg_cell (column "total_cost" (_clean_data parse_datetime d)).
Proof.
  intros H. rewrite clean_data_stages.
  apply keeps_dedup_stage, keeps_tail_stage; [key_in|].
  apply cost_stage_nonneg.
  destruct (keeps_energy_stage "total_cost") as [_ ->]; try discriminate.
  destruct (keeps_time_stage "total_cost") as [_ ->]; try discriminate.
  by destruct (keeps_date_stage "total_cost") as [_ ->].
Qed.

Lemma clean_soc_range (soc : string) (d : DataFrame) :
  soc ∈ ["start_soc_percent"; "end_soc_percent"] ->
  has_col soc d = true ->
  Forall soc_cell (column soc (_clean_data parse_datetime d)).
Proof.
  intros Hsoc H. rewrite clean_data_stages.
  apply keeps_dedup_stage. unfold tail_stage.
  assert (Hpre : forall D, has_col soc D = has_col soc d ->
            Forall soc_cell (column soc (soc_stage D))).
  { intros D HD. unfold soc_stage.
    rewrite !elem_of_cons, elem_of_nil in Hsoc. destruct Hsoc as [->|[->|[]]].
    - apply keeps_soc_step; [discriminate|]. apply soc_step_range. congruence.
    - apply soc_step_range.
      destruct (keeps_soc_step "end_soc_percent" "start_soc_percent") as [_ ->];
        [discriminate | congruence]. }
  assert (soc <> "charging_duration_minutes" /\ soc <> "location_name" /\
          soc <> "max_power_kw" /\ soc <> "avg_power_kw") as (?&?&?&?).
  { rewrite !elem_of_cons, elem_of_nil in Hsoc.
    destruct Hsoc as [->|[->|[]]]; repeat split; discriminate. }
  apply keeps_location_stage; [done|]. apply keeps_duration_stage; [done|].
  apply Hpre.
  destruct (keeps_power_stage soc) as [_ ->]; [done | done |].
  apply has_col_before_tail.
Qed.

Lemma clean_NoDup (d : DataFrame) :
  Forall (fun c => has_col c d = true) KEY ->
  NoDup (map (row_key KEY) (rows (_clean_data parse_datetime d))).
Proof.
  intros H. rewrite clean_data_stages. apply dedup_stage_NoDup.
  unfold KEY in H. rewrite !Forall_cons in H. destruct H as (H1 & H2 & H3 & _).
  unfold KEY at 1. rewrite !Forall_cons.
  rewrite !has_col_before_dedup by key_in. done.
Qed.

Lemma clean_dates (d : DataFrame) :
  has_col "session_date" d = true ->
  Forall time_cell (column "session_date" (_clean_data parse_datetime d)).
Proof.
  intros H. rewrite clean_data_stages.
  apply keeps_dedup_stage, keeps_tail_stage; [key_in|].
  apply keeps_cost_stage; [discriminate|]. apply keeps_energy_stage; [discriminate|].
  apply keeps_time_stage; try discriminate.
  by apply date_stage_times.
Qed.

Lemma has_col_clean (c : string) (d : DataFrame) :
  c ∈ KEY -> has_col c (_clean_data parse_datetime d) = has_col c d.
Proof.
  intros Hc. rewrite clean_data_stages.
  destruct (keeps_dedup_stage c) as [_ ->]. by apply has_col_before_dedup.
Qed.

(** The table the cleaner hands to [drop_duplicates]: parsed, filtered and
    tidied. *)
Definition before_dedup (d : DataFrame) : DataFrame :=
  tail_stage (cost_stage (energy_stage (time_stage (date_stage d)))).

(** A date of the cleaned table is [NaT] or a timestamp [t] read from a date
    [x0] of the column [series]: [x0] was that timestamp already, or a text
    that the parser reads as [t], or a number of nanoseconds.  The zone of
    [t] is the one of [x0], or the one the parser read. *)
Definition read_from (series : list cell) (x : cell) : Prop :=
  x = CNaT \/
  exists x0 t, x0 ∈ series /\ x = CTime t /\
    (x0 = CTime t \/
     (exists s, x0 = CStr s /\ parse_datetime series s = Some t) \/
     (exists q, x0 = CNum (Fin q) /\ t = mkTimestamp (Qfloor q) None)).

Lemma date_stage_reads (d : DataFrame) :
  has_col "session_date" d = true ->
  Forall (read_from (column "session_date" d)) (column "session_date" (date_stage d)).
Proof.
  intros H. unfold date_stage, if_col, map_series. rewrite H, column_map_col.
  apply Forall_fmap, Forall_forall. intros x Hx. unfold read_from, compose.
  destruct x as [s|[q| | |]|t| | | |]; cbn [to_datetime]; try (by left).
  - destruct (parse_datetime (column "session_date" d) s) as [t|] eqn:E;
      cbn [from_option]; [|by left].
    right. exists (CStr s), t. repeat split; [done|]. right. left. by exists s.
  - right. exists (CNum (Fin q)), (mkTimestamp (Qfloor q) None).
    repeat split; [done|]. right. right. by exists q.
  - right. exists (CTime t), t. repeat split; [done|]. by left.
Qed.

Lemma clean_dates_read (d : DataFrame) :
  has_col "session_date" d = true ->
  Forall (read_from (column "session_date" d))
         (column "session_date" (_clean_data parse_datetime d)).
Proof.
  intros H. rewrite clean_data_stages.
  apply keeps_dedup_stage, keeps_tail_stage; [key_in|].
  apply keeps_cost_stage; [discriminate|]. apply keeps_energy_stage; [discriminate|].
  apply keeps_time_stage; try discriminate.
  by apply date_stage_reads.
Qed.

Lemma dedup_stage_keys (D : DataFrame) :
  Forall (fun c => has_col c D = true) KEY ->
  sublist (rows (dedup_stage D)) (rows D) /\
  (forall r, r ∈ rows D ->
     exists r', r' ∈ rows (dedup_stage D) /\ row_key KEY r' = row_key KEY r).
Proof.
  unfold KEY. rewrite !Forall_cons. intros (H1 & H2 & H3 & _).
  unfold dedup_stage, KEY. cbn [List.filter]. rewrite H1, H2, H3.
  cbn [length Nat.eqb drop_duplicates rows]. split; [apply keep_first_sublist|].
  intros r Hr. destruct (keep_first_keys KEY [] (rows D) r Hr) as [Hin|Hin]; [|done].
  by apply elem_of_nil in Hin.
Qed.

Lemma clean_keys (d : DataFrame) :
  Forall (fun c => has_col c d = true) KEY ->
  sublist (rows (_clean_data parse_datetime d)) (rows (before_dedup d)) /\
  (forall r, r ∈ rows (before_dedup d) ->
     exists r', r' ∈ rows (_clean_data parse_datetime d) /\
                row_key KEY r' = row_key KEY r).
Proof.
  intros H. rewrite clean_data_stages. apply dedup_stage_keys.
  unfold KEY in H. rewrite !Forall_cons in H. destruct H as (H1 & H2 & H3 & _).
  unfold before_dedup, KEY at 1. rewrite !Forall_cons.
  rewrite !has_col_before_dedup by key_in. done.
Qed.

(** C4, as the code has it.  After [_clean_data], in every retained row the
    energy is a number above 0 and the cost a number at least 0, and a start
    or end SOC is missing or within 0 and 100.  Rows with one (date, energy,
    cost) key are collapsed to one: the result is the table handed to
    [drop_duplicates] with rows left out and none moved, no two of its rows
    have the same key, and every key of that table is the key of a row of
    the result.  The cleaner parses dates with [utc=False] and keeps their
    zone: a date of the result is [NaT] or the timestamp read from a date of
    the input, the input's own timestamp or what the parser read from its
    text, zone included.  It is [_to_datetime] of the calculator that
    converts to UTC and makes the timestamps naive. *)
Theorem clean_data_invariants (d : DataFrame) :
  let d' := _clean_data parse_datetime d in
  (has_col "energy_added_kwh" d = true ->
   Forall positive_cell (column "energy_added_kwh" d')) /\
  (has_col "total_cost" d = true -> Forall nonneg_cell (column "total_cost" d')) /\
  (forall soc, soc ∈ ["start_soc_percent"; "end_soc_percent"] ->
   has_col soc d = true -> Forall soc_cell (column soc d')) /\
  (Forall (fun c => has_col c d = true) KEY ->
   NoDup (map (row_key KEY) (rows d')) /\
   sublist (rows d') (rows (before_dedup d)) /\
   (forall r, r ∈ rows (before_dedup d) ->
      exists r', r' ∈ rows d' /\ row_key KEY r' = row_key KEY r)) /\
  (has_col "session_date" d = true ->
   Forall (read_from (column "session_date" d)) (column "session_date" d')) /\
  (forall series c t,
     ChargingEfficiencyCalculator._to_datetime parse_datetime series c = CTime t ->
     is_naive t = true).
Proof.
  intros d'. unfold d'.
  split; [apply clean_energy_positive|].
  split; [apply clean_cost_nonneg|].
  split; [intros soc; apply clean_soc_range|].
  split; [intros H; split; [by apply clean_NoDup | by apply clean_keys]|].
  split; [apply clean_dates_read|].
  intros series c t. unfold ChargingEfficiencyCalculator._to_datetime.
  destruct (to_datetime parse_datetime series c); try discriminate. by intros [= <-].
Qed.

(** *** Cleaning a second time *)

(** A step leaves column [c] as it is. *)
Definition fixes (c : string) (F : DataFrame -> DataFrame) : Prop :=
  forall d, column c (F d) = column c d.

Lemma fixes_comp (c : string) (F G : DataFrame -> DataFrame) :
  fixes c F -> fixes c G -> fixes c (fun d => G (F d)).
Proof. intros HF HG d. by rewrite HG, HF. Qed.

Lemma fixes_if_col (c c' : string) (F : DataFrame -> DataFrame) :
  fixes c F -> fixes c (if_col c' F).
Proof. intros HF d. unfold if_col. destruct (has_col c' d); [apply HF | done]. Qed.

Lemma fixes_map_col (c c' : string) (f : cell -> cell) :
  c <> c' -> fixes c (if_col c' (map_col c' f)).
Proof. intros H. apply fixes_if_col. intros d. by apply column_map_col_ne. Qed.

Lemma fixes_map_series (c c' : string) (f : list cell -> cell -> cell) :
  c <> c' -> fixes c (if_col c' (map_series c' f)).
Proof.
  intros H. apply fixes_if_col. intros d. unfold map_series. by apply column_map_col_ne.
Qed.

Lemma fixes_set_col (c c' c'' : string) (g : Row -> cell) :
  c <> c'' -> fixes c (if_col c' (set_col c'' g)).
Proof. intros H. apply fixes_if_col. intros d. by apply column_set_col_ne. Qed.

Ltac key_ne Hc :=
  revert Hc; unfold KEY; rewrite !elem_of_cons, elem_of_nil;
  intros [->|[->|[->|[]]]]; discriminate.

Lemma fixes_time_stage (c : string) : c ∈ KEY -> fixes c time_stage.
Proof.
  intros Hc. unfold time_stage. cbn [fold_left].
  apply (fixes_comp c (fun d => if_col "start_time" _ (if_col "session_time" _ d))
                      (if_col "end_time" _)).
  - apply (fixes_comp c (if_col "session_time" _) (if_col "start_time" _));
      apply fixes_map_series; key_ne Hc.
  - apply fixes_map_series. key_ne Hc.
Qed.

Lemma fixes_tail_stage (c : string) : c ∈ KEY -> fixes c tail_stage.
Proof.
  intros Hc. unfold tail_stage.
  apply (fixes_comp c (fun d => duration_stage (soc_stage (power_stage d))) location_stage).
  2: { apply fixes_map_col. key_ne Hc. }
  apply (fixes_comp c (fun d => soc_stage (power_stage d)) duration_stage).
  2: { apply fixes_set_col. key_ne Hc. }
  apply (fixes_comp c power_stage soc_stage).
  - unfold power_stage. cbn [fold_left].
    apply (fixes_comp c (if_col "max_power_kw" _) (if_col "avg_power_kw" _));
      apply fixes_map_col; key_ne Hc.
  - apply (fixes_comp c (soc_step "start_soc_percent") (soc_step "end_soc_percent"));
      apply fixes_map_col; key_ne Hc.
Qed.

Lemma Forall_both {A} (P Q : A -> Prop) (l : list A) :
  Forall P l -> Forall Q l -> Forall (fun x => P x /\ Q x) l.
Proof. intros HP HQ. apply Forall_and. by split. Qed.

Lemma map_fixed {A} (f : A -> A) (l : list A) :
  Forall (fun x => f x = x) l -> map f l = l.
Proof. induction 1 as [|x l Hx _ IH]; simpl; [done|]. by rewrite Hx, IH. Qed.

Lemma date_stage_again (d : DataFrame) (c : string) :
  (has_col "session_date" d = true -> Forall time_cell (column "session_date" d)) ->
  column c (date_stage d) = column c d.
Proof.
  intros H. unfold date_stage, if_col, map_series.
  destruct (has_col "session_date" d); [|done].
  destruct (decide (c = "session_date")) as [->|Hne]; [|by apply column_map_col_ne].
  rewrite column_map_col. apply map_fixed.
  eapply Forall_impl; [by apply H|].
  by intros x [-> | [t ->]].
Qed.

(** A parse-and-filter step on a column whose cells all read back as
    themselves and all pass the filter changes no column. *)
Lemma filter_map_again (c c' : string) (p : cell -> bool) (f : cell -> cell) (d : DataFrame) :
  (has_col c d = true -> Forall (fun x => f x = x /\ p x = true) (column c d)) ->
  column c' (if_col c (fun d => filter_rows (fun r => p (at_col c r)) (map_col c f d)) d)
  = column c' d.
Proof.
  intros H. unfold if_col. destruct (has_col c d); [|done].
  specialize (H eq_refl).
  assert (Hall : filter_rows (fun r => p (at_col c r)) (map_col c f d) = map_col c f d).
  { unfold filter_rows, map_col. cbn [columns rows]. f_equal.
    apply filter_all. rewrite Forall_fmap.
    unfold column in H. rewrite Forall_fmap in H.
    eapply Forall_impl; [exact H|].
    intros r [Hf Hp]. simpl in *. by rewrite at_col_insert, Hf. }
  rewrite Hall.
  destruct (decide (c' = c)) as [->|Hne]; [|by apply column_map_col_ne].
  rewrite column_map_col. apply map_fixed.
  eapply Forall_impl; [exact H|]. by intros x [? _].
Qed.

(** The facts a second run relies on: dates are timestamps, energies and
    costs pass their filters and read back from their text as themselves. *)
Definition rereads (d : DataFrame) : Prop :=
  (has_col "session_date" d = true -> Forall time_cell (column "session_date" d)) /\
  (has_col "energy_added_kwh" d = true ->
   Forall (fun x => _to_number x = x /\ fgt (cell_float x) fzero = true)
          (column "energy_added_kwh" d)) /\
  (has_col "total_cost" d = true ->
   Forall (fun x => _to_currency x = x /\ fge (cell_float x) fzero = true)
          (column "total_cost" d)).

Lemma before_dedup_again (d : DataFrame) (c : string) :
  rereads d -> c ∈ KEY ->
  column c (tail_stage (cost_stage (energy_stage (time_stage (date_stage d))))) = column c d.
Proof.
  intros (Hd & He & Hc) Hin.
  rewrite (fixes_tail_stage c Hin).
  assert (Hcols : forall c', has_col c' (energy_stage (time_stage (date_stage d))) = has_col c' d).
  { intros c'. unfold has_col. f_equal.
    unfold energy_stage, time_stage, date_stage. cbn [fold_left]. unfold if_col.
    repeat (destruct (has_col _ _); cbn [columns map_col filter_rows]); reflexivity. }
  assert (Hcols' : forall c', has_col c' (time_stage (date_stage d)) = has_col c' d).
  { intros c'. unfold has_col. f_equal.
    unfold time_stage, date_stage. cbn [fold_left]. unfold if_col.
    repeat (destruct (has_col _ _); cbn [columns map_col filter_rows]); reflexivity. }
  assert (Hpre : forall c', c' ∈ KEY -> column c' (time_stage (date_stage d)) = column c' d).
  { intros c' Hc'. rewrite (fixes_time_stage c' Hc'). by apply date_stage_again. }
  assert (Hen : forall c', c' ∈ KEY ->
            column c' (energy_stage (time_stage (date_stage d))) = column c' d).
  { intros c' Hc'. unfold energy_stage.
    rewrite (filter_map_again "energy_added_kwh" c' (fun x => fgt (cell_float x) fzero)).
    - by apply Hpre.
    - rewrite Hcols', Hpre by key_in. exact He. }
  unfold cost_stage.
  rewrite (filter_map_again "total_cost" c (fun x => fge (cell_float x) fzero)).
  - by apply Hen.
  - rewrite Hcols, Hen by key_in. exact Hc.
Qed.

Lemma row_keys_of_columns (d1 d2 : DataFrame) :
  (forall c, c ∈ KEY -> column c d1 = column c d2) ->
  map (row_key KEY) (rows d1) = map (row_key KEY) (rows d2).
Proof.
  intros H.
  pose proof (H "session_date" ltac:(key_in)) as H1.
  pose proof (H "energy_added_kwh" ltac:(key_in)) as H2.
  pose proof (H "total_cost" ltac:(key_in)) as H3.
  clear H. unfold column in *.
  revert H1 H2 H3. generalize (rows d2). induction (rows d1) as [|r l IH]; intros [|r' l'];
    simpl; try done.
  intros [= E1 H1] [= E2 H2] [= E3 H3].
  f_equal; [|by apply IH]. unfold row_key, KEY. simpl. by rewrite E1, E2, E3.
Qed.

Lemma dedup_stage_again (D d : DataFrame) :
  (forall c, c ∈ KEY -> column c D = column c d) ->
  (Forall (fun c => has_col c D = true) KEY -> NoDup (map (row_key KEY) (rows d))) ->
  df_len (dedup_stage D) = df_len d.
Proof.
  intros Hcol Hnd.
  assert (Hlen : length (rows D) = length (rows d)).
  { pose proof (Hcol "session_date" ltac:(key_in)) as H.
    apply (f_equal length) in H. unfold column in H. by rewrite !length_map in H. }
  unfold df_len, dedup_stage, KEY. cbn [List.filter].
  destruct (has_col "session_date" D) eqn:H1, (has_col "energy_added_kwh" D) eqn:H2,
           (has_col "total_cost" D) eqn:H3; cbn [List.filter length Nat.eqb]; try exact Hlen.
  cbn [drop_duplicates rows]. fold KEY.
  rewrite keep_first_id; [exact Hlen | | by intros r _ ?%elem_of_nil].
  rewrite (row_keys_of_columns D d Hcol). apply Hnd.
  unfold KEY. by rewrite !Forall_cons, H1, H2, H3.
Qed.

Lemma keep_first_twice (subset : list string) (l : list Row) :
  keep_first subset [] (keep_first subset [] l) = keep_first subset [] l.
Proof.
  apply keep_first_id; [apply keep_first_NoDup | by intros r _ ?%elem_of_nil].
Qed.

(** C5, as the code has it.  Dropping duplicates from a table without
    duplicates leaves it as it is; and a second run of the cleaner on the
    output of a first run yields the same number of rows provided every
    retained energy and cost, written as text, is read back as itself. *)
Theorem clean_data_twice (d : DataFrame) :
  let d' := _clean_data parse_datetime d in
  (forall subset, drop_duplicates subset (drop_duplicates subset d) = drop_duplicates subset d) /\
  (Forall (fun x => _to_number x = x) (column "energy_added_kwh" d') ->
   Forall (fun x => _to_currency x = x) (column "total_cost" d') ->
   df_len (_clean_data parse_datetime d') = df_len d').
Proof.
  intros d'. split.
  { intros subset. unfold drop_duplicates. cbn [columns rows]. by rewrite keep_first_twice. }
  intros He Hc. rewrite (clean_data_stages d').
  apply dedup_stage_again.
  - intros c Hin. apply before_dedup_again; [|done].
    unfold d'. repeat split.
    + rewrite has_col_clean by key_in. apply clean_dates.
    + rewrite has_col_clean by key_in. intros Hhas.
      pose proof (clean_energy_positive d Hhas) as Hpos. fold d' in Hpos |- *.
      eapply Forall_impl; [exact (Forall_both _ _ _ He Hpos)|].
      intros x [Hx [v [-> Hv]]]. by split.
    + rewrite has_col_clean by key_in. intros Hhas.
      pose proof (clean_cost_nonneg d Hhas) as Hpos. fold d' in Hpos |- *.
      eapply Forall_impl; [exact (Forall_both _ _ _ Hc Hpos)|].
      intros x [Hx [v [-> Hv]]]. by split.
  - intros Hall. unfold d' in *. apply clean_NoDup.
    unfold KEY in Hall. rewrite !Forall_cons in Hall. destruct Hall as (H1 & H2 & H3 & _).
    rewrite has_col_before_dedup in H1 by key_in. rewrite has_col_clean in H1 by key_in.
    rewrite has_col_before_dedup in H2 by key_in. rewrite has_col_clean in H2 by key_in.
    rewrite has_col_before_dedup in H3 by key_in. rewrite has_col_clean in H3 by key_in.
    unfold KEY. by rewrite !Forall_cons.
Qed.

End Stages.

(** A session dated with a UTC offset. *)
Definition offset_table : DataFrame :=
  mkDataFrame KEY
    [list_to_map [("session_date", CStr "2024-01-15T08:00:00+02:00");
                  ("energy_added_kwh", CStr "10"); ("total_cost", CStr "2.50")]].

(** C4, as stated, fails in its last clause: the cleaner keeps the offset of
    a date written with one. *)
Lemma clean_data_keeps_timezone :
  ~ (forall parse_datetime d,
       Forall (fun x => forall t, x = CTime t -> is_naive t = true)
              (column "session_date" (_clean_data parse_datetime d))).
Proof.
  intros H. specialize (H iso_dates offset_table).
  vm_compute in H. apply Forall_cons in H as [H _].
  specialize (H _ eq_refl). discriminate H.
Qed.

Example clean_data_run :
  map map_to_list (rows (_clean_data iso_dates offset_table))
  = [[("session_date", CTime (mkTimestamp 1705298400000000000 (Some 120)));
      ("energy_added_kwh", CNum (of_Z 10)); ("total_cost", CNum (dec 25 1))]].
Proof. vm_compute. reflexivity. Qed.

(** A session that cost a thousandth of a cent. *)
Definition tiny_cost_table : DataFrame :=
  mkDataFrame KEY
    [list_to_map [("session_date", CStr "2024-01-15");
                  ("energy_added_kwh", CStr "10"); ("total_cost", CStr "0.00001")]].

(** The first run keeps the row with the cost 1e-05; the second run writes
    the cost as ["1e-05"], the currency parser drops the [e], and ["1-05"]
    is no number: the row goes. *)
Example tiny_cost_rerun :
  df_len (_clean_data iso_dates tiny_cost_table) = 1%nat /\
  column "total_cost" (_clean_data iso_dates tiny_cost_table) = [CNum (dec 1 5)] /\
  astype_str (CNum (dec 1 5)) = "1e-05" /\
  _to_currency (CNum (dec 1 5)) = CNum NaN /\
  _to_number (CNum (dec 1 5)) = CNum (dec 1 5) /\
  df_len (_clean_data iso_dates (_clean_data iso_dates tiny_cost_table)) = 0%nat.
Proof. vm_compute. repeat split; reflexivity. Qed.

(** C5, as stated, fails: a second run can drop a row the first one kept. *)
Lemma clean_data_twice_drops_row :
  ~ (forall parse_datetime d,
       df_len (_clean_data parse_datetime (_clean_data parse_datetime d))
       = df_len (_clean_data parse_datetime d)).
Proof.
  intros H. specialize (H iso_dates tiny_cost_table).
  vm_compute in H. discriminate H.
Qed.

(** Three sessions, the first written twice. *)
Definition repeated_table : DataFrame :=
  mkDataFrame KEY
    [list_to_map [("session_date", CStr "2024-01-15T08:00:00");
                  ("energy_added_kwh", CStr "10"); ("total_cost", CStr "2.50")];
     list_to_map [("session_date", CStr "2024-01-15T08:00:00");
                  ("energy_added_kwh", CStr "10"); ("total_cost", CStr "2.50")];
     list_to_map [("session_date", CStr "2024-01-16T09:30:00");
                  ("energy_added_kwh", CStr "12.5"); ("total_cost", CStr "$3.00")]].

(** The first run drops the repeated session of [repeated_table]; the
    second run keeps the two sessions left: their energies 10.0 and 12.5
    and costs 2.5 and 3.0 read back as themselves. *)
Lemma clean_data_twice_witness :
  df_len repeated_table = 3%nat /\
  df_len (_clean_data iso_dates repeated_table) = 2%nat /\
  df_len (_clean_data iso_dates (_clean_data iso_dates repeated_table))
  = df_len (_clean_data iso_dates repeated_table).
Proof.
  split; [reflexivity|]. split; [vm_compute; reflexivity|].
  apply (proj2 (clean_data_twice iso_dates repeated_table)).
  - replace (column "energy_added_kwh" (_clean_data iso_dates repeated_table))
      with [CNum (of_Z 10); CNum (dec 125 1)] by (vm_compute; reflexivity).
    repeat (constructor; [vm_compute; reflexivity|]). constructor.
  - replace (column "total_cost" (_clean_data iso_dates repeated_table))
      with [CNum (dec 25 1); CNum (of_Z 3)] by (vm_compute; reflexivity).
    repeat (constructor; [vm_compute; reflexivity|]). constructor.
Defined.

End CleaningFacts.

(** ** Recommendations *)

Module RecommendationFacts.
Import ChargingEfficiencyCalculator.

(** A recommendation is the price-gap note. *)
Definition is_price_gap_note (r : string) : bool :=
  String.prefix "Large price gap across types: " r.

(** The gap between the dearest and the cheapest category. *)
Definition price_gap (by_type : list (string * EfficiencyMetric)) : option pyfloat :=
  match map snd by_type with
  | [] => None
  | m :: ms =>
      Some (fsub (cost_per_kwh (max_by cost_per_kwh m ms)) (cost_per_kwh (min_by cost_per_kwh m ms)))
  end.

Lemma prefix_append (s t : string) : String.prefix s (s +:+ t) = true.
Proof.
  induction s as [|a s IH]; [by destruct t|].
  simpl. destruct (ascii_dec a a); [exact IH | congruence].
Qed.

Lemma prefix_head_ne (a b : ascii) (s t : string) :
  a <> b -> String.prefix (String a s) (String b t) = false.
Proof. intros H. simpl. destruct (ascii_dec a b); [congruence | reflexivity]. Qed.

Lemma price_gap_note_is (bl wl : string) (b w : EfficiencyMetric) :
  is_price_gap_note (price_gap_note bl b wl w) = true.
Proof. apply prefix_append. Qed.

Lemma other_notes_are_not (a : EfficiencyAnalysis) (x : pyfloat)
    (ls : list (string * EfficiencyMetric)) :
  is_price_gap_note (high_cost_note a) = false /\
  is_price_gap_note (locations_note ls) = false /\
  is_price_gap_note (low_start_note x) = false /\
  is_price_gap_note (high_end_note x) = false /\
  is_price_gap_note peak_note = false /\
  is_price_gap_note (small_session_note x) = false.
Proof.
  repeat split; apply prefix_head_ne; discriminate.
Qed.

Lemma price_gap_recs_strict (by_type : list (string * EfficiencyMetric)) :
  existsb is_price_gap_note (price_gap_recs by_type)
  = from_option (fun gap => fgt gap (dec 10 2)) false (price_gap by_type).
Proof.
  unfold price_gap_recs, price_gap.
  destruct (map snd by_type) as [|m ms]; [reflexivity|]. cbn [from_option].
  destruct (fgt _ (dec 10 2)); [|reflexivity].
  cbn [existsb]. by rewrite price_gap_note_is.
Qed.

Lemma no_gap_if (b : bool) (x : string) :
  is_price_gap_note x = false -> existsb is_price_gap_note (if b then [x] else []) = false.
Proof. intros H. destruct b; cbn [existsb]; [by rewrite H | reflexivity]. Qed.

(** The other six notes are not the price-gap note, so the note is in the
    list exactly when the gap is above ten cents. *)
Lemma recommendations_price_gap (a : EfficiencyAnalysis) (d : DataFrame) :
  existsb is_price_gap_note (_recommendations a d)
  = from_option (fun gap => fgt gap (dec 10 2)) false (price_gap (by_charger_type a)).
Proof.
  unfold _recommendations. cbv zeta. rewrite !existsb_app, price_gap_recs_strict.
  pose proof (fun x ls => other_notes_are_not a x ls) as Hn.
  rewrite (no_gap_if _ (high_cost_note a)) by apply (Hn fzero []).
  rewrite (no_gap_if _ peak_note) by apply (Hn fzero []).
  rewrite (no_gap_if _ (small_session_note _)) by apply (Hn _ []).
  cbn [existsb app orb].
  assert (H3 : forall (b : bool) (l : list (string * EfficiencyMetric)),
            existsb is_price_gap_note
              (if b then match l with [] => [] | x :: l' => [locations_note (x :: l')] end else [])
            = false).
  { intros [] [|? ?]; reflexivity. }
  rewrite H3.
  assert (H4 : forall (o : option pyfloat) (c : pyfloat -> bool) (f : pyfloat -> string),
            (forall x, is_price_gap_note (f x) = false) ->
            existsb is_price_gap_note
              match o with Some x => if c x then [f x] else [] | None => [] end = false).
  { intros [x|] c f Hf; [|reflexivity]. by apply no_gap_if. }
  rewrite (H4 _ (fun x => flt x (of_Z 20)) low_start_note) by (intros x; apply (Hn x [])).
  rewrite (H4 _ (fun x => fgt x (of_Z 90)) high_end_note) by (intros x; apply (Hn x [])).
  by rewrite !orb_false_r.
Qed.

Definition gap_table : DataFrame :=
  mkDataFrame ["charger_type"; "energy_added_kwh"; "total_cost"]
    [ list_to_map [("charger_type", CStr "Home"); ("energy_added_kwh", CNum (of_Z 10));
                   ("total_cost", CNum (of_Z 1))];
      list_to_map [("charger_type", CStr "Supercharger"); ("energy_added_kwh", CNum (of_Z 10));
                   ("total_cost", CNum (of_Z 2))] ].

(** C8 at the boundary.  Two sessions of 10 kWh, one at home for 1 dollar
    and one at a Supercharger for 2 dollars: the categories cost 0.10 and
    0.20 per kWh, the gap is 0.10, which is at least 0.10, and the
    recommendations hold no price-gap note (the test in the code is
    [delta > 0.10]). *)
Theorem price_gap_of_ten_cents_gives_no_note :
  exists a work total,
    build_analysis iso_dates gap_table = Ok (a, work, total) /\
    map (fun kv => (fst kv, cost_per_kwh (snd kv))) (by_charger_type a)
      = [("home_ac", dec 10 2); ("supercharger", dec 20 2)] /\
    price_gap (by_charger_type a) = Some (dec 10 2) /\
    fge (dec 10 2) (dec 10 2) = true /\
    _recommendations a work = [].
Proof.
  do 3 eexists. split; [vm_compute; reflexivity|].
  repeat split; vm_compute; reflexivity.
Qed.

End RecommendationFacts.

(** ** Temporal trends *)

Module TrendFacts.
Import ChargingEfficiencyCalculator.

(** The observed values of a series. *)
Definition observed (s : list pyfloat) : list pyfloat :=
  List.filter (fun x => negb (is_nan x)) s.

(** The trend of a series as the spec words it: (last observed value - first
    observed value) / (number of observed values - 1), and 0 when fewer than
    two values are observed. *)
Definition trend (s : list pyfloat) : pyfloat :=
  let o := observed s in
  if (length o <? 2)%nat then fzero
  else fdiv (fsub (List.last o NaN) (hd NaN o)) (of_Z (Z.of_nat (length o) - 1)).

Lemma slope_trend (s : list pyfloat) : slope s = trend s.
Proof.
  unfold slope, trend. fold (observed s). cbv zeta.
  destruct (length (observed s) <? 2)%nat eqn:E; [done|].
  apply Nat.ltb_ge in E. by rewrite Z.max_r by lia.
Qed.

(** *** Sorting, means and bounds *)

Lemma elem_of_map {A B} (f : A -> B) (l : list A) (y : B) :
  y ∈ map f l <-> exists x, y = f x /\ x ∈ l.
Proof. exact (list_elem_of_fmap f l y). Qed.

Lemma elem_of_map_2 {A B} (f : A -> B) (l : list A) (x : A) : x ∈ l -> f x ∈ map f l.
Proof. exact (list_elem_of_fmap_2 f l x). Qed.

Lemma insert_sorted_elem {A} (le : A -> A -> bool) (x y : A) (l : list A) :
  y ∈ insert_sorted le x l <-> y = x \/ y ∈ l.
Proof.
  induction l as [|z l IH]; simpl.
  - rewrite list_elem_of_singleton, elem_of_nil. tauto.
  - destruct (le z x); rewrite !elem_of_cons; [rewrite IH|]; tauto.
Qed.

Lemma sort_by_elem {A} (le : A -> A -> bool) (y : A) (l : list A) :
  y ∈ sort_by le l <-> y ∈ l.
Proof.
  unfold sort_by.
  assert (H : forall acc, y ∈ fold_left (fun acc x => insert_sorted le x acc) l acc
                          <-> y ∈ acc \/ y ∈ l).
  { induction l as [|x l IH]; intros acc; simpl.
    - rewrite elem_of_nil. tauto.
    - rewrite IH, insert_sorted_elem, elem_of_cons. tauto. }
  rewrite H, elem_of_nil. tauto.
Qed.

Lemma insert_sorted_Permutation {A} (le : A -> A -> bool) (x : A) (l : list A) :
  insert_sorted le x l ≡ₚ x :: l.
Proof.
  induction l as [|z l IH]; simpl; [done|].
  destruct (le z x); [|done]. rewrite IH. apply perm_swap.
Qed.

(** Sorting moves rows and loses none. *)
Lemma sort_by_Permutation {A} (le : A -> A -> bool) (l : list A) : sort_by le l ≡ₚ l.
Proof.
  unfold sort_by.
  assert (H : forall acc, fold_left (fun acc x => insert_sorted le x acc) l acc ≡ₚ l ++ acc).
  { induction l as [|x l IH]; intros acc; simpl; [done|].
    rewrite IH, insert_sorted_Permutation. by rewrite Permutation_middle. }
  by rewrite H, app_nil_r.
Qed.

Lemma filter_Permutation {A} (p : A -> bool) (l1 l2 : list A) :
  l1 ≡ₚ l2 -> List.filter p l1 ≡ₚ List.filter p l2.
Proof.
  induction 1 as [|x l1 l2 _ IH|x y l|l1 l2 l3 _ IH1 _ IH2]; simpl.
  - done.
  - destruct (p x); by rewrite IH.
  - destruct (p x), (p y); try done. apply perm_swap.
  - by rewrite IH1.
Qed.

Lemma filter_map_comm {A B} (p : B -> bool) (f : A -> B) (l : list A) :
  List.filter p (map f l) = map f (List.filter (fun x => p (f x)) l).
Proof. induction l as [|x l IH]; simpl; [done|]. destruct (p (f x)); simpl; by rewrite IH. Qed.

Lemma map_ext_elem {A B} (f g : A -> B) (l : list A) :
  (forall x, x ∈ l -> f x = g x) -> map f l = map g l.
Proof.
  induction l as [|x l IH]; intros H; simpl; [done|].
  rewrite H by left. rewrite IH; [done|]. intros y Hy. apply H. by right.
Qed.

Lemma fold_min_le (l : list Z) (a x : Z) : x = a \/ x ∈ l -> fold_left Z.min l a <= x.
Proof.
  revert a x. induction l as [|y l IH]; intros a x; cbn [fold_left].
  - intros [-> | H%elem_of_nil]; [lia | done].
  - rewrite elem_of_cons. intros [-> | [-> | H]].
    + pose proof (IH (Z.min a y) (Z.min a y) (or_introl eq_refl)). lia.
    + pose proof (IH (Z.min a y) (Z.min a y) (or_introl eq_refl)). lia.
    + apply IH. by right.
Qed.

Lemma fold_max_ge (l : list Z) (a x : Z) : x = a \/ x ∈ l -> x <= fold_left Z.max l a.
Proof.
  revert a x. induction l as [|y l IH]; intros a x; cbn [fold_left].
  - intros [-> | H%elem_of_nil]; [lia | done].
  - rewrite elem_of_cons. intros [-> | [-> | H]].
    + pose proof (IH (Z.max a y) (Z.max a y) (or_introl eq_refl)). lia.
    + pose proof (IH (Z.max a y) (Z.max a y) (or_introl eq_refl)). lia.
    + apply IH. by right.
Qed.

Lemma fold_min_elem (l : list Z) (a : Z) : fold_left Z.min l a ∈ a :: l.
Proof.
  revert a. induction l as [|y l IH]; intros a; cbn [fold_left]; [left|].
  specialize (IH (Z.min a y)). apply elem_of_cons in IH as [E|IH]; [|by right; right].
  rewrite E. destruct (Z.min_spec a y) as [[_ ->]|[_ ->]]; [left | right; left].
Qed.

Lemma fold_max_elem (l : list Z) (a : Z) : fold_left Z.max l a ∈ a :: l.
Proof.
  revert a. induction l as [|y l IH]; intros a; cbn [fold_left]; [left|].
  specialize (IH (Z.max a y)). apply elem_of_cons in IH as [E|IH]; [|by right; right].
  rewrite E. destruct (Z.max_spec a y) as [[_ ->]|[_ ->]]; [right; left | left].
Qed.

(** The least and the greatest month do not depend on the order of the
    rows. *)
Lemma fold_min_Permutation (a b : Z) (l l' : list Z) :
  a :: l ≡ₚ b :: l' -> fold_left Z.min l a = fold_left Z.min l' b.
Proof.
  intros H.
  pose proof (fold_min_elem l a) as H1. pose proof (fold_min_elem l' b) as H2.
  rewrite H in H1. rewrite <- H in H2.
  apply elem_of_cons in H1, H2.
  pose proof (fold_min_le l' b _ H1). pose proof (fold_min_le l a _ H2). lia.
Qed.

Lemma fold_max_Permutation (a b : Z) (l l' : list Z) :
  a :: l ≡ₚ b :: l' -> fold_left Z.max l a = fold_left Z.max l' b.
Proof.
  intros H.
  pose proof (fold_max_elem l a) as H1. pose proof (fold_max_elem l' b) as H2.
  rewrite H in H1. rewrite <- H in H2.
  apply elem_of_cons in H1, H2.
  pose proof (fold_max_ge l' b _ H1). pose proof (fold_max_ge l a _ H2). lia.
Qed.

Lemma fadd_swap (a x y : pyfloat) : fadd (fadd a x) y = fadd (fadd a y) x.
Proof.
  destruct a as [a| | |], x as [x| | |], y as [y| | |]; try reflexivity.
  cbn [fadd fin]. apply (f_equal Fin), Qred_complete. rewrite !Qred_correct. ring.
Qed.

Lemma fold_fadd_Permutation (l1 l2 : list pyfloat) (a : pyfloat) :
  l1 ≡ₚ l2 -> fold_left fadd l1 a = fold_left fadd l2 a.
Proof.
  intros H. revert a. induction H as [|x l1 l2 _ IH|x y l|l1 l2 l3 _ IH1 _ IH2]; intros a; simpl.
  - done.
  - apply IH.
  - by rewrite fadd_swap.
  - by rewrite IH1.
Qed.

(** A mean does not depend on the order of its values. *)
Lemma fmean_Permutation (l1 l2 : list pyfloat) : l1 ≡ₚ l2 -> fmean l1 = fmean l2.
Proof.
  intros H. unfold fmean. cbv zeta.
  pose proof (filter_Permutation (fun x => negb (is_nan x)) l1 l2 H) as Hf.
  destruct (List.filter _ l1) as [|x1 f1], (List.filter _ l2) as [|x2 f2].
  - done.
  - by apply Permutation_nil_cons in Hf.
  - symmetry in Hf. by apply Permutation_nil_cons in Hf.
  - by rewrite (fold_fadd_Permutation _ _ _ Hf), (Permutation_length Hf).
Qed.

Definition finite (x : pyfloat) : Prop := exists q, x = Fin q.

Lemma fold_fadd_finite (l : list pyfloat) (acc : pyfloat) :
  finite acc -> Forall finite l -> finite (fold_left fadd l acc).
Proof.
  intros Ha Hl. revert acc Ha. induction Hl as [|x l [q ->] _ IH]; intros acc [a ->]; simpl.
  - by eexists.
  - apply IH. by eexists.
Qed.

Lemma filter_finite (l : list pyfloat) :
  Forall finite l -> List.filter (fun x => negb (is_nan x)) l = l.
Proof. intros H. apply filter_all. eapply Forall_impl; [exact H|]. by intros x [q ->]. Qed.

Lemma fmean_finite (l : list pyfloat) : l <> [] -> Forall finite l -> finite (fmean l).
Proof.
  intros Hne Hl. unfold fmean. rewrite (filter_finite l Hl).
  destruct l as [|x l]; [done|].
  destruct (fold_fadd_finite (x :: l) fzero) as [s ->]; [by eexists | done |].
  unfold fdiv, of_Z.
  assert (Hn : Qeq_bool (inject_Z (Z.of_nat (length (x :: l)))) 0 = false).
  { apply not_true_iff_false. intros E%Qeq_bool_iff. unfold Qeq in E. simpl in E. lia. }
  rewrite Hn. by eexists.
Qed.

Lemma distinct_pass_length {A} (q : A -> bool) (ms l : list A) :
  NoDup ms -> (forall m, m ∈ ms -> m ∈ l /\ q m = true) ->
  (length ms <= length (List.filter q l))%nat.
Proof.
  intros Hnd H. apply submseteq_length, NoDup_submseteq; [done|].
  intros m [Hin Hq]%H. apply list_elem_of_In, filter_In. split; [by apply list_elem_of_In | done].
Qed.

Section Trends.
Variable parse_datetime : date_parser.

(** *** The monthly means, as the spec words them *)

(** The calendar month of a session of [d]: that of its date, read as a UTC
    instant; none for a date that cannot be read. *)
Definition month_of (d : DataFrame) (r : Row) : option Z :=
  match _to_datetime parse_datetime (column "session_date" d) (at_col "session_date" r) with
  | CTime t => Some (ts_month_index t)
  | _ => None
  end.

(** The sessions of [d] dated in month [m]. *)
Definition sessions_of_month (d : DataFrame) (m : Z) : list Row :=
  List.filter (fun r => bool_decide (month_of d r = Some m)) (rows d).

(** The three values of a session: its cost, its energy, and its cost per
    kWh, the column of that name or else its cost over its energy. *)
Definition cost_of (r : Row) : pyfloat := cell_float (at_col "total_cost" r).
Definition energy_of (r : Row) : pyfloat := cell_float (at_col "energy_added_kwh" r).
Definition efficiency_of (d : DataFrame) (r : Row) : pyfloat :=
  if has_col "cost_per_kwh" d then cell_float (at_col "cost_per_kwh" r)
  else fdiv (cell_to_numeric (at_col "total_cost" r))
            (cell_to_numeric (at_col "energy_added_kwh" r)).

(** The mean of a value over the sessions of a month. *)
Definition monthly_mean (value : Row -> pyfloat) (d : DataFrame) (m : Z) : pyfloat :=
  fmean (map value (sessions_of_month d m)).

(** The calendar months from the first to the last dated session. *)
Definition month_span (d : DataFrame) : list Z :=
  match omap (month_of d) (rows d) with
  | [] => []
  | m0 :: ms =>
      let lo := fold_left Z.min ms m0 in
      let hi := fold_left Z.max ms m0 in
      seqZ lo (hi - lo + 1)
  end.

(** A month is empty when none of its three means is a number. *)
Definition month_is_empty (d : DataFrame) (m : Z) : bool :=
  is_nan (monthly_mean cost_of d m) && is_nan (monthly_mean energy_of d m)
  && is_nan (monthly_mean (efficiency_of d) d m).

Definition non_empty_months (d : DataFrame) : list Z :=
  List.filter (fun m => negb (month_is_empty d m)) (month_span d).

(** The monthly means of a value, month after month. *)
Definition monthly_series (value : Row -> pyfloat) (d : DataFrame) : list pyfloat :=
  map (monthly_mean value d) (non_empty_months d).

(** *** The monthly table of the code *)

(** A row as the monthly computation holds it: the date read, and the cost
    per kWh added when the table has none. *)
Definition prepared (d : DataFrame) (r : Row) : Row :=
  let r1 := <["session_date" :=
               _to_datetime parse_datetime (column "session_date" d) (at_col "session_date" r)]> r in
  if negb (has_col "cost_per_kwh" d)
  then <["cost_per_kwh" := CNum (fdiv (cell_to_numeric (at_col "total_cost" r1))
                                      (cell_to_numeric (at_col "energy_added_kwh" r1)))]> r1
  else r1.

Definition dated_row (r : Row) : option (Z * Row) :=
  match at_col "session_date" r with
  | CTime t => Some (ts_month_index t, r)
  | _ => None
  end.

(** The rows of the monthly computation, each with its calendar month. *)
Definition dated_rows (d : DataFrame) : list (Z * Row) :=
  let tmp := map_series "session_date" (_to_datetime parse_datetime) d in
  let tmp := mkDataFrame (columns tmp) (sort_by date_le (rows tmp)) in
  let tmp :=
    if negb (has_col "cost_per_kwh" tmp) then
      set_col "cost_per_kwh"
        (fun r => CNum (fdiv (cell_to_numeric (at_col "total_cost" r))
                             (cell_to_numeric (at_col "energy_added_kwh" r)))) tmp
    else tmp in
  omap dated_row (rows tmp).

Lemma monthly_table_dated (d : DataFrame) :
  monthly_table parse_datetime d =
  match map fst (dated_rows d) with
  | [] => []
  | m0 :: ms =>
      List.filter (fun b => negb (all_missing b))
        (map (month_means (dated_rows d))
             (seqZ (fold_left Z.min ms m0) (fold_left Z.max ms m0 - fold_left Z.min ms m0 + 1)))
  end.
Proof. reflexivity. Qed.

Lemma dated_row_prepared (d : DataFrame) (r : Row) :
  dated_row (prepared d r) = (fun m => (m, prepared d r)) <$> month_of d r.
Proof.
  unfold dated_row, month_of.
  assert (H : at_col "session_date" (prepared d r)
              = _to_datetime parse_datetime (column "session_date" d) (at_col "session_date" r)).
  { unfold prepared. cbv zeta. destruct (negb _).
    - rewrite at_col_insert_ne by discriminate. by rewrite at_col_insert.
    - by rewrite at_col_insert. }
  rewrite H. by destruct (_to_datetime _ _ _).
Qed.

(** The dated rows are the prepared rows of the table that have a month, in
    some order. *)
Lemma dated_rows_Permutation (d : DataFrame) :
  dated_rows d ≡ₚ omap (fun r => (fun m => (m, prepared d r)) <$> month_of d r) (rows d).
Proof.
  unfold dated_rows. cbv zeta.
  assert (Hrows : forall l : list Row,
            omap dated_row (map (prepared d) l)
            = omap (fun r => (fun m => (m, prepared d r)) <$> month_of d r) l).
  { induction l as [|r l IH]; [done|]. cbn [map omap list_omap]. rewrite dated_row_prepared. fold (@omap list _ _ _ dated_row). fold (@omap list _ _ _ (fun r => (fun m => (m, prepared d r)) <$> month_of d r)). by rewrite IH. }
  rewrite <- Hrows.
  apply omap_Permutation.
  unfold map_series, map_col. cbn [columns rows].
  change (has_col "cost_per_kwh" {| columns := columns d; rows := _ |})
    with (has_col "cost_per_kwh" d).
  unfold prepared. cbv zeta.
  destruct (negb (has_col "cost_per_kwh" d)); cbn [set_col rows].
  - rewrite sort_by_Permutation. by rewrite map_map.
  - by rewrite sort_by_Permutation.
Qed.

Lemma months_of_pairs (d : DataFrame) (l : list Row) :
  map fst (omap (fun r => (fun m => (m, prepared d r)) <$> month_of d r) l)
  = omap (month_of d) l.
Proof.
  induction l as [|r l IH]; [done|]. cbn [omap list_omap].
  destruct (month_of d r); cbn [fmap option_fmap option_map map fst]; by rewrite <- IH.
Qed.

Lemma rows_of_pairs (d : DataFrame) (m : Z) (l : list Row) :
  map snd (List.filter (fun p : Z * Row => fst p =? m)
             (omap (fun r => (fun m => (m, prepared d r)) <$> month_of d r) l))
  = map (prepared d) (List.filter (fun r => bool_decide (month_of d r = Some m)) l).
Proof.
  induction l as [|r l IH]; [done|]. cbn [omap list_omap List.filter].
  case_bool_decide as Hb.
  - rewrite Hb. cbn [fmap option_fmap option_map List.filter fst].
    rewrite Z.eqb_refl. cbn [map snd]. f_equal. exact IH.
  - destruct (month_of d r) as [m'|] eqn:Hm;
      cbn [fmap option_fmap option_map List.filter fst]; [|exact IH].
    destruct (Z.eqb_spec m' m) as [->|Hne]; [done | exact IH].
Qed.

Lemma prepared_values (d : DataFrame) (r : Row) :
  cell_float (at_col "total_cost" (prepared d r)) = cost_of r /\
  cell_float (at_col "energy_added_kwh" (prepared d r)) = energy_of r /\
  cell_float (at_col "cost_per_kwh" (prepared d r)) = efficiency_of d r.
Proof.
  unfold prepared, cost_of, energy_of, efficiency_of. cbv zeta.
  destruct (has_col "cost_per_kwh" d); cbn [negb].
  - by rewrite !at_col_insert_ne by discriminate.
  - rewrite at_col_insert. rewrite !at_col_insert_ne by discriminate. done.
Qed.

(** One row of the monthly table: the three means over the sessions of the
    month. *)
Lemma month_means_spec (d : DataFrame) (m : Z) :
  month_means (dated_rows d) m
  = (monthly_mean cost_of d m, monthly_mean energy_of d m,
     monthly_mean (efficiency_of d) d m).
Proof.
  unfold month_means. cbv zeta.
  assert (Hp : map snd (List.filter (fun p : Z * Row => fst p =? m) (dated_rows d))
               ≡ₚ map (prepared d) (sessions_of_month d m)).
  { unfold sessions_of_month. rewrite <- rows_of_pairs.
    apply Permutation_map, filter_Permutation, dated_rows_Permutation. }
  assert (Hmean : forall (c : string) (value : Row -> pyfloat),
            (forall r, cell_float (at_col c (prepared d r)) = value r) ->
            fmean (map (fun r => cell_float (at_col c r))
                       (map snd (List.filter (fun p : Z * Row => fst p =? m) (dated_rows d))))
            = monthly_mean value d m).
  { intros c value Hv. unfold monthly_mean.
    rewrite (fmean_Permutation _ _ (Permutation_map _ Hp)), map_map.
    f_equal. apply map_ext. exact Hv. }
  rewrite (Hmean "total_cost" cost_of), (Hmean "energy_added_kwh" energy_of),
    (Hmean "cost_per_kwh" (efficiency_of d)); [done| | |]; intros r; apply prepared_values.
Qed.

(** The monthly table holds, for each non-empty month from the first to the
    last dated session, the means of cost, energy and cost per kWh over the
    sessions of that month. *)
Lemma monthly_table_spec (d : DataFrame) :
  monthly_table parse_datetime d
  = map (fun m => (monthly_mean cost_of d m, monthly_mean energy_of d m,
                   monthly_mean (efficiency_of d) d m))
        (non_empty_months d).
Proof.
  rewrite monthly_table_dated. unfold non_empty_months, month_span.
  pose proof (Permutation_map fst (dated_rows_Permutation d)) as Hp.
  rewrite months_of_pairs in Hp.
  destruct (map fst (dated_rows d)) as [|a l], (omap (month_of d) (rows d)) as [|b l'].
  - done.
  - by apply Permutation_nil_cons in Hp.
  - symmetry in Hp. by apply Permutation_nil_cons in Hp.
  - cbv zeta. rewrite (fold_min_Permutation a b l l' Hp), (fold_max_Permutation a b l l' Hp).
    rewrite (map_ext _ _ (month_means_spec d)). by rewrite filter_map_comm.
Qed.

(** *** The guard, the months and the slopes *)

Lemma trends_guard (d : DataFrame) :
  has_col "session_date" d = false \/ (df_len d < 6)%nat ->
  analyze_temporal_trends parse_datetime d = Ok [].
Proof.
  unfold analyze_temporal_trends. intros [-> | H]; [done|].
  rewrite (proj2 (Nat.ltb_lt _ _)) by done. by rewrite orb_true_r.
Qed.

Lemma dated_session (d : DataFrame) :
  non_empty_months d <> [] ->
  existsb (is_dated parse_datetime (column "session_date" d)) (column "session_date" d) = true.
Proof.
  unfold non_empty_months, month_span. intros H.
  destruct (omap (month_of d) (rows d)) as [|m ms] eqn:E; [done|].
  assert (Hm : m ∈ omap (month_of d) (rows d)) by (rewrite E; left).
  apply list_elem_of_omap in Hm as (r & Hr & Hm).
  apply existsb_exists. exists (at_col "session_date" r). split.
  - apply list_elem_of_In. by apply elem_of_map_2.
  - unfold month_of in Hm. unfold is_dated. by destruct (_to_datetime _ _ _).
Qed.

Lemma trends_three_months (d : DataFrame) :
  has_col "session_date" d = true -> (6 <= df_len d)%nat ->
  trend_columns_ok d = Ok () ->
  (3 <= length (non_empty_months d))%nat ->
  analyze_temporal_trends parse_datetime d
  = Ok [ ("monthly_cost_trend", trend (monthly_series cost_of d));
         ("monthly_efficiency_trend", trend (monthly_series (efficiency_of d) d));
         ("monthly_energy_trend", trend (monthly_series energy_of d)) ].
Proof.
  unfold analyze_temporal_trends. intros Hd H6 Hok H3.
  rewrite Hd, (proj2 (Nat.ltb_ge _ _)) by done. cbn [negb orb].
  assert (Hpre : (if has_col "cost_per_kwh" d then Ok ()
                  else _ ← need_col "total_cost" d; need_col "energy_added_kwh" d) = Ok ()).
  { destruct (has_col "cost_per_kwh" d); [done|].
    revert Hok. unfold trend_columns_ok.
    destruct (need_col "total_cost" d) as [[]|]; [|done]. cbn [mbind outcome_bind].
    by destruct (need_col "energy_added_kwh" d) as [[]|]. }
  rewrite Hpre. cbn [mbind outcome_bind].
  rewrite dated_session by (intros E; rewrite E in H3; simpl in H3; lia).
  cbn [negb]. rewrite Hok. cbn [mbind outcome_bind].
  rewrite monthly_table_spec, length_map, (proj2 (Nat.leb_le _ _)) by done.
  rewrite !slope_trend, !map_map. reflexivity.
Qed.

Lemma trends_few_months (d : DataFrame) :
  has_col "session_date" d = true -> (6 <= df_len d)%nat ->
  trend_columns_ok d = Ok () ->
  (0 < length (non_empty_months d) < 3)%nat ->
  analyze_temporal_trends parse_datetime d = Ok [].
Proof.
  unfold analyze_temporal_trends. intros Hd H6 Hok H3.
  rewrite Hd, (proj2 (Nat.ltb_ge _ _)) by done. cbn [negb orb].
  assert (Hpre : (if has_col "cost_per_kwh" d then Ok ()
                  else _ ← need_col "total_cost" d; need_col "energy_added_kwh" d) = Ok ()).
  { destruct (has_col "cost_per_kwh" d); [done|].
    revert Hok. unfold trend_columns_ok.
    destruct (need_col "total_cost" d) as [[]|]; [|done]. cbn [mbind outcome_bind].
    by destruct (need_col "energy_added_kwh" d) as [[]|]. }
  rewrite Hpre. cbn [mbind outcome_bind].
  rewrite dated_session by (intros E; rewrite E in H3; simpl in H3; lia).
  cbn [negb]. rewrite Hok. cbn [mbind outcome_bind].
  rewrite monthly_table_spec, length_map.
  by rewrite (proj2 (Nat.leb_gt _ _)) by lia.
Qed.

(** A calendar month with a dated session is a non-empty month, as long as
    the energies are finite numbers. *)
Lemma months_with_sessions (d : DataFrame) (ms : list Z) :
  NoDup ms ->
  (forall m, m ∈ ms -> exists r, r ∈ rows d /\ month_of d r = Some m) ->
  Forall (fun x => finite (cell_float x)) (column "energy_added_kwh" d) ->
  (length ms <= length (non_empty_months d))%nat.
Proof.
  intros Hnd Hms Hfin. unfold non_empty_months.
  apply distinct_pass_length; [done|]. intros m Hm.
  destruct (Hms m Hm) as (r & Hr & Hmr).
  assert (Hin : m ∈ omap (month_of d) (rows d)).
  { apply list_elem_of_omap. by exists r. }
  split.
  - unfold month_span. destruct (omap (month_of d) (rows d)) as [|m0 rest]; [by apply elem_of_nil in Hin|].
    cbv zeta. apply elem_of_seqZ. apply elem_of_cons in Hin.
    pose proof (fold_min_le rest m0 m Hin). pose proof (fold_max_ge rest m0 m Hin). lia.
  - apply negb_true_iff. unfold month_is_empty.
    destruct (fmean_finite (map energy_of (sessions_of_month d m))) as [q Hq].
    + assert (r ∈ sessions_of_month d m) as Hb.
      { apply list_elem_of_In, filter_In. split; [by apply list_elem_of_In|].
        by apply bool_decide_eq_true. }
      intros E. apply (f_equal length) in E. rewrite length_map in E.
      destruct (sessions_of_month d m); [by apply elem_of_nil in Hb | done].
    + apply Forall_fmap, Forall_forall. intros x Hx.
      apply list_elem_of_In, filter_In in Hx as [Hx%list_elem_of_In _].
      unfold column in Hfin. rewrite Forall_fmap, Forall_forall in Hfin. by apply Hfin.
    + unfold monthly_mean at 2. rewrite Hq. by rewrite andb_false_r.
Qed.

(** C7, as the code has it.  [analyze_temporal_trends] returns an empty
    mapping when there is no [session_date] column or the table has fewer
    than 6 rows, dated or not.  With the column, at least 6 rows, numeric
    cost and energy columns and at least 3 non-empty calendar months it
    returns exactly the three named slopes: the cost trend is the trend of
    the monthly means of [total_cost], the efficiency trend that of the
    monthly means of the cost per kWh of each session, the energy trend
    that of the monthly means of [energy_added_kwh], a monthly mean being
    the mean over the sessions dated in that calendar month and a trend
    (last observed mean - first observed mean) / (number of observed months
    - 1), or 0 when fewer than two months are observed.  With one or two
    non-empty months the mapping is empty; and three distinct months with a
    dated session and finite energies are 3 non-empty months. *)
Theorem temporal_trends_spec (d : DataFrame) :
  (has_col "session_date" d = false \/ (df_len d < 6)%nat ->
   analyze_temporal_trends parse_datetime d = Ok []) /\
  (has_col "session_date" d = true -> (6 <= df_len d)%nat ->
   trend_columns_ok d = Ok () ->
   (3 <= length (non_empty_months d))%nat ->
   analyze_temporal_trends parse_datetime d
   = Ok [ ("monthly_cost_trend", trend (monthly_series cost_of d));
          ("monthly_efficiency_trend", trend (monthly_series (efficiency_of d) d));
          ("monthly_energy_trend", trend (monthly_series energy_of d)) ]) /\
  (has_col "session_date" d = true -> (6 <= df_len d)%nat ->
   trend_columns_ok d = Ok () ->
   (0 < length (non_empty_months d) < 3)%nat ->
   analyze_temporal_trends parse_datetime d = Ok []) /\
  (forall ms : list Z,
     NoDup ms -> (3 <= length ms)%nat ->
     (forall m, m ∈ ms -> exists r, r ∈ rows d /\ month_of d r = Some m) ->
     Forall (fun x => finite (cell_float x)) (column "energy_added_kwh" d) ->
     (3 <= length (non_empty_months d))%nat).
Proof.
  split; [apply trends_guard|].
  split; [apply trends_three_months|].
  split; [apply trends_few_months|].
  intros ms Hnd H3 Hms Hfin.
  pose proof (months_with_sessions d ms Hnd Hms Hfin). lia.
Qed.

End Trends.

(** The rows whose date the calculator can read. *)
Definition usable_dated_rows (parse_datetime : date_parser) (d : DataFrame) : nat :=
  length (List.filter (is_dated parse_datetime (column "session_date" d))
                      (column "session_date" d)).

Definition session (date : cell) (energy cost : pyfloat) : Row :=
  list_to_map [("session_date", date); ("energy_added_kwh", CNum energy);
               ("total_cost", CNum cost)].

(** Six sessions over three months, one of them without a date. *)
Definition five_dated_of_six : DataFrame :=
  mkDataFrame ["session_date"; "energy_added_kwh"; "total_cost"]
    [ session (CStr "2024-01-10") (of_Z 10) (of_Z 2);
      session (CStr "2024-01-20") (of_Z 12) (of_Z 3);
      session (CStr "2024-02-05") (of_Z 8) (of_Z 2);
      session CNaT (of_Z 10) (of_Z 3);
      session (CStr "2024-02-25") (of_Z 20) (of_Z 5);
      session (CStr "2024-03-15") (of_Z 10) (of_Z 4) ].

Example five_dated_of_six_run :
  df_len five_dated_of_six = 6%nat /\
  usable_dated_rows iso_dates five_dated_of_six = 5%nat /\
  monthly_table iso_dates five_dated_of_six
  = [ (dec 25 1, of_Z 11, dec 225 3); (dec 35 1, of_Z 14, dec 25 2); (of_Z 4, of_Z 10, dec 4 1) ] /\
  monthly_series iso_dates cost_of five_dated_of_six = [dec 25 1; dec 35 1; of_Z 4] /\
  monthly_series iso_dates (efficiency_of five_dated_of_six) five_dated_of_six
  = [dec 225 3; dec 25 2; dec 4 1] /\
  monthly_series iso_dates energy_of five_dated_of_six = [of_Z 11; of_Z 14; of_Z 10] /\
  analyze_temporal_trends iso_dates five_dated_of_six
  = Ok [ ("monthly_cost_trend", dec 75 2); ("monthly_efficiency_trend", dec 875 4);
         ("monthly_energy_trend", dec (-5) 1) ].
Proof. vm_compute. repeat split; reflexivity. Qed.

(** Six sessions none of which has a date the calculator can read: the
    monthly resampling has no first month to start from, and raises. *)
Definition six_undated : DataFrame :=
  mkDataFrame ["session_date"; "energy_added_kwh"; "total_cost"]
    (repeat (session (CStr "soon") (of_Z 10) (of_Z 2)) 6).

Example six_undated_run :
  analyze_temporal_trends iso_dates six_undated
  = Raise (AttributeError "'NaTType' object has no attribute 'normalize'").
Proof. vm_compute. reflexivity. Qed.

(** C7, as stated, fails: with five dated rows among six the result is not
    empty. *)
Lemma trends_with_five_dated_rows :
  ~ (forall parse_datetime d,
       (usable_dated_rows parse_datetime d < 6)%nat ->
       analyze_temporal_trends parse_datetime d = Ok []).
Proof.
  intros H. specialize (H iso_dates five_dated_of_six).
  assert (Hlt : (usable_dated_rows iso_dates five_dated_of_six < 6)%nat)
    by (vm_compute; lia).
  specialize (H Hlt). vm_compute in H. discriminate H.
Qed.

(** The three slopes of [five_dated_of_six], by the second part of the
    theorem. *)
Lemma temporal_trends_witness :
  analyze_temporal_trends iso_dates five_dated_of_six
  = Ok [ ("monthly_cost_trend", trend (monthly_series iso_dates cost_of five_dated_of_six));
         ("monthly_efficiency_trend",
          trend (monthly_series iso_dates (efficiency_of five_dated_of_six) five_dated_of_six));
         ("monthly_energy_trend", trend (monthly_series iso_dates energy_of five_dated_of_six)) ].
Proof.
  apply (proj1 (proj2 (temporal_trends_spec iso_dates five_dated_of_six))).
  - vm_compute. reflexivity.
  - vm_compute. lia.
  - vm_compute. reflexivity.
  - vm_compute. lia.
Defined.

End TrendFacts.

(** ** The analysis as a whole *)

Module AnalysisFacts.
Import TeslaCSVProcessor ChargingEfficiencyCalculator.

Lemma frozen_setattr_raises (field : string) (a : EfficiencyAnalysis) :
  frozen_setattr field a = Raise (FrozenInstanceError ("cannot assign to field '" +:+ field +:+ "'")).
Proof. reflexivity. Qed.

(** Whatever the table, [analyze_efficiency] ends in an exception: one of
    the first pass, or the [FrozenInstanceError] of the assignment to
    [analysis.recommendations]. *)
Lemma analyze_efficiency_outcome (parse_datetime : date_parser) (d : DataFrame) :
  analyze_efficiency parse_datetime d =
  match build_analysis parse_datetime d with
  | Ok _ => Raise (FrozenInstanceError "cannot assign to field 'recommendations'")
  | Raise e => Raise e
  end.
Proof.
  unfold analyze_efficiency.
  destruct (build_analysis parse_datetime d) as [[[a work] total]|e]; reflexivity.
Qed.

(** *** The first pass *)

Definition positive (x : pyfloat) : Prop := fgt x fzero = true.

Lemma fadd_positive (a x : pyfloat) : fge a fzero = true -> positive x -> positive (fadd a x).
Proof.
  unfold positive.
  destruct a as [q| | |], x as [p| | |]; simpl; try done.
  intros Hq%Qle_bool_iff Hp%Qlt_bool_iff. apply Qlt_bool_iff.
  rewrite Qred_correct. lra.
Qed.

Lemma positive_nonneg (x : pyfloat) : positive x -> fge x fzero = true.
Proof.
  unfold positive. destruct x as [q| | |]; simpl; try done.
  intros Hq%Qlt_bool_iff. apply Qle_bool_iff. lra.
Qed.

Lemma positive_not_nan (x : pyfloat) : positive x -> negb (is_nan x) = true.
Proof. by destruct x. Qed.

Lemma fold_fadd_positive (l : list pyfloat) (acc : pyfloat) :
  Forall positive l -> positive acc \/ (fge acc fzero = true /\ l <> []) ->
  positive (fold_left fadd l acc).
Proof.
  intros Hl. revert acc. induction Hl as [|x l Hx _ IH]; intros acc; simpl.
  - by intros [? | [_ ?]].
  - intros H. apply IH. left. apply fadd_positive; [|done].
    destruct H as [H | [H _]]; [by apply positive_nonneg | done].
Qed.

Lemma fsum_positive (l : list pyfloat) : l <> [] -> Forall positive l -> positive (fsum l).
Proof.
  intros Hne Hl. unfold fsum.
  rewrite filter_all by (eapply Forall_impl; [exact Hl | apply positive_not_nan]).
  apply fold_fadd_positive; [done|]. right. split; [|done].
  apply Qle_bool_iff. simpl. lra.
Qed.

Lemma mapM_length {A B} (f : A -> outcome B) (l : list A) (ys : list B) :
  mapM f l = Ok ys -> length ys = length l.
Proof.
  revert ys. induction l as [|x l IH]; intros ys; simpl; [by intros [= <-]|].
  destruct (f x) as [y|]; [|done]. simpl.
  destruct (mapM f l) as [ys'|]; [|done]. simpl.
  intros [= <-]. simpl. by rewrite (IH ys').
Qed.

Lemma column_zip_insert (c k : string) (rs : list Row) (cs : list cell) :
  c <> k -> length cs = length rs ->
  map (at_col c) (zip_with (fun r x => <[k := x]> r) rs cs) = map (at_col c) rs.
Proof.
  intros Hne. revert cs. induction rs as [|r rs IH]; intros [|x cs]; simpl; try done.
  intros [= Hlen]. by rewrite at_col_insert_ne, IH.
Qed.

Section FirstPass.
Variable parse_datetime : date_parser.

Lemma with_categories_energy (work work' : DataFrame) :
  with_categories work = Ok work' ->
  column "energy_added_kwh" work' = column "energy_added_kwh" work /\
  column "total_cost" work' = column "total_cost" work.
Proof.
  unfold with_categories. destruct (has_col "charger_type" work); [|by intros [= <-]].
  destruct (mapM _ (rows work)) as [cats|] eqn:Hcats; [|done].
  cbn [mbind outcome_bind]. intros [= <-]. apply mapM_length in Hcats.
  unfold column. cbn [rows]. by rewrite !column_zip_insert.
Qed.

Lemma working_copy_positive (d work : DataFrame) :
  working_copy parse_datetime d = Ok work ->
  Forall (fun x => positive (cell_float x)) (column "energy_added_kwh" work).
Proof.
  unfold working_copy.
  destruct (need_col "energy_added_kwh" d); [|done]. cbn [mbind outcome_bind].
  destruct (need_col "total_cost" _); [|done]. cbn [mbind outcome_bind].
  intros [= <-]. unfold column. rewrite Forall_fmap.
  eapply Forall_impl; [apply Forall_filter_rows|].
  by intros r [H _]%andb_true_iff.
Qed.

(** When the first pass succeeds, the overall [cost_per_kwh] is the sum of
    the costs over the sum of the energies of the retained rows. *)
Lemma first_pass_cost_per_kwh (d : DataFrame) (a : EfficiencyAnalysis) (work : DataFrame)
    (total : pyfloat) :
  build_analysis parse_datetime d = Ok (a, work, total) ->
  total = sum_col "energy_added_kwh" (rows work) /\
  cost_per_kwh (overall_efficiency a)
    = fdiv (sum_col "total_cost" (rows work)) (sum_col "energy_added_kwh" (rows work)) /\
  recommendations a = [] /\ cost_savings_potential a = fzero.
Proof.
  unfold build_analysis. destruct (df_empty d); [done|].
  destruct (working_copy parse_datetime d) as [w0|] eqn:Hw0; [|done].
  cbn [mbind outcome_bind]. destruct (df_empty w0) eqn:Hemp; [done|].
  set (w1 := set_col "cost_per_kwh" _ w0).
  destruct (with_categories w1) as [w2|] eqn:Hw2; [|done]. cbn [mbind outcome_bind].
  set (te := sum_col "energy_added_kwh" (rows w2)).
  set (tc := sum_col "total_cost" (rows w2)).
  assert (Hte : positive te).
  { apply with_categories_energy in Hw2 as [He _].
    unfold te, sum_col.
    rewrite <- (map_map (at_col "energy_added_kwh") cell_float).
    fold (column "energy_added_kwh" w2). rewrite He.
    unfold w1. rewrite column_set_col_ne by discriminate.
    apply fsum_positive.
    - unfold column. intros E. apply (f_equal length) in E. rewrite !length_map in E.
      unfold df_empty in Hemp. destruct (rows w0); [done | discriminate E].
    - apply Forall_fmap. by apply working_copy_positive with d. }
  destruct (calculate_efficiency_metrics te tc _) as [overall|] eqn:Hm; [|done].
  cbn [mbind outcome_bind].
  destruct (by_type_metrics w2); [|done]. cbn [mbind outcome_bind].
  destruct (by_location_metrics w2 te); [|done]. cbn [mbind outcome_bind].
  destruct (analyze_charging_patterns parse_datetime w2); [|done]. cbn [mbind outcome_bind].
  destruct (analyze_temporal_trends parse_datetime w2); [|done]. cbn [mbind outcome_bind].
  intros [= <- <- <-]. cbn [overall_efficiency recommendations cost_savings_potential].
  repeat split; try done.
  destruct (fle te fzero || flt tc fzero) eqn:G.
  - by rewrite (MetricFacts.metrics_guard_true _ _ _ G) in Hm.
  - rewrite (MetricFacts.metrics_guard_false _ _ _ G) in Hm. cbv zeta in Hm.
    injection Hm as <-. cbn [cost_per_kwh]. unfold positive in Hte.
    change (match te with Fin b => Qlt_bool 0 b | PInf => true | _ => false end)
      with (fgt te fzero).
    by rewrite Hte.
Qed.

End FirstPass.

(** The upload of the end-to-end scenario, as [read_csv] hands it over: ten
    rows in the mobile format, two of them repeated and one with a negative
    cost. *)
Definition upload_row (date : string) (energy cost : pyfloat) (soc : string) : Row :=
  list_to_map [("Date", CStr date); ("Energy Added (kWh)", CNum energy);
               ("Cost", CNum cost); ("Starting SOC", CStr soc)].

Definition upload : DataFrame :=
  mkDataFrame ["Date"; "Energy Added (kWh)"; "Cost"; "Starting SOC"]
    [ upload_row "2024-01-05" (dec 305 1) (dec 763 2) "20%";
      upload_row "2024-01-12" (of_Z 42) (dec 1050 2) "15%";
      upload_row "2024-01-12" (of_Z 42) (dec 1050 2) "15%";
      upload_row "2024-01-20" (dec 182 1) (dec 455 2) "55%";
      upload_row "2024-02-03" (of_Z 55) (dec 1925 2) "10%";
      upload_row "2024-02-03" (of_Z 55) (dec 1925 2) "10%";
      upload_row "2024-02-14" (of_Z 25) (of_Z (-3)) "40%";
      upload_row "2024-02-21" (dec 333 1) (dec 833 2) "30%";
      upload_row "2024-03-02" (dec 475 1) (dec 1663 2) "12%";
      upload_row "2024-03-15" (of_Z 12) (of_Z 3) "60%" ].

Definition process_upload : outcome ProcessingResult :=
  process_csv iso_dates (fun _ => true) (fun _ => Ok upload) (SText "upload").

(** What the processor makes of the upload. *)
Definition cleaned_upload : DataFrame :=
  _clean_data iso_dates (_normalize_columns upload "tesla_mobile").

(** The analysis as the first pass of [analyze_efficiency] leaves it. *)
Definition first_pass (parse_datetime : date_parser) (d : DataFrame)
  : outcome EfficiencyAnalysis :=
  (fun x => fst (fst x)) <$> build_analysis parse_datetime d.

(** C1 on the end-to-end scenario.  The processor keeps 7 of the 10 rows
    with quality [excellent]; the first pass of [analyze_efficiency] builds
    the aggregate fields, with [cost_per_kwh] the sum of the costs over the
    sum of the energies of the 7 rows, and leaves the recommendations
    empty; the second pass assigns to a field of the frozen dataclass and
    raises, so [analyze_efficiency] does not return.  For every table, a
    first pass that succeeds has that [cost_per_kwh] and has yet to fill the
    two last fields; and [analyze_efficiency] returns for no table at all. *)
Theorem analyze_efficiency_raises_on_frozen_dataclass :
  (success <$> process_upload) = Ok true /\
  (data <$> process_upload) = Ok (Some cleaned_upload) /\
  (quality <$> process_upload) = Ok EXCELLENT /\
  df_len cleaned_upload = 7%nat /\
  ((fun a => cost_per_kwh (overall_efficiency a)) <$> first_pass iso_dates cleaned_upload)
    = Ok (fdiv (sum_col "total_cost" (rows cleaned_upload))
               (sum_col "energy_added_kwh" (rows cleaned_upload))) /\
  fdiv (sum_col "total_cost" (rows cleaned_upload))
       (sum_col "energy_added_kwh" (rows cleaned_upload)) = fin (6989 # 23850) /\
  (recommendations <$> first_pass iso_dates cleaned_upload) = Ok [] /\
  analyze_efficiency iso_dates cleaned_upload
    = Raise (FrozenInstanceError "cannot assign to field 'recommendations'") /\
  (forall parse_datetime d a work total,
     build_analysis parse_datetime d = Ok (a, work, total) ->
     cost_per_kwh (overall_efficiency a)
       = fdiv (sum_col "total_cost" (rows work)) (sum_col "energy_added_kwh" (rows work)) /\
     recommendations a = [] /\ cost_savings_potential a = fzero) /\
  (forall parse_datetime d, raises (analyze_efficiency parse_datetime d)).
Proof.
  do 8 (split; [vm_compute; reflexivity|]).
  split.
  - intros parse_datetime d a work total H.
    by destruct (first_pass_cost_per_kwh parse_datetime d a work total H) as (_ & ? & ? & ?).
  - intros parse_datetime d. rewrite analyze_efficiency_outcome.
    destruct (build_analysis parse_datetime d); by eexists.
Qed.

End AnalysisFacts.

(** ** Runs of the model *)

Module ModelRuns.
Import TeslaCSVProcessor.

Example float_repr_examples :
  map float_repr [dec 125 1; of_Z 100; dec 1 5; dec 15 8; of_Z (10 ^ 16); dec 1 4; dec (-5) 1;
                  of_Z 123456789; dec 123456 2]
  = ["12.5"; "100.0"; "1e-05"; "1.5e-07"; "1e+16"; "0.0001"; "-0.5";
     "123456789.0"; "1234.56"].
Proof. vm_compute. reflexivity. Qed.

Example to_numeric_examples :
  map to_numeric ["12.5"; "1e-05"; "1-05"; ""; "-3"; ".5"; "5."; "1e5"; "inf"; "abc"; "1.2.3"]
  = [dec 125 1; dec 1 5; NaN; NaN; of_Z (-3); dec 5 1; of_Z 5; of_Z 100000; PInf; NaN; NaN].
Proof. vm_compute. reflexivity. Qed.

Example iso_dates_examples :
  (isoformat <$> iso_datetime "2024-02-29 17:45") = Some "2024-02-29T17:45:00" /\
  (isoformat <$> iso_datetime "2024-01-15T08:00:00+02:00") = Some "2024-01-15T08:00:00+02:00" /\
  (isoformat <$> (to_utc_naive <$> iso_datetime "2024-01-01T01:00:00+02:00"))
    = Some "2023-12-31T23:00:00" /\
  iso_datetime "2023-02-29" = None /\
  (ts_dayofweek <$> iso_datetime "2024-01-15") = Some 0 /\
  (ts_month_index <$> iso_datetime "2024-03-09") = Some (12 * 2024 + 2).
Proof. vm_compute. repeat split; reflexivity. Qed.

(** Half a second is kept: two sessions half a second apart are two dates. *)
Example fractional_seconds_examples :
  (isoformat <$> iso_datetime "2024-01-15T08:00:00.500000") = Some "2024-01-15T08:00:00.500000" /\
  (ts_value <$> iso_datetime "2024-01-15T08:00:00.5") = Some 1705305600500000000 /\
  (ts_value <$> iso_datetime "2024-01-15T08:00:00") = Some 1705305600000000000.
Proof. vm_compute. repeat split; reflexivity. Qed.

Example re_search_examples :
  re_search (whole (alts [Lit "dc"; Lit "fast"])) "abcdc fast" = true /\
  re_search (whole (Lit "ac")) "tesla wall connector" = false /\
  re_search (whole (seqs [Lit "level"; spaces; Lit "2"])) "level  2 public" = true /\
  re_search_i (seqs [Lit "start"; spaces; Lit "%"]) "Start %" = true /\
  re_search (whole (seqs [Lit "chad"; Opt "e"; Lit "mo"])) "chadmo" = true /\
  re_search (whole (seqs [Lit "v"; Cls is_digit])) "supercharger v3" = true /\
  re_search (whole (seqs [Lit "v"; Cls is_digit])) "v30" = false.
Proof. vm_compute. repeat split; reflexivity. Qed.

Example parse_one_examples :
  map parse_one [CStr "1:30"; CStr "1h 30m"; CStr "90m"; CStr "90"; CStr "1.5h";
                 CStr "90 min"; CStr "90 minutes"; CStr "soon"; CNum NaN; CStr "2:05:30"]
  = [CNum (of_Z 90); CNum (of_Z 90); CNum (of_Z 90); CNum (of_Z 90); CNum (of_Z 90);
     CNum (of_Z 90); CNone; CNone; CNone; CNum (of_Z 125)].
Proof. vm_compute. reflexivity. Qed.

Example to_percent_examples :
  map _to_percent [CStr "0.85"; CStr "85"; CStr "85%"; CStr "1%"; CStr " 7 %"; CStr "n/a"]
  = [of_Z 85; of_Z 85; of_Z 85; of_Z 100; of_Z 7; NaN].
Proof. vm_compute. reflexivity. Qed.

Example format_fixed_examples :
  map (format_fixed 3) [dec 25 2; dec 1 1; of_Z 12; dec 123456 5; dec (-5) 4]
  = ["0.250"; "0.100"; "12.000"; "1.235"; "-0.000"] /\
  format_fixed 0 (dec 155 1) = "16" /\ format_fixed 1 (dec 96 1) = "9.6".
Proof. vm_compute. split; [|split]; reflexivity. Qed.

End ModelRuns.

(** * Further properties *)

(** ** The processor from outside *)

Module ProcessorExtras.
Import TeslaCSVProcessor DedupFacts CleaningFacts ProcessorFacts.

(** *** Row counts and columns of the cleaner *)

Lemma filter_length_le {A} (p : A -> bool) (l : list A) :
  (length (List.filter p l) <= length l)%nat.
Proof. induction l as [|x l IH]; simpl; [lia|]. destruct (p x); simpl; lia. Qed.

Lemma keep_first_length (subset : list string) (seen : list (list cell)) (l : list Row) :
  (length (keep_first subset seen l) <= length l)%nat.
Proof.
  revert seen. induction l as [|r l IH]; intros seen; simpl; [lia|].
  case_bool_decide; simpl; [specialize (IH seen) | specialize (IH (row_key subset r :: seen))]; lia.
Qed.

Lemma len_map_col (c : string) (f : cell -> cell) (d : DataFrame) :
  df_len (map_col c f d) = df_len d.
Proof. unfold df_len, map_col. cbn [rows]. by rewrite length_map. Qed.

Lemma len_set_col (c : string) (g : Row -> cell) (d : DataFrame) :
  df_len (set_col c g d) = df_len d.
Proof. unfold df_len, set_col. cbn [rows]. by rewrite length_map. Qed.

Lemma len_filter_rows (p : Row -> bool) (d : DataFrame) :
  (df_len (filter_rows p d) <= df_len d)%nat.
Proof. unfold df_len, filter_rows. cbn [rows]. apply filter_length_le. Qed.

Lemma len_if_col (c : string) (F : DataFrame -> DataFrame) (d : DataFrame) (n : nat) :
  (forall d', (df_len (F d') <= df_len d')%nat) -> (df_len d <= n)%nat ->
  (df_len (if_col c F d) <= n)%nat.
Proof.
  intros HF Hd. unfold if_col. destruct (has_col c d); [|done].
  specialize (HF d). lia.
Qed.

Ltac len_step :=
  apply len_if_col;
  [ intros ?; cbv beta;
    first [ rewrite len_map_col; lia | unfold map_series; rewrite len_map_col; lia
          | rewrite len_set_col; lia
          | etrans; [apply len_filter_rows | rewrite len_map_col; lia] ] | ].

Section Cleaner.
Variable parse_datetime : date_parser.

Lemma clean_data_shrinks (d : DataFrame) :
  (df_len (_clean_data parse_datetime d) <= df_len d)%nat.
Proof.
  rewrite clean_data_stages.
  etrans.
  { unfold dedup_stage. cbv zeta. case_match; [|reflexivity].
    unfold df_len, drop_duplicates. cbn [rows]. apply keep_first_length. }
  unfold tail_stage, location_stage, duration_stage, soc_stage, soc_step, power_stage,
    cost_stage, energy_stage, time_stage, date_stage.
  cbn [fold_left]. fold (df_len d).
  do 12 len_step. reflexivity.
Qed.

Lemma columns_if_map (c : string) (f : cell -> cell) (d : DataFrame) :
  columns (if_col c (map_col c f) d) = columns d.
Proof. unfold if_col. by destruct (has_col c d). Qed.

Lemma clean_data_columns (d : DataFrame) :
  columns (_clean_data parse_datetime d)
  = columns d ++
    (if has_col "charging_duration" d && negb (has_col "charging_duration_minutes" d)
     then ["charging_duration_minutes"] else []).
Proof.
  rewrite clean_data_stages.
  set (D := cost_stage (energy_stage
              (time_stage parse_datetime (date_stage parse_datetime d)))).
  assert (HD : columns D = columns d) by apply columns_before_tail.
  assert (Hdedup : forall X, columns (dedup_stage X) = columns X).
  { intros X. unfold dedup_stage. cbv zeta. by case_match. }
  rewrite Hdedup. unfold tail_stage, location_stage. rewrite columns_if_map.
  unfold soc_stage, soc_step, power_stage. cbn [fold_left].
  set (P := if_col "end_soc_percent" _ _).
  assert (HP : columns P = columns d).
  { unfold P. by rewrite !columns_if_map. }
  unfold duration_stage, if_col, has_col. rewrite HP. fold (has_col "charging_duration" d).
  destruct (has_col "charging_duration" d); [|by rewrite app_nil_r].
  unfold set_col, has_col. cbn [columns andb]. rewrite HP.
  fold (has_col "charging_duration_minutes" d).
  destruct (has_col "charging_duration_minutes" d); [by rewrite app_nil_r | done].
Qed.

(** X1.  The cleaner never adds a row, and it keeps the columns in their order:
    the one column it can add, at the end, is [charging_duration_minutes],
    when the table has [charging_duration] and not yet the minutes. *)
Theorem clean_data_shape (d : DataFrame) :
  (df_len (_clean_data parse_datetime d) <= df_len d)%nat /\
  columns (_clean_data parse_datetime d)
  = columns d ++
    (if has_col "charging_duration" d && negb (has_col "charging_duration_minutes" d)
     then ["charging_duration_minutes"] else []).
Proof. split; [apply clean_data_shrinks | apply clean_data_columns]. Qed.

End Cleaner.

(** *** Validation *)

Lemma validate_structure_ok (d : DataFrame) (iss : list string) :
  _validate_structure d = (true, iss) <->
  iss = [] /\ Forall (fun c => has_col c d = true) REQUIRED_COLUMNS /\ df_len d <> 0%nat.
Proof.
  unfold _validate_structure, REQUIRED_COLUMNS. cbn [List.filter].
  rewrite !Forall_cons.
  destruct (has_col "session_date" d), (has_col "energy_added_kwh" d),
    (has_col "total_cost" d); cbn [negb];
    try (split; [discriminate | intros (_ & (? & ? & ? & _) & _); discriminate]).
  destruct (df_len d =? 0)%nat eqn:E.
  - apply Nat.eqb_eq in E. split; [discriminate | intros (_ & _ & ?); done].
  - apply Nat.eqb_neq in E. split; [intros [= <-] | intros (-> & _ & _)]; done.
Qed.

(** A cell of the metadata. *)
Definition meta_get (k : string) (md : list (string * meta)) : option meta :=
  snd <$> find (fun kv => String.eqb (fst kv) k) md.

Lemma rename_len (mapping : list (string * string)) (d : DataFrame) :
  df_len (rename mapping d) = df_len d.
Proof. unfold df_len, rename. cbn [rows]. by rewrite length_map. Qed.

Lemma normalize_columns_len (d : DataFrame) (fmt : string) :
  df_len (_normalize_columns d fmt) = df_len d.
Proof.
  unfold _normalize_columns, _fuzzy_map. cbv zeta. destruct (snd <$> find _ _); apply rename_len.
Qed.

Lemma Ok_inj {A} (a b : A) : @Ok A a = Ok b -> a = b.
Proof. by intros [= ->]. Qed.

(** X2.  A successful [process_csv] hands over a table that has the three
    required columns, in which every energy is above 0, every cost at least
    0, every date a timestamp or [NaT] and no (date, energy, cost) key is
    repeated; it has no more rows than the file, the metadata count both,
    and the issue list is empty. *)
Theorem process_csv_success
    (parse_datetime : date_parser) (path_exists : string -> bool)
    (read_csv : csv_input -> outcome DataFrame) (src : source) (r : ProcessingResult) :
  process_csv parse_datetime path_exists read_csv src = Ok r ->
  success r = true ->
  exists df_raw df,
    _read_csv_safely path_exists read_csv src = Ok df_raw /\
    data r = Some df /\ issues r = [] /\
    Forall (fun c => has_col c df = true) KEY /\
    Forall positive_cell (column "energy_added_kwh" df) /\
    Forall nonneg_cell (column "total_cost" df) /\
    Forall time_cell (column "session_date" df) /\
    NoDup (map (row_key KEY) (rows df)) /\
    (df_len df <= df_len df_raw)%nat /\
    meta_get "original_rows" (metadata r) = Some (MInt (Z.of_nat (df_len df_raw))) /\
    meta_get "processed_rows" (metadata r) = Some (MInt (Z.of_nat (df_len df))).
Proof.
  unfold process_csv, process_csv_body.
  destruct (_read_csv_safely path_exists read_csv src) as [df_raw|e];
    cbn [mbind outcome_bind try_except]; [|by intros [= <-]].
  destruct (df_empty df_raw); [by intros [= <-]|].
  destruct (_detect_format df_raw) as [fmt|e]; cbn [mbind outcome_bind try_except];
    [|by intros [= <-]].
  set (norm := _normalize_columns df_raw fmt).
  destruct (_validate_structure norm) as [ok iss] eqn:Hv.
  destruct ok; cbn [negb try_except]; [|by intros [= <-]].
  apply validate_structure_ok in Hv as (-> & Hreq & Hne).
  intros Hr _. apply Ok_inj in Hr. subst r. cbn [data issues metadata].
  assert (Hkey : forall c, c ∈ KEY -> has_col c norm = true).
  { intros c Hc. rewrite Forall_forall in Hreq. by apply Hreq. }
  exists df_raw, (_clean_data parse_datetime norm).
  split; [done|]. split; [done|]. split; [done|].
  split.
  { apply Forall_forall. intros c Hc. rewrite has_col_clean by done. by apply Hkey. }
  split; [apply clean_energy_positive, Hkey; unfold KEY; repeat constructor|].
  split; [apply clean_cost_nonneg, Hkey; unfold KEY; repeat constructor|].
  split; [apply clean_dates, Hkey; unfold KEY; repeat constructor|].
  split; [apply clean_NoDup; by apply Forall_forall|].
  split.
  { etrans; [apply clean_data_shrinks|]. unfold norm. by rewrite normalize_columns_len. }
  split; reflexivity.
Qed.


(** What [Path] makes of some sources: a trailing slash or [/.] is dropped
    before the suffix is taken. *)
Example path_runs :
  path_suffix "/data/a.gz/" = ".gz" /\ path_str "/data/a.gz/" = "/data/a.gz" /\
  path_suffix "/data/a.gz/." = ".gz" /\ path_str "data//./a.csv" = "data/a.csv" /\
  path_suffix "/data.gz/a.csv" = ".csv" /\ path_suffix "/data/.gz" = "" /\
  path_suffix "/data/a." = "" /\ path_suffix "a.tar.gz" = ".gz" /\
  path_str "//srv/a" = "//srv/a" /\ path_str "///srv/a" = "/srv/a" /\ path_str "" = ".".
Proof. vm_compute. repeat split; reflexivity. Qed.


Lemma process_csv_success_witness :
  exists df_raw df,
    _read_csv_safely (fun _ => true) (fun _ => Ok AnalysisFacts.upload) (SText "upload")
      = Ok df_raw /\
    (data <$> AnalysisFacts.process_upload) = Ok (Some df) /\
    (df_len df <= df_len df_raw)%nat /\
    NoDup (map (row_key KEY) (rows df)).
Proof.
  destruct AnalysisFacts.process_upload as [r|e] eqn:E; [|vm_compute in E; discriminate E].
  assert (Hs : success r = true).
  { assert (H : (success <$> AnalysisFacts.process_upload) = Ok true)
      by (vm_compute; reflexivity).
    rewrite E in H. by injection H. }
  destruct (process_csv_success iso_dates (fun _ => true)
              (fun _ => Ok AnalysisFacts.upload) (SText "upload") r E Hs)
    as (df_raw & df & H1 & H2 & _ & _ & _ & _ & _ & H3 & H4 & _).
  exists df_raw, df. cbn [fmap outcome_fmap]. by rewrite H2.
Defined.

(** *** Scalar parsers *)

Lemma chars_text (l : list ascii) : chars (text l) = l.
Proof. apply list_ascii_of_string_of_list_ascii. Qed.

Lemma keep_chars_twice (p q : ascii -> bool) (s : string) :
  keep_chars p (keep_chars q s) = keep_chars (fun a => p a && q a) s.
Proof.
  unfold keep_chars. rewrite chars_text. f_equal.
  induction (chars s) as [|a l IH]; simpl; [done|].
  destruct (q a); simpl; destruct (p a); simpl; by rewrite ?IH.
Qed.

Lemma keep_chars_ext (p q : ascii -> bool) (s : string) :
  (forall a, p a = q a) -> keep_chars p s = keep_chars q s.
Proof.
  intros H. unfold keep_chars. f_equal.
  induction (chars s) as [|a l IH]; simpl; [done|]. by rewrite H, IH.
Qed.

Lemma number_currency_chars (a : ascii) :
  number_char a && currency_char a = number_char a && negb (is_e a).
Proof.
  unfold number_char, currency_char. destruct (is_e a) eqn:He.
  - unfold is_e in He. apply orb_true_iff in He as [He|He];
      apply Ascii.eqb_eq in He; subst a; reflexivity.
  - destruct (is_digit a), (Ascii.eqb a "."%char), (Ascii.eqb a "-"%char),
      (Ascii.eqb a ","%char); reflexivity.
Qed.

(** X4.  The cost parser is the number parser on the text without its letters
    [e] and [E]: the character class of [_to_currency] leaves the exponent
    mark out, so a cost in scientific notation loses it. *)
Theorem to_currency_drops_exponent (c : cell) :
  _to_currency c = _to_number (CStr (keep_chars (fun a => negb (is_e a)) (astype_str c))).
Proof.
  unfold _to_currency, _to_number. cbn [astype_str]. f_equal.
  assert (H : keep_chars number_char (keep_chars currency_char (astype_str c))
              = keep_chars number_char (keep_chars (fun a => negb (is_e a)) (astype_str c))).
  { rewrite !keep_chars_twice. apply keep_chars_ext, number_currency_chars. }
  unfold to_number_str. cbv zeta. rewrite H. reflexivity.
Qed.

Lemma to_currency_scientific :
  _to_number (CStr "1e3") = CNum (of_Z 1000) /\ _to_currency (CStr "1e3") = CNum (of_Z 13).
Proof. split; vm_compute; reflexivity. Qed.

(** *** Fuzzy mapping *)

Definition FUZZY_TARGETS : list string :=
  [ "energy_added_kwh"; "total_cost"; "session_date"; "start_soc_percent";
    "end_soc_percent"; "charging_duration"; "location_name" ].

Lemma mapped_false (m : list (string * string)) (c : string) :
  mapped m c = false -> c ∉ map fst m.
Proof.
  unfold mapped. induction m as [|kv m IH]; simpl; [intros _; apply not_elem_of_nil|].
  intros H. apply orb_false_iff in H as [H1 H2]. apply not_elem_of_cons. split; [|by apply IH].
  intros ->. by rewrite String.eqb_refl in H1.
Qed.

Lemma head_elem_of {A} (l : list A) (x : A) : head l = Some x -> x ∈ l.
Proof. destruct l; [done|]. intros [= ->]. left. Qed.

Lemma first_match_spec (cols : list string) (m : list (string * string))
    (pats : list regex) (c : string) :
  first_match cols m pats = Some c ->
  c ∈ cols /\ mapped m c = false /\ exists pat, pat ∈ pats /\ re_search_i pat c = true.
Proof.
  unfold first_match. intros H%head_elem_of.
  apply list_elem_of_In, in_flat_map in H as (pat & Hpat & H).
  apply filter_In in H as [Hc H]. apply andb_true_iff in H as [H1 H2].
  apply negb_true_iff in H2. apply list_elem_of_In in Hc, Hpat. eauto.
Qed.

Lemma claim_column_app (cols : list string) (pats : list regex) (t : string)
    (m : list (string * string)) :
  claim_column cols pats t m = m \/
  exists c, claim_column cols pats t m = m ++ [(c, t)] /\
            c ∈ cols /\ (c ∉ map fst m) /\ c <> "" /\
            exists pat, pat ∈ pats /\ re_search_i pat c = true.
Proof.
  unfold claim_column. destruct (first_match cols m pats) as [c|] eqn:E; [|by left].
  destruct (String.eqb c "") eqn:Ec; [by left|]. right.
  apply first_match_spec in E as (? & ?%mapped_false & ?).
  apply String.eqb_neq in Ec. eauto 10.
Qed.

(** What one step of [_fuzzy_map] keeps true of the mapping. *)
Definition fuzzy_ok (cols : list string) (ts : list string) (m : list (string * string)) : Prop :=
  NoDup (map fst m) /\ sublist (map snd m) ts /\ Forall (fun kv => fst kv ∈ cols) m.

Lemma claim_column_ok (cols : list string) (pats : list regex) (t : string)
    (ts : list string) (m : list (string * string)) :
  fuzzy_ok cols ts m -> fuzzy_ok cols (ts ++ [t]) (claim_column cols pats t m).
Proof.
  intros (H1 & H2 & H3).
  destruct (claim_column_app cols pats t m) as [->|(c & -> & Hc & Hn & _)].
  - split; [done|]. split; [|done]. by apply sublist_inserts_r.
  - unfold fuzzy_ok. rewrite !map_app. cbn [map fst snd]. split; [|split].
    + apply NoDup_app. split; [done|]. split; [|apply NoDup_singleton].
      intros x Hx ->%list_elem_of_singleton. done.
    + by apply sublist_app.
    + apply Forall_app. split; [done|]. by constructor.
Qed.

(** X5.  The renaming that [_fuzzy_map] applies sends no column to two names and
    no two columns to one name; it renames columns of the table only, and
    only to the seven names it knows. *)
Theorem fuzzy_map_renames_one_to_one (d : DataFrame) :
  exists m, _fuzzy_map d = rename m d /\
    NoDup (map fst m) /\ NoDup (map snd m) /\
    Forall (fun kv => fst kv ∈ columns d /\ snd kv ∈ FUZZY_TARGETS) m.
Proof.
  unfold _fuzzy_map. cbv zeta. eexists. split; [reflexivity|].
  match goal with |- NoDup (map fst ?m) /\ _ => set (M := m) end.
  assert (H : fuzzy_ok (columns d) FUZZY_TARGETS M).
  { unfold M, FUZZY_TARGETS.
    apply (claim_column_ok _ _ _ ["energy_added_kwh"; "total_cost"; "session_date";
             "start_soc_percent"; "end_soc_percent"; "charging_duration"]).
    apply (claim_column_ok _ _ _ ["energy_added_kwh"; "total_cost"; "session_date";
             "start_soc_percent"; "end_soc_percent"]).
    apply (claim_column_ok _ _ _ ["energy_added_kwh"; "total_cost"; "session_date";
             "start_soc_percent"]).
    apply (claim_column_ok _ _ _ ["energy_added_kwh"; "total_cost"; "session_date"]).
    apply (claim_column_ok _ _ _ ["energy_added_kwh"; "total_cost"]).
    apply (claim_column_ok _ _ _ ["energy_added_kwh"]).
    apply (claim_column_ok _ _ _ []).
    split; [constructor|]. split; [constructor|constructor]. }
  destruct H as (H1 & H2 & H3). split; [done|]. split.
  - eapply sublist_NoDup; [|exact H2]. unfold FUZZY_TARGETS.
    repeat (apply NoDup_cons; split; [by (intros ?%list_elem_of_In; simpl in *; intuition discriminate)|]).
    apply NoDup_nil_2.
  - apply Forall_forall. intros kv Hkv. split.
    + rewrite Forall_forall in H3. by apply H3.
    + eapply elem_of_sublist; [|exact H2]. apply list_elem_of_In, in_map, list_elem_of_In, Hkv.
Qed.

(** *** Generic files *)

Lemma search_lit (k : string) (prev : option ascii) (s : list ascii) :
  search_from (Lit k) prev s = contains_list (chars k) s.
Proof.
  revert prev. induction s as [|c s IH]; intros prev.
  - cbn [search_from rmatch contains_list]. by rewrite andb_true_r.
  - cbn [search_from rmatch contains_list]. by rewrite andb_true_r, IH.
Qed.

Definition ENERGY_PATTERNS : list regex :=
  [Lit "kwh"; Lit "energy"; Lit "delivered"; Lit "added"].

Lemma energy_like_search (c : string) :
  energy_like c = existsb (fun pat => re_search_i pat c) ENERGY_PATTERNS.
Proof.
  unfold energy_like, ENERGY_PATTERNS, re_search_i, re_search, str_contains.
  cbn [existsb]. by rewrite !search_lit.
Qed.

Lemma energy_column_claimed (cols : list string) :
  existsb energy_like cols = true ->
  exists c, c ∈ cols /\
    claim_column cols ENERGY_PATTERNS "energy_added_kwh" [] = [(c, "energy_added_kwh")].
Proof.
  intros H. apply existsb_exists in H as (c0 & Hc0 & H).
  rewrite energy_like_search in H. apply existsb_exists in H as (pat & Hpat & H).
  destruct (claim_column_app cols ENERGY_PATTERNS "energy_added_kwh" [])
    as [E|(c & E & Hc & _)]; [|by exists c].
  exfalso. unfold claim_column in E.
  destruct (first_match cols [] ENERGY_PATTERNS) as [c|] eqn:Ef.
  - destruct (String.eqb c "") eqn:Ec; [|discriminate E].
    apply String.eqb_eq in Ec. subst c.
    apply first_match_spec in Ef as (_ & _ & pat' & Hp & Hs).
    unfold ENERGY_PATTERNS in Hp.
    repeat (apply elem_of_cons in Hp as [->|Hp]; [vm_compute in Hs; discriminate Hs|]).
    by apply elem_of_nil in Hp.
  - unfold first_match in Ef.
    assert (Hin : In c0 (flat_map (fun pat =>
              List.filter (fun c => re_search_i pat c && negb (mapped [] c)) cols)
              ENERGY_PATTERNS)).
    { apply in_flat_map. exists pat. split; [done|]. apply filter_In. split; [done|].
      by rewrite H. }
    destruct (flat_map _ _); [done | discriminate Ef].
Qed.

Lemma claim_column_head (cols : list string) (pats : list regex) (t : string)
    (x : string * string) (m : list (string * string)) :
  exists m', claim_column cols pats t (x :: m) = x :: m'.
Proof.
  destruct (claim_column_app cols pats t (x :: m)) as [->|(c & -> & _)]; eauto.
Qed.

(** X6.  A file classified as generic gets an [energy_added_kwh] column from the
    normalization: the column names that make a file generic on the energy
    side are the ones the fuzzy mapping looks for first. *)
Theorem generic_format_has_energy_column (d : DataFrame) :
  _detect_format d = Ok "generic" ->
  has_col "energy_added_kwh" (_normalize_columns d "generic") = true.
Proof.
  unfold _detect_format. cbv zeta.
  destruct (subset_of _ (columns d)); [discriminate|].
  destruct (subset_of _ (columns d)); [discriminate|].
  destruct (subset_of _ (columns d)); [discriminate|].
  destruct (existsb energy_like (columns d)) eqn:E; [|discriminate].
  intros _. apply energy_column_claimed in E as (c & Hc & E).
  change (_normalize_columns d "generic") with (_fuzzy_map d).
  unfold _fuzzy_map. cbv zeta. fold ENERGY_PATTERNS. rewrite E.
  repeat match goal with
  | |- context [claim_column ?cols ?pats ?t ((c, "energy_added_kwh") :: ?m)] =>
      let m' := fresh "m" in
      destruct (claim_column_head cols pats t (c, "energy_added_kwh") m) as [m' ->]
  end.
  unfold has_col, rename. cbn [columns]. apply bool_decide_eq_true.
  apply list_elem_of_In, in_map_iff. exists c. split; [|by apply list_elem_of_In].
  unfold rename_label. cbn [find fst]. by rewrite String.eqb_refl.
Qed.

Definition generic_table : DataFrame :=
  mkDataFrame ["Day"; "Energy used"; "Price"]
    [list_to_map [("Day", CStr "2024-03-01"); ("Energy used", CStr "12.5");
                  ("Price", CStr "3.10")]].

Lemma generic_format_has_energy_column_witness :
  has_col "energy_added_kwh" (_normalize_columns generic_table "generic") = true.
Proof. apply generic_format_has_energy_column. vm_compute. reflexivity. Defined.

(** *** Quality *)

(** A fraction: a finite value from 0 to 1. *)
Definition fraction (x : pyfloat) : Prop := exists q, x = Fin q /\ (0 <= q <= 1)%Q.

Lemma fold_fadd_fractions (l : list pyfloat) (a : Q) :
  Forall fraction l ->
  exists s, fold_left fadd l (Fin a) = Fin s /\
            (a <= s <= a + inject_Z (Z.of_nat (length l)))%Q.
Proof.
  intros Hl. revert a. induction Hl as [|x l (q & -> & Hq) _ IH]; intros a.
  - exists a. split; [done|]. cbn [length]. change (inject_Z (Z.of_nat 0)) with 0%Q. lra.
  - cbn [fold_left fadd]. unfold fin. destruct (IH (Qred (a + q))) as (s & -> & Hs).
    exists s. split; [done|]. rewrite Qred_correct in Hs.
    rewrite length_cons, Nat2Z.inj_succ. unfold Z.succ. rewrite inject_Z_plus.
    change (inject_Z 1) with 1%Q. lra.
Qed.

Lemma fmean_fraction (l : list pyfloat) :
  Forall (fun x => x = NaN \/ fraction x) l -> fmean l = NaN \/ fraction (fmean l).
Proof.
  intros Hl. unfold fmean. cbv zeta.
  assert (Hl' : Forall fraction (List.filter (fun x => negb (is_nan x)) l)).
  { apply Forall_forall. intros x Hx.
    apply list_elem_of_In, filter_In in Hx as [Hx Hn].
    rewrite Forall_forall in Hl.
    destruct (Hl x) as [->|?]; [by apply list_elem_of_In|done|done]. }
  destruct (List.filter _ l) as [|y l0]; [by left|]. right.
  destruct (fold_fadd_fractions (y :: l0) 0 Hl') as (s & Hs & Hb).
  unfold fzero. rewrite Hs.
  assert (Hn : (0 < inject_Z (Z.of_nat (length (y :: l0))))%Q).
  { change 0%Q with (inject_Z 0). rewrite <- Zlt_Qlt. rewrite length_cons. lia. }
  unfold of_Z, fdiv. destruct (Qeq_bool _ 0) eqn:Ez.
  { apply Qeq_bool_iff in Ez. lra. }
  exists (Qred (s / inject_Z (Z.of_nat (length (y :: l0))))). split; [done|].
  rewrite Qred_correct. split.
  - apply Qle_shift_div_l; [done|]. lra.
  - apply Qle_shift_div_r; [done|]. lra.
Qed.

Lemma notna_fraction_fraction (c : string) (d : DataFrame) :
  notna_fraction c d = NaN \/ fraction (notna_fraction c d).
Proof.
  unfold notna_fraction. apply fmean_fraction, Forall_forall.
  intros x Hx. apply list_elem_of_In, in_map_iff in Hx as (y & <- & _). right.
  destruct (notna y); [exists 1%Q | exists 0%Q]; split; try done; lra.
Qed.

Lemma completeness_fraction (d : DataFrame) (cols : list string) :
  completeness d cols = NaN \/ fraction (completeness d cols).
Proof.
  unfold completeness. cbv zeta. destruct (List.filter _ cols) as [|c l].
  - right. exists 0%Q. split; [done|]. lra.
  - apply fmean_fraction, Forall_forall. intros x Hx.
    apply list_elem_of_In, in_map_iff in Hx as (y & <- & _). apply notna_fraction_fraction.
Qed.

(** X7.  A table without any of the optional columns is rated [FAIR] at best:
    the required columns carry 0.7 of the score. *)
Theorem quality_without_optional_columns (d : DataFrame) :
  Forall (fun c => has_col c d = false) OPTIONAL_COLUMNS ->
  _assess_data_quality d = FAIR \/ _assess_data_quality d = POOR.
Proof.
  intros Hopt. unfold _assess_data_quality. destruct (df_empty d); [by right|]. cbv zeta.
  assert (Ho : completeness d OPTIONAL_COLUMNS = fzero).
  { unfold completeness. cbv zeta.
    replace (List.filter (fun c => has_col c d) OPTIONAL_COLUMNS) with (@nil string); [done|].
    induction Hopt as [|c l Hc _ IH]; simpl; [done|]. by rewrite Hc. }
  rewrite Ho.
  assert (H95 : dec 95 2 = Fin (19 # 20)) by (vm_compute; reflexivity).
  assert (H85 : dec 85 2 = Fin (17 # 20)) by (vm_compute; reflexivity).
  assert (H7 : dec 7 1 = Fin (7 # 10)) by (vm_compute; reflexivity).
  assert (H3 : dec 3 1 = Fin (3 # 10)) by (vm_compute; reflexivity).
  rewrite H95, H85, H7, H3.
  destruct (completeness_fraction d REQUIRED_COLUMNS) as [->|(q & -> & Hq)].
  { cbn. by right. }
  unfold fzero. cbn [fmul fadd fin fge fle].
  assert (Hv : (Qred (Qred ((7 # 10) * q) + Qred ((3 # 10) * 0)) <= 7 # 10)%Q).
  { rewrite !Qred_correct. lra. }
  destruct (Qle_bool (19 # 20) _) eqn:E1.
  { apply Qle_bool_iff in E1. lra. }
  destruct (Qle_bool (17 # 20) _) eqn:E2.
  { apply Qle_bool_iff in E2. lra. }
  match goal with |- context [if ?b then _ else _] => destruct b end; [by left | by right].
Qed.

Definition required_only : DataFrame :=
  mkDataFrame ["session_date"; "energy_added_kwh"; "total_cost"]
    [list_to_map [("session_date", CTime (mkTimestamp 1709251200000000000 None));
                  ("energy_added_kwh", CNum (of_Z 30)); ("total_cost", CNum (of_Z 9))]].

Lemma quality_without_optional_columns_witness :
  _assess_data_quality required_only = FAIR \/ _assess_data_quality required_only = POOR.
Proof.
  apply quality_without_optional_columns. unfold OPTIONAL_COLUMNS.
  repeat constructor.
Defined.

End ProcessorExtras.

(** ** The calculator from outside *)

Module CalculatorExtras.
Import ChargingEfficiencyCalculator TrendFacts AnalysisFacts.

(** *** Ratings *)

Lemma fle_trans (x y z : pyfloat) : fle x y = true -> fle y z = true -> fle x z = true.
Proof.
  destruct x as [a| | |], y as [b| | |], z as [c| | |]; simpl; try done.
  intros H1%Qle_bool_iff H2%Qle_bool_iff. apply Qle_bool_iff. lra.
Qed.

(** The place of a rating, best first. *)
Definition rating_rank (label : string) : nat :=
  if String.eqb label "excellent" then 0
  else if String.eqb label "good" then 1
  else if String.eqb label "fair" then 2
  else 3.

Lemma rate_efficiency_cases (x : pyfloat) :
  _rate_efficiency x =
  if fle x (dec 12 2) then "excellent"
  else if fle x (dec 20 2) then "good"
  else if fle x (dec 35 2) then "fair"
  else "poor".
Proof.
  unfold _rate_efficiency, EFFICIENCY_THRESHOLDS. cbn [find snd fst].
  destruct (fle x (dec 12 2)); [done|]. destruct (fle x (dec 20 2)); [done|].
  destruct (fle x (dec 35 2)); [done|]. by destruct (fle x PInf).
Qed.

(** X8.  A higher cost per kWh never gets a better rating. *)
Theorem rate_efficiency_monotone (x y : pyfloat) :
  fle x y = true ->
  (rating_rank (_rate_efficiency x) <= rating_rank (_rate_efficiency y))%nat.
Proof.
  intros Hxy. rewrite !rate_efficiency_cases.
  assert (R0 : rating_rank "excellent" = 0%nat) by reflexivity.
  assert (R1 : rating_rank "good" = 1%nat) by reflexivity.
  assert (R2 : rating_rank "fair" = 2%nat) by reflexivity.
  assert (R3 : rating_rank "poor" = 3%nat) by reflexivity.
  destruct (fle y (dec 12 2)) eqn:Y1.
  { rewrite (fle_trans x y _ Hxy Y1). done. }
  destruct (fle y (dec 20 2)) eqn:Y2.
  { destruct (fle x (dec 12 2)); [lia|]. rewrite (fle_trans x y _ Hxy Y2). done. }
  destruct (fle y (dec 35 2)) eqn:Y3.
  { destruct (fle x (dec 12 2)); [lia|]. destruct (fle x (dec 20 2)); [lia|].
    rewrite (fle_trans x y _ Hxy Y3). done. }
  destruct (fle x (dec 12 2)); [lia|]. destruct (fle x (dec 20 2)); [lia|].
  destruct (fle x (dec 35 2)); lia.
Qed.

Lemma rate_efficiency_monotone_witness :
  (rating_rank (_rate_efficiency (dec 12 2)) <= rating_rank (_rate_efficiency (dec 121 3)))%nat.
Proof. apply rate_efficiency_monotone. vm_compute. reflexivity. Defined.

(** *** Classification *)

(** X9.  [categorize_charger_type] raises for [pd.NA] and for nothing else. *)
Theorem categorize_charger_type_raises_on_NA_only
    (info : cell) (energy : pyfloat) (duration : option pyfloat) :
  match categorize_charger_type info energy duration with
  | Ok _ => info <> CNA
  | Raise e => info = CNA /\ e = TypeError "boolean value of NA is ambiguous"
  end.
Proof.
  unfold categorize_charger_type.
  destruct (info_text info) as [txt|e] eqn:Ei.
  - assert (Hi : info <> CNA) by (intros ->; discriminate Ei).
    cbn [mbind outcome_bind]. cbv zeta.
    destruct (re_search _ _); [done|]. destruct (re_search _ _); [done|].
    destruct (re_search _ _); [done|]. destruct (re_search _ _); [done|].
    destruct duration as [dm|]; [|done].
    destruct (truthy (Some dm)) eqn:Et; [|done].
    destruct (fgt dm fzero) eqn:Ed; [|done]. destruct (fgt energy fzero); [|done].
    cbn [andb]. rewrite truediv_nonzero by (by apply fgt_zero_nonzero).
    cbn [mbind outcome_bind].
    repeat (match goal with |- context [if ?b then _ else _] => destruct b end); exact Hi.
  - destruct info; try discriminate Ei. by injection Ei as <-.
Qed.

(** X10.  Without a label the class comes from the implied power, energy times 60
    over the minutes: above 120 kW a supercharger, above 80 DC fast, above
    15 public AC, else home AC; and [UNKNOWN] when the duration is missing
    or not positive or the energy is not positive. *)
Theorem categorize_charger_type_by_power
    (info : cell) (energy : pyfloat) (duration : option pyfloat) :
  info_text info = Ok "" ->
  categorize_charger_type info energy duration =
  Ok match duration with
     | Some dm =>
         if fgt dm fzero && fgt energy fzero then
           let power_kw := fdiv (fmul energy (of_Z 60)) dm in
           if fgt power_kw (of_Z 120) then SUPERCHARGER
           else if fgt power_kw (of_Z 80) then DC_FAST
           else if fgt power_kw (of_Z 15) then PUBLIC_AC
           else HOME_AC
         else UNKNOWN
     | None => UNKNOWN
     end.
Proof.
  intros Hi. unfold categorize_charger_type. rewrite Hi. cbn [mbind outcome_bind]. cbv zeta.
  change (lower "") with "".
  replace (re_search _ "") with false by (vm_compute; reflexivity).
  replace (re_search _ "") with false by (vm_compute; reflexivity).
  replace (re_search _ "") with false by (vm_compute; reflexivity).
  replace (re_search _ "") with false by (vm_compute; reflexivity).
  destruct duration as [dm|]; [|done].
  destruct (fgt dm fzero) eqn:Ed; [|by rewrite andb_false_r].
  assert (Et : truthy (Some dm) = true).
  { unfold truthy. by rewrite fgt_zero_nonzero. }
  rewrite Et. cbn [andb]. destruct (fgt energy fzero); [|done].
  rewrite truediv_nonzero by (by apply fgt_zero_nonzero). cbn [mbind outcome_bind].
  cbv zeta. repeat (match goal with |- context [if ?b then _ else _] => destruct b end); reflexivity.
Qed.

Lemma categorize_charger_type_by_power_witness :
  categorize_charger_type CNone (of_Z 60) (Some (of_Z 30)) = Ok DC_FAST.
Proof. rewrite categorize_charger_type_by_power; [|reflexivity]. vm_compute. reflexivity. Defined.

(** *** Savings *)

Lemma fmax_zero_cases (y : pyfloat) :
  fmax fzero y = PInf \/ exists q, fmax fzero y = Fin q /\ (0 <= q)%Q.
Proof.
  unfold fmax. destruct (fgt y fzero) eqn:E.
  - destruct y as [q| | |]; try done; [|by left]. right. exists q. split; [done|].
    simpl in E. apply Qlt_bool_iff in E. lra.
  - right. exists 0%Q. split; [done|]. lra.
Qed.

Lemma fmul_not_negative (x y : pyfloat) :
  flt x fzero = false -> flt y fzero = false -> flt (fmul x y) fzero = false.
Proof.
  destruct x as [p| | |], y as [q| | |]; try done.
  - cbn [flt fzero fmul fin]. unfold Qlt_bool. rewrite !negb_false_iff, !Qle_bool_iff.
    intros Hp Hq. rewrite Qred_correct. by apply Qmult_le_0_compat.
  - cbn [flt fzero fmul fsgn]. unfold Qlt_bool, Qsgn. rewrite negb_false_iff, Qle_bool_iff.
    intros Hp _. unfold Qle in Hp. cbn [Qnum Qden] in Hp.
    destruct (Qnum p); first [done | lia].
  - cbn [flt fzero fmul fsgn]. unfold Qlt_bool, Qsgn. rewrite negb_false_iff, Qle_bool_iff.
    intros _ Hq. unfold Qle in Hq. cbn [Qnum Qden] in Hq.
    destruct (Qnum q); first [done | lia].
Qed.

Lemma above_not_below (x : pyfloat) : fle x fzero = false -> flt x fzero = false.
Proof.
  destruct x as [q| | |]; try done. cbn [fle flt fzero]. unfold Qlt_bool.
  rewrite negb_false_iff. intros H%not_true_iff_false. apply Qle_bool_iff.
  rewrite Qle_bool_iff in H. lra.
Qed.

Lemma fmax_zero_not_negative (y : pyfloat) : flt (fmax fzero y) fzero = false.
Proof.
  unfold fmax, fgt. destruct (flt fzero y) eqn:E; [|done].
  destruct y as [q| | |]; try done. revert E. cbn [flt fzero]. unfold Qlt_bool.
  rewrite negb_true_iff, negb_false_iff. intros H%not_true_iff_false. apply Qle_bool_iff.
  rewrite Qle_bool_iff in H. lra.
Qed.

(** X11.  The savings estimate is never negative, whatever the analysis and
    the total energy: it is 0, a positive number, an infinity or [nan]. *)
Theorem annual_savings_potential_nonneg (a : EfficiencyAnalysis) (total : pyfloat) :
  flt (_annual_savings_potential a total) fzero = false.
Proof.
  unfold _annual_savings_potential.
  destruct (map _ (by_charger_type a)) as [|c cs]; [done|].
  destruct (fle total fzero) eqn:Eq; [done|]. cbv zeta.
  apply fmul_not_negative; [|by vm_compute].
  apply fmul_not_negative; [apply fmax_zero_not_negative|].
  apply fmul_not_negative; [by apply above_not_below | by vm_compute].
Qed.

(** *** Rejected inputs *)

Lemma filter_none {A} (p : A -> bool) (l : list A) :
  Forall (fun x => p x = false) l -> List.filter p l = [].
Proof. induction 1 as [|x l Hx _ IH]; simpl; [done|]. by rewrite Hx. Qed.

Lemma working_copy_rows (parse_datetime : date_parser) (d work : DataFrame) :
  working_copy parse_datetime d = Ok work ->
  Forall (fun r => fgt (cell_to_numeric (at_col "energy_added_kwh" r)) fzero = false) (rows d) ->
  rows work = [].
Proof.
  unfold working_copy, need_col.
  destruct (has_col "energy_added_kwh" d); cbn [mbind outcome_bind]; [|discriminate].
  rewrite !has_col_map_col.
  destruct (has_col "total_cost" d); cbn [mbind outcome_bind]; [|discriminate].
  intros Hw Hall. apply ProcessorExtras.Ok_inj in Hw. subst work. unfold filter_rows. cbn [rows].
  apply filter_none.
  { set (step2 := map_col "total_cost" _ _).
    assert (Hen : forall W, Forall (fun r => fgt (cell_float (at_col "energy_added_kwh" r)) fzero = false) (rows W) ->
               Forall (fun r => fgt (cell_float (at_col "energy_added_kwh" r)) fzero &&
                                fge (cell_float (at_col "total_cost" r)) fzero = false) (rows W)).
    { intros W HW. eapply Forall_impl; [exact HW|]. cbv beta. by intros r ->. }
    apply Hen.
    assert (H1 : Forall (fun r => fgt (cell_float (at_col "energy_added_kwh" r)) fzero = false)
                   (rows (map_col "energy_added_kwh" (fun c => CNum (cell_to_numeric c)) d))).
    { unfold map_col. cbn [rows]. apply Forall_forall. intros r Hr.
      apply elem_of_map in Hr as (r0 & -> & Hr0). rewrite at_col_insert. cbn [cell_float].
      rewrite Forall_forall in Hall. by apply Hall. }
    assert (H2 : Forall (fun r => fgt (cell_float (at_col "energy_added_kwh" r)) fzero = false)
                   (rows step2)).
    { unfold step2, map_col at 1. cbn [rows]. apply Forall_forall. intros r Hr.
      apply elem_of_map in Hr as (r0 & -> & Hr0). rewrite at_col_insert_ne by done.
      rewrite Forall_forall in H1. by apply H1. }
    destruct (has_col "session_date" d); [|done].
    unfold map_series. unfold map_col at 1. cbn [rows]. apply Forall_forall. intros r Hr.
    apply elem_of_map in Hr as (r0 & -> & Hr0). rewrite at_col_insert_ne by done.
    rewrite Forall_forall in H2. by apply H2. }
Qed.

(** X12.  What [analyze_efficiency] rejects before it computes anything: an empty
    table, a table without the energy or the cost column, and a table none
    of whose rows has an energy above 0. *)
Theorem analyze_efficiency_rejects (parse_datetime : date_parser) (d : DataFrame) :
  (df_empty d = true ->
   analyze_efficiency parse_datetime d = Raise (ValueError "No data available for analysis")) /\
  (df_empty d = false -> has_col "energy_added_kwh" d = false ->
   analyze_efficiency parse_datetime d = Raise (KeyError "'energy_added_kwh'")) /\
  (df_empty d = false -> has_col "energy_added_kwh" d = true -> has_col "total_cost" d = false ->
   analyze_efficiency parse_datetime d = Raise (KeyError "'total_cost'")) /\
  (df_empty d = false -> has_col "energy_added_kwh" d = true -> has_col "total_cost" d = true ->
   Forall (fun r => fgt (cell_to_numeric (at_col "energy_added_kwh" r)) fzero = false) (rows d) ->
   analyze_efficiency parse_datetime d
   = Raise (ValueError "All rows were invalid after basic normalization.")).
Proof.
  rewrite analyze_efficiency_outcome. unfold build_analysis.
  split; [by intros ->|]. split; [|split].
  - intros -> H. unfold working_copy, need_col. by rewrite H.
  - intros -> H1 H2. unfold working_copy, need_col. rewrite H1. cbn [mbind outcome_bind].
    by rewrite !has_col_map_col, H2.
  - intros -> H1 H2 Hall.
    destruct (working_copy parse_datetime d) as [work|e] eqn:Ew.
    + cbn [mbind outcome_bind]. unfold df_empty.
      by rewrite (working_copy_rows parse_datetime d work Ew Hall).
    + exfalso. revert Ew. unfold working_copy, need_col. rewrite H1. cbn [mbind outcome_bind].
      by rewrite !has_col_map_col, H2.
Qed.

(** *** Patterns *)

Lemma ts_hour_range (t : Timestamp) : 0 <= ts_hour t <= 23.
Proof.
  unfold ts_hour. pose proof (Z.mod_pos_bound (wall t) 86400 eq_refl) as H.
  split; [apply Z.div_pos; lia|].
  assert (wall t mod 86400 / 3600 < 24); [|lia].
  apply Z.div_lt_upper_bound; lia.
Qed.

Lemma first_seen_elem {A} `{EqDecision A} (seen l : list A) (x : A) :
  x ∈ first_seen seen l -> x ∈ l.
Proof.
  revert seen. induction l as [|y l IH]; intros seen; cbn [first_seen]; [done|].
  case_bool_decide.
  - intros H'. right. by eapply IH.
  - intros [->|H']%elem_of_cons; [left | right; by eapply IH].
Qed.

Lemma value_counts_keys {A} `{EqDecision A} (l : list A) (x : A) :
  x ∈ map fst (value_counts l) -> x ∈ l.
Proof.
  intros Hx. apply elem_of_map in Hx as ([v n] & -> & Hv). unfold value_counts in Hv.
  apply sort_by_elem, elem_of_map in Hv as (w & [= -> ->] & Hw).
  cbn [fst]. by eapply first_seen_elem.
Qed.

Lemma guarded_not_nan (x : pyfloat) : is_nan (if is_nan x then fzero else x) = false.
Proof. by destruct x. Qed.

Lemma elem_of_firstn {A} (n : nat) (l : list A) (x : A) : x ∈ firstn n l -> x ∈ l.
Proof. intros (i & Hi & _)%elem_of_take. by eapply list_elem_of_lookup_2. Qed.

(** X13.  [analyze_charging_patterns] raises only for a table without the energy
    column.  What it returns has an average energy that is a number, one to
    three preferred charger types, at most three peak hours, each from 0 to
    23, and a weekend ratio that is not negative. *)
Theorem charging_patterns_shape (parse_datetime : date_parser) (d : DataFrame) :
  match analyze_charging_patterns parse_datetime d with
  | Ok p =>
      has_col "energy_added_kwh" d = true /\
      is_nan (avg_session_energy p) = false /\
      (1 <= length (preferred_charger_types p) <= 3)%nat /\
      (length (peak_usage_hours p) <= 3)%nat /\
      Forall (fun h => 0 <= h <= 23) (peak_usage_hours p) /\
      fge (weekend_vs_weekday_ratio p) fzero = true
  | Raise e => has_col "energy_added_kwh" d = false /\ e = KeyError "'energy_added_kwh'"
  end.
Proof.
  unfold analyze_charging_patterns, need_col.
  destruct (has_col "energy_added_kwh" d); [|done]. cbn [mbind outcome_bind]. cbv zeta.
  destruct (has_col "session_date" d).
  - cbn [avg_session_energy preferred_charger_types peak_usage_hours weekend_vs_weekday_ratio].
    split; [done|]. split; [apply guarded_not_nan|]. split; [|split; [|split]].
    + destruct (has_col "charger_type_category" d); [|cbn; lia].
      destruct (value_counts _) as [|c cs]; [cbn; lia|].
      rewrite length_map, length_take. cbn [length]. lia.
    + rewrite length_map. apply firstn_le_length.
    + apply Forall_forall. intros h Hh.
      apply elem_of_map in Hh as ([h' n] & -> & Hh). apply elem_of_firstn, sort_by_elem in Hh.
      assert (Hk : h' ∈ map fst (value_counts
                (map ts_hour (omap (fun c => cell_time (_to_datetime parse_datetime
                                                              (column "session_date" d) c))
                                   (column "session_date" d))))).
      { apply elem_of_map. exists (h', n). by split. }
      apply value_counts_keys, elem_of_map in Hk as (t & -> & _). apply ts_hour_range.
    + destruct (0 <? _)%nat eqn:Ew; [|done].
      apply Nat.ltb_lt in Ew. unfold of_Z, fdiv.
      destruct (Qeq_bool _ 0) eqn:Ez.
      { apply Qeq_bool_iff in Ez. exfalso. revert Ez. change 0%Q with (inject_Z 0).
        rewrite inject_Z_injective. lia. }
      cbn [fin fge fle fzero]. apply Qle_bool_iff. rewrite Qred_correct.
      apply Qle_shift_div_l.
      * change 0%Q with (inject_Z 0). rewrite <- Zlt_Qlt. lia.
      * rewrite Qmult_0_l. change 0%Q with (inject_Z 0). rewrite <- Zle_Qle. lia.
  - cbn [avg_session_energy preferred_charger_types peak_usage_hours weekend_vs_weekday_ratio].
    split; [done|]. split; [apply guarded_not_nan|]. split; [|split; [|split]].
    + destruct (has_col "charger_type_category" d); [|cbn; lia].
      destruct (value_counts _) as [|c cs]; [cbn; lia|].
      rewrite length_map, length_take. cbn [length]. lia.
    + cbn. lia.
    + constructor.
    + done.
Qed.

(** *** Locations *)

Lemma dict_set_Forall {V} (Q : string * V -> Prop) (k : string) (v : V) (d : list (string * V)) :
  Q (k, v) -> Forall Q d -> Forall Q (dict_set k v d).
Proof.
  intros Hk Hd. induction Hd as [|[k' v'] d Hx Hd IH]; cbn [dict_set].
  - by constructor.
  - destruct (String.eqb k' k); constructor; done.
Qed.

Lemma foldl_invariant {A B} (f : outcome B -> A -> outcome B) (P : B -> Prop)
    (R : A -> Prop) (l : list A) :
  (forall acc x b', R x -> (forall b, acc = Ok b -> P b) -> f acc x = Ok b' -> P b') ->
  Forall R l ->
  forall acc b', (forall b, acc = Ok b -> P b) -> foldl f acc l = Ok b' -> P b'.
Proof.
  intros Hstep Hl. induction Hl as [|x l Hx _ IH]; intros acc b' Hacc; simpl.
  - intros E. by apply Hacc.
  - apply IH. intros b E. exact (Hstep acc x b Hx Hacc E).
Qed.

(** X14.  What [by_location] reports comes from a group of sessions whose
    location has a name and whose energy is at least 5% of the total. *)
Theorem by_location_threshold (work : DataFrame) (total : pyfloat)
    (m : list (string * EfficiencyMetric)) :
  by_location_metrics work total = Ok m ->
  Forall (fun kv =>
            fst kv <> "" /\
            exists g, g ∈ groups "location_name" (rows work) /\
                      strip (fst g) = fst kv /\
                      fge (sum_col "energy_added_kwh" (snd g)) (fmul (dec 5 2) total) = true) m.
Proof.
  unfold by_location_metrics. destruct (has_col "location_name" work).
  2: { intros E. apply ProcessorExtras.Ok_inj in E. subst m. constructor. }
  cbv zeta.
  apply (foldl_invariant _ _ (fun g => g ∈ groups "location_name" (rows work))).
  - intros acc g b' Hg Hacc. destruct acc as [by_loc|e]; [|discriminate].
    cbn [mbind outcome_bind].
    destruct (negb (String.eqb (strip (fst g)) "")) eqn:En; cbn [andb].
    2: { intros E. apply ProcessorExtras.Ok_inj in E. subst b'. by apply Hacc. }
    destruct (fge _ _) eqn:Ee.
    2: { intros E. apply ProcessorExtras.Ok_inj in E. subst b'. by apply Hacc. }
    destruct (calculate_efficiency_metrics _ _ _) as [mt|e]; [|discriminate].
    cbn [mbind outcome_bind]. intros E. apply ProcessorExtras.Ok_inj in E. subst b'.
    apply dict_set_Forall; [|by apply Hacc]. cbn [fst]. split.
    + apply negb_true_iff, String.eqb_neq in En. exact En.
    + exists g. by repeat split.
  - by apply Forall_forall.
  - intros b E. apply ProcessorExtras.Ok_inj in E. subst b. constructor.
Qed.

Definition location_table : DataFrame :=
  mkDataFrame ["location_name"; "energy_added_kwh"; "total_cost"]
    [ list_to_map [("location_name", CStr "Home"); ("energy_added_kwh", CNum (of_Z 50));
                   ("total_cost", CNum (of_Z 6))];
      list_to_map [("location_name", CStr "Mall"); ("energy_added_kwh", CNum (of_Z 2));
                   ("total_cost", CNum (of_Z 1))] ].

Lemma by_location_threshold_witness :
  exists m, by_location_metrics location_table (of_Z 52) = Ok m /\
    map fst m = ["Home"] /\
    Forall (fun kv =>
              fst kv <> "" /\
              exists g, g ∈ groups "location_name" (rows location_table) /\
                        strip (fst g) = fst kv /\
                        fge (sum_col "energy_added_kwh" (snd g)) (fmul (dec 5 2) (of_Z 52))
                        = true) m.
Proof.
  destruct (by_location_metrics location_table (of_Z 52)) as [m|e] eqn:E;
    [|vm_compute in E; discriminate E].
  exists m. split; [done|]. split.
  - assert (H : (map fst <$> by_location_metrics location_table (of_Z 52)) = Ok ["Home"])
      by (vm_compute; reflexivity).
    rewrite E in H. by injection H.
  - exact (by_location_threshold location_table (of_Z 52) m E).
Defined.

(** *** Categories *)

Definition CATEGORY_VALUES : list cell :=
  map (fun t => CStr (ChargerType_value t)) [HOME_AC; PUBLIC_AC; DC_FAST; SUPERCHARGER; UNKNOWN].

Lemma mapM_Forall {A B} (f : A -> outcome B) (Q : B -> Prop) (l : list A) (ys : list B) :
  (forall x y, f x = Ok y -> Q y) -> mapM f l = Ok ys -> Forall Q ys.
Proof.
  intros Hf. revert ys. induction l as [|x l IH]; intros ys; cbn [mapM].
  - intros E. apply ProcessorExtras.Ok_inj in E. subst ys. constructor.
  - destruct (f x) as [y|] eqn:Ex; [|discriminate]. cbn [mbind outcome_bind].
    destruct (mapM f l) as [ys'|]; [|discriminate]. cbn [mbind outcome_bind].
    intros E. apply ProcessorExtras.Ok_inj in E. subst ys. constructor; eauto.
Qed.

Lemma row_category_value (has_duration : bool) (r : Row) (c : cell) :
  row_category has_duration r = Ok c -> c ∈ CATEGORY_VALUES.
Proof.
  unfold row_category.
  destruct (cell_py_float (at_col "energy_added_kwh" r)) as [energy|];
    cbn [mbind outcome_bind]; [|discriminate].
  set (dur := if has_duration && notna (at_col "charging_duration_minutes" r) then _ else _).
  destruct dur as [duration|]; cbn [mbind outcome_bind]; [|discriminate].
  destruct (categorize_charger_type _ _ _) as [ct|]; cbn [mbind outcome_bind]; [|discriminate].
  intros E. apply ProcessorExtras.Ok_inj in E. subst c.
  unfold CATEGORY_VALUES. destruct ct; cbn [map]; repeat constructor.
Qed.

Lemma column_zip_inserted (k : string) (rs : list Row) (cs : list cell) :
  length cs = length rs ->
  map (at_col k) (zip_with (fun r x => <[k := x]> r) rs cs) = cs.
Proof.
  revert cs. induction rs as [|r rs IH]; intros [|x cs]; simpl; try done.
  intros [= Hlen]. by rewrite at_col_insert, IH.
Qed.

(** X15.  When the table has a [charger_type] column and the categorization goes
    through, the table keeps its rows and gets a [charger_type_category]
    column whose every cell is the value of one of the five charger
    types. *)
Theorem with_categories_labels (work w : DataFrame) :
  has_col "charger_type" work = true ->
  with_categories work = Ok w ->
  df_len w = df_len work /\
  has_col "charger_type_category" w = true /\
  Forall (fun c => c ∈ CATEGORY_VALUES) (column "charger_type_category" w).
Proof.
  intros Hc. unfold with_categories. rewrite Hc.
  destruct (mapM _ (rows work)) as [cats|] eqn:Hcats; [|discriminate].
  cbn [mbind outcome_bind]. intros E. apply ProcessorExtras.Ok_inj in E. subst w.
  pose proof (mapM_length _ _ _ Hcats) as Hlen.
  split; [|split].
  - unfold df_len. cbn [rows]. rewrite length_zip_with. lia.
  - unfold has_col at 1. cbn [columns]. apply bool_decide_eq_true.
    destruct (has_col "charger_type_category" work) eqn:Ek.
    + by apply bool_decide_eq_true in Ek.
    + apply elem_of_app. right. left.
  - unfold column. cbn [rows]. rewrite column_zip_inserted by done.
    eapply mapM_Forall; [|exact Hcats]. intros r c. apply row_category_value.
Qed.

Definition typed_table : DataFrame :=
  mkDataFrame ["charger_type"; "energy_added_kwh"; "charging_duration_minutes"]
    [ list_to_map [("charger_type", CStr "Tesla Supercharger V3");
                   ("energy_added_kwh", CNum (of_Z 40));
                   ("charging_duration_minutes", CNum (of_Z 20))];
      list_to_map [("charger_type", CNone); ("energy_added_kwh", CNum (of_Z 10));
                   ("charging_duration_minutes", CNum (of_Z 90))] ].

Lemma with_categories_labels_witness :
  exists w, with_categories typed_table = Ok w /\
    column "charger_type_category" w = [CStr "supercharger"; CStr "home_ac"] /\
    df_len w = df_len typed_table /\
    has_col "charger_type_category" w = true /\
    Forall (fun c => c ∈ CATEGORY_VALUES) (column "charger_type_category" w).
Proof.
  destruct (with_categories typed_table) as [w|e] eqn:E; [|vm_compute in E; discriminate E].
  exists w. split; [done|]. split.
  - assert (H : (column "charger_type_category" <$> with_categories typed_table)
                = Ok [CStr "supercharger"; CStr "home_ac"]) by (vm_compute; reflexivity).
    rewrite E in H. by injection H.
  - exact (with_categories_labels typed_table w eq_refl E).
Defined.

End CalculatorExtras.

(** ** The router *)

Module RouterFacts.
Import TeslaCSVProcessor ChargingEfficiencyCalculator ChargingAnalysisRouter.
Import ProcessorFacts AnalysisFacts.

(** *** Filters *)

Lemma filter_filter {A} (p q : A -> bool) (l : list A) :
  List.filter q (List.filter p l) = List.filter (fun x => p x && q x) l.
Proof.
  induction l as [|x l IH]; simpl; [done|].
  destruct (p x); simpl; [destruct (q x)|]; by rewrite IH.
Qed.

Lemma filter_ext_bool {A} (p q : A -> bool) (l : list A) :
  (forall x, p x = q x) -> List.filter p l = List.filter q l.
Proof. intros H. induction l as [|x l IH]; simpl; [done|]. by rewrite H, IH. Qed.

Lemma filter_true {A} (l : list A) : List.filter (fun _ => true) l = l.
Proof. induction l as [|x l IH]; simpl; [done|]. by rewrite IH. Qed.

Section Filters.
Variable parse_datetime : date_parser.

(** A row is inside the window of a request: its date, read as a UTC
    instant, is not before the start and not after the end, where given. *)
Definition in_window (d : DataFrame) (req : AnalysisRequest) (r : Row) : bool :=
  match _to_datetime parse_datetime (column "session_date" d) (at_col "session_date" r) with
  | CTime t =>
      match date_range_start req with
      | Some b => ts_value b <=? ts_value t
      | None => true
      end &&
      match date_range_end req with
      | Some b => ts_value t <=? ts_value b
      | None => true
      end
  | _ => false
  end.

(** A row is at one of the locations asked for. *)
Definition at_location (req : AnalysisRequest) (r : Row) : bool :=
  match at_col "location_name" r with
  | CStr s => bool_decide (s ∈ default [] (location_filter req))
  | _ => false
  end.

(** What a request asks of a row of table [d]. *)
Definition passes (d : DataFrame) (req : AnalysisRequest) (r : Row) : bool :=
  (if has_col "session_date" d && (given (date_range_start req) || given (date_range_end req))
   then in_window d req r else true) &&
  (if has_col "location_name" d &&
      match location_filter req with Some (_ :: _) => true | _ => false end
   then at_location req r else true).

Lemma apply_filters_filter (d : DataFrame) (req : AnalysisRequest) :
  _apply_filters parse_datetime d req = filter_rows (passes d req) d.
Proof.
  unfold _apply_filters, passes. cbv zeta.
  assert (Hid : forall X : DataFrame, X = filter_rows (fun _ => true) X).
  { intros [cs rs]. unfold filter_rows. cbn [columns rows]. by rewrite filter_true. }
  assert (Hff : forall p q X, filter_rows q (filter_rows p X)
                              = filter_rows (fun r => p r && q r) X).
  { intros p q X. unfold filter_rows. cbn [columns rows]. by rewrite filter_filter. }
  assert (Hext : forall p q X, (forall r, p r = q r) -> filter_rows p X = filter_rows q X).
  { intros p q X H. unfold filter_rows. f_equal. by apply filter_ext_bool. }
  set (dated := has_col "session_date" d &&
                (given (date_range_start req) || given (date_range_end req))).
  set (D := if dated then _ else d).
  assert (HD : D = filter_rows (fun r => if dated then in_window d req r else true) d).
  { unfold D. destruct dated eqn:Ed; [|apply Hid].
    unfold in_window, on_or_after, on_or_before, to_utc_naive. cbn [ts_value].
    destruct (date_range_start req) as [b1|], (date_range_end req) as [b2|].
    - rewrite Hff. apply Hext. intros r. by destruct (_to_datetime _ _ _).
    - apply Hext. intros r. destruct (_to_datetime _ _ _); try done. by rewrite andb_true_r.
    - apply Hext. intros r. by destruct (_to_datetime _ _ _).
    - unfold dated in Ed. cbn in Ed. by rewrite andb_false_r in Ed. }
  assert (Hc : forall c, has_col c D = has_col c d).
  { intros c. by rewrite HD. }
  rewrite Hc. rewrite HD.
  destruct (location_filter req) as [[|v vs]|] eqn:El.
  - rewrite andb_false_r. apply Hext. intros r. by rewrite andb_true_r.
  - destruct (has_col "location_name" d); cbn [andb].
    + rewrite Hff. apply Hext. intros r. f_equal. unfold at_location, isin. by rewrite El.
    + apply Hext. intros r. by rewrite andb_true_r.
  - rewrite andb_false_r. apply Hext. intros r. by rewrite andb_true_r.
Qed.

(** X16.  [_apply_filters] keeps the columns and keeps exactly the rows that pass
    the request: dated inside the window when the table has dates and a
    bound is given, located at one of the places asked for when the table
    has locations and the list is not empty.  A row without a readable date
    does not pass a date bound. *)
Theorem apply_filters_keeps_passing_rows (d : DataFrame) (req : AnalysisRequest) :
  columns (_apply_filters parse_datetime d req) = columns d /\
  rows (_apply_filters parse_datetime d req) = List.filter (passes d req) (rows d).
Proof. by rewrite apply_filters_filter. Qed.

(** A timestamp reads the same in whatever column it stands. *)
Lemma to_datetime_time_cell (series series' : list cell) (c : cell) :
  CleaningFacts.time_cell c ->
  _to_datetime parse_datetime series c = _to_datetime parse_datetime series' c.
Proof. by intros [-> | [t ->]]. Qed.

(** X17.  On a table whose [session_date] column holds timestamps or [NaT],
    as the cleaner leaves it, filtering twice by one request is filtering
    once. *)
Theorem apply_filters_twice (d : DataFrame) (req : AnalysisRequest) :
  (has_col "session_date" d = true -> Forall CleaningFacts.time_cell (column "session_date" d)) ->
  _apply_filters parse_datetime (_apply_filters parse_datetime d req) req
  = _apply_filters parse_datetime d req.
Proof.
  intros Htimes.
  rewrite !apply_filters_filter. unfold filter_rows. cbn [columns rows]. f_equal.
  rewrite filter_filter. apply filter_ext_in. intros r Hr.
  set (d' := {| columns := columns d; rows := List.filter (passes d req) (rows d) |}).
  assert (E : passes d' req r = passes d req r); [|rewrite E; apply andb_diag].
  unfold passes.
  change (has_col "session_date" d') with (has_col "session_date" d).
  change (has_col "location_name" d') with (has_col "location_name" d).
  f_equal.
  destruct (has_col "session_date" d) eqn:Hd; [|done]. cbn [andb].
  destruct (_ || _); [|done].
  unfold in_window.
  rewrite (to_datetime_time_cell (column "session_date" d') (column "session_date" d)); [done|].
  specialize (Htimes eq_refl). unfold column in Htimes.
  rewrite Forall_fmap, Forall_forall in Htimes. apply Htimes. by apply list_elem_of_In.
Qed.

End Filters.

(** Two dated sessions, and a request for those from February 2024 on. *)
Definition two_dated : DataFrame :=
  mkDataFrame ["session_date"]
    [ {[ "session_date" := CTime (mkTimestamp 1705298400000000000 None) ]};
      {[ "session_date" := CTime (mkTimestamp 1709251200000000000 None) ]} ].

Definition from_february : AnalysisRequest :=
  mkAnalysisRequest false None None (Some (mkTimestamp 1706745600000000000 None)) None.

(** The first pass drops the session of January; the second drops none. *)
Lemma apply_filters_twice_witness :
  df_len two_dated = 2%nat /\
  df_len (_apply_filters iso_dates two_dated from_february) = 1%nat /\
  _apply_filters iso_dates (_apply_filters iso_dates two_dated from_february) from_february
  = _apply_filters iso_dates two_dated from_february.
Proof.
  split; [reflexivity|]. split; [vm_compute; reflexivity|].
  apply (apply_filters_twice iso_dates two_dated from_february). intros _.
  assert (E : column "session_date" two_dated
              = [ CTime (mkTimestamp 1705298400000000000 None);
                  CTime (mkTimestamp 1709251200000000000 None) ])
    by (vm_compute; reflexivity).
  rewrite E. repeat (apply Forall_cons_2; [right; eexists; reflexivity|]). apply Forall_nil_2.
Defined.

(** *** Endpoints *)

Lemma chars_append (s t : string) : chars (s +:+ t) = chars s ++ chars t.
Proof. unfold chars. induction s as [|a s IH]; [done|]. simpl. by rewrite IH. Qed.

Lemma take_while_app (p : ascii -> bool) (l1 l2 : list ascii) :
  forallb p l1 = true -> take_while p (l1 ++ l2) = l1 ++ take_while p l2.
Proof.
  induction l1 as [|a l1 IH]; simpl; [done|].
  intros [-> H]%andb_true_iff. by rewrite IH.
Qed.

Lemma split_chars_app (sep : ascii) (l s : list ascii) :
  forallb (fun c => negb (Ascii.eqb c sep)) s = true ->
  exists pre seg, split_chars sep (l ++ s) = pre ++ [seg ++ s].
Proof.
  intros Hs. induction l as [|c l (pre & seg & IH)].
  - exists [], []. cbn [app]. induction s as [|c s IHs]; [done|].
    cbn [forallb] in Hs. apply andb_true_iff in Hs as [Hc Hs].
    apply negb_true_iff in Hc. cbn [split_chars]. by rewrite Hc, (IHs Hs).
  - cbn [app split_chars]. rewrite IH. destruct (Ascii.eqb c sep).
    + by exists ([] :: pre), seg.
    + destruct pre as [|h t]; [by exists [], (c :: seg) | by exists ((c :: h) :: t), seg].
Qed.

(** The suffix of a path that ends in [.csv] is never [.gz]. *)
Lemma csv_path_suffix (stem : string) :
  String.eqb (path_suffix (stem +:+ ".csv")) ".gz" = false.
Proof.
  unfold path_suffix, path_name, path_parts. rewrite chars_append.
  destruct (split_chars_app "/"%char (chars stem) (chars ".csv") eq_refl) as (pre & seg & ->).
  rewrite List.filter_app.
  assert (Hc : path_component (seg ++ chars ".csv") = true).
  { unfold path_component. apply negb_true_iff, orb_false_iff.
    split; apply bool_decide_eq_false; intros E; apply (f_equal length) in E;
      rewrite length_app in E; cbn in E; lia. }
  cbn [List.filter]. rewrite Hc, last_last. cbv zeta.
  rewrite rev_app_distr.
  change (rev (chars ".csv")) with ["v"; "s"; "c"; "."]%char.
  change ((["v"; "s"; "c"; "."]%char) ++ rev seg)
    with ((["v"; "s"; "c"]%char) ++ "."%char :: rev seg).
  rewrite (take_while_app _ ["v"; "s"; "c"]%char) by reflexivity.
  cbn [take_while Ascii.eqb negb]. change (Ascii.eqb "." ".")%char with true.
  cbn [negb app rev length Nat.eqb orb].
  by destruct (_ <=? _)%nat.
Qed.

Section Endpoints.
Variable parse_datetime : date_parser.
Variable path_exists : string -> bool.
Variable read_csv : csv_input -> outcome DataFrame.
Variable temp_stem : outcome string.
Variable validate_csv_file : string -> flow Validation.
Variable now : string.
Variable Report : Type.
Variable generate_efficiency_report : EfficiencyAnalysis -> Report.
Variable session_fields : list string.

Abbreviation upload_endpoint :=
  (upload_charging_data parse_datetime path_exists read_csv temp_stem validate_csv_file
     now Report generate_efficiency_report).
Abbreviation sessions_endpoint :=
  (analyze_charging_sessions parse_datetime now Report generate_efficiency_report
     session_fields).

(** What the processor makes of the temporary file. *)
Lemma process_temp_file (stem : string) :
  process_csv parse_datetime path_exists read_csv (SPath (stem +:+ ".csv"))
  = Ok (failure_of
          (if path_exists (path_str (stem +:+ ".csv"))
           then TypeError "read_csv() got an unexpected keyword argument 'errors'"
           else FileNotFoundError ("No such file: " +:+ path_str (stem +:+ ".csv")))).
Proof.
  unfold process_csv, process_csv_body, _read_csv_safely. cbv zeta.
  rewrite csv_path_suffix. by destruct (path_exists _).
Qed.

Lemma analyze_efficiency_raises (d : DataFrame) :
  exists e, analyze_efficiency parse_datetime d = Raise e.
Proof.
  rewrite analyze_efficiency_outcome. destruct (build_analysis _ _); eauto.
Qed.

(** X18.  An upload that passes every check of the endpoint (a [.csv] name, a
    readable content of 1 byte to 10 MiB, a temporary file, a valid
    structure) is answered with 422, "Failed to process CSV data": the
    processor is handed the path of the temporary file, which ends in
    [.csv], and reading such a path always fails. *)
Theorem upload_of_valid_file_is_rejected
    (file : UploadFile) (req : AnalysisRequest) (content stem : string) (v : Validation) :
  ends_with ".csv" (lower (default "" (filename file))) = true ->
  read file = Ok content ->
  (0 < String.length content)%nat ->
  Z.of_nat (String.length content) <= MAX_UPLOAD_BYTES ->
  temp_stem = Ok stem ->
  validate_csv_file (stem +:+ ".csv") = Value v ->
  valid v = true ->
  exists e,
    upload_endpoint file req =
      HTTPException 422
        (DProcessing "Failed to process CSV data"
           ["Processing error: " +:+ exn_str e] [("error", MStr (exn_str e))]) /\
    (e = TypeError "read_csv() got an unexpected keyword argument 'errors'" \/
     e = FileNotFoundError ("No such file: " +:+ path_str (stem +:+ ".csv"))).
Proof.
  intros Hname Hread Hpos Hmax Hstem Hval Hvalid.
  unfold upload_charging_data. rewrite Hname, Hread. cbn [negb].
  destruct (String.length content =? 0)%nat eqn:E0; [apply Nat.eqb_eq in E0; lia|].
  destruct (MAX_UPLOAD_BYTES <? _) eqn:E1; [apply Z.ltb_lt in E1; lia|].
  unfold upload_body. rewrite Hstem. cbn [call mbind flow_bind]. rewrite Hval.
  cbn [call mbind flow_bind]. rewrite Hvalid. cbn [negb].
  rewrite process_temp_file. cbn [call mbind flow_bind].
  destruct (path_exists _); eexists; (split; [reflexivity|]); [by left | by right].
Qed.

(** X19.  The upload endpoint never responds with an analysis: every call
    ends in an [HTTPException].  Its status is 400, 422 or 500, unless
    [validate_csv_file] itself raised an [HTTPException], which the endpoint
    passes on with its own status and detail. *)
Theorem upload_never_succeeds (file : UploadFile) (req : AnalysisRequest) :
  exists status d,
    upload_endpoint file req = HTTPException status d /\
    (status ∈ [400; 422; 500] \/
     exists stem, temp_stem = Ok stem /\
                  validate_csv_file (stem +:+ ".csv") = Abort status d).
Proof.
  unfold upload_charging_data.
  destruct (negb _); [eexists _, _; split; [reflexivity | left; repeat constructor]|].
  destruct (read file) as [content|e];
    [|eexists _, _; split; [reflexivity | left; repeat constructor]].
  destruct (_ =? _)%nat; [eexists _, _; split; [reflexivity | left; repeat constructor]|].
  destruct (_ <? _); [eexists _, _; split; [reflexivity | left; repeat constructor]|].
  unfold upload_body.
  destruct temp_stem as [stem|e]; cbn [call mbind flow_bind endpoint];
    [|eexists _, _; split; [reflexivity | left; repeat constructor]].
  destruct (validate_csv_file (stem +:+ ".csv")) as [v|status d|e] eqn:Ev;
    cbn [mbind flow_bind endpoint].
  - destruct (negb (valid v)); cbn [endpoint];
      [eexists _, _; split; [reflexivity | left; repeat constructor]|].
    rewrite process_temp_file. cbn [call mbind flow_bind].
    unfold failure_of. cbn [success data endpoint].
    eexists _, _; split; [reflexivity | left; repeat constructor].
  - exists status, d. split; [reflexivity|]. right. by exists stem.
  - eexists _, _; split; [reflexivity | left; repeat constructor].
Qed.

(** X20.  The sessions endpoint never responds with an analysis either: no
    sessions give 400, no row left after the filters gives 422, and otherwise
    the exception that [analyze_efficiency] always ends in becomes a 500
    whose detail is "Analysis failed: " and the text of the exception. *)
Theorem analyze_sessions_never_succeeds (sessions : list Row) (req : AnalysisRequest) :
  exists status d,
    sessions_endpoint sessions req = HTTPException status d /\
    (status = 400 /\ sessions = [] \/
     status = 422 /\ sessions <> [] /\
       df_empty (sessions_frame parse_datetime session_fields sessions req) = true \/
     status = 500 /\ sessions <> [] /\
       df_empty (sessions_frame parse_datetime session_fields sessions req) = false /\
       exists e,
         analyze_efficiency parse_datetime
           (sessions_frame parse_datetime session_fields sessions req) = Raise e /\
         d = DText ("Analysis failed: " +:+ exn_str e)).
Proof.
  unfold analyze_charging_sessions. destruct sessions as [|s ss].
  { eexists _, _. split; [reflexivity|]. by left. }
  cbv zeta. destruct (df_empty _) eqn:Ee.
  { eexists _, _. split; [reflexivity|]. right. left. by repeat split. }
  destruct (analyze_efficiency_raises
              (sessions_frame parse_datetime session_fields (s :: ss) req)) as [e He].
  rewrite He. eexists _, _. split; [reflexivity|]. right. right.
  repeat split; [done|]. by exists e.
Qed.

End Endpoints.

Definition csv_upload : UploadFile :=
  mkUploadFile (Some "Charging-History.CSV") (Ok "Date,Energy Added (kWh),Cost,Starting SOC").

Definition no_filters : AnalysisRequest := mkAnalysisRequest true None None None None.

Lemma upload_of_valid_file_is_rejected_witness :
  exists e,
    upload_charging_data iso_dates (fun _ => true) (fun _ => Ok AnalysisFacts.upload)
      (Ok "/tmp/tmpk3x9a2") (fun _ => Value (mkValidation true [])) "2024-03-01T10:00:00"
      unit (fun _ => tt) csv_upload no_filters
    = HTTPException 422
        (DProcessing "Failed to process CSV data"
           ["Processing error: " +:+ exn_str e] [("error", MStr (exn_str e))]) /\
    (e = TypeError "read_csv() got an unexpected keyword argument 'errors'" \/
     e = FileNotFoundError ("No such file: " +:+ path_str ("/tmp/tmpk3x9a2" +:+ ".csv"))).
Proof.
  apply (upload_of_valid_file_is_rejected iso_dates (fun _ => true)
           (fun _ => Ok AnalysisFacts.upload) (Ok "/tmp/tmpk3x9a2")
           (fun _ => Value (mkValidation true [])) "2024-03-01T10:00:00" unit (fun _ => tt)
           csv_upload no_filters "Date,Energy Added (kWh),Cost,Starting SOC"
           "/tmp/tmpk3x9a2" (mkValidation true [])).
  - vm_compute. reflexivity.
  - reflexivity.
  - vm_compute. lia.
  - vm_compute. discriminate.
  - reflexivity.
  - reflexivity.
  - reflexivity.
Defined.

End RouterFacts.
